(** * Mock bank payment core: authorize / capture / void / refund

    A shallow embedding of the Go sources of the bank service
    (validators, repositories, payment services, HTTP handlers and the
    idempotency middleware) together with the properties of the ledger,
    the balances, the error taxonomy and the replay cache.

    Conventions.
    - Go [int64] and PostgreSQL [BIGINT] values are integers of [Z]; the
      places where Go wraps around ([-amount], [Duration * Hour]) apply
      [Int64.wrap], and the places where PostgreSQL raises
      "bigint out of range" return an error.
    - Go strings are sequences of bytes ([string] of [ascii]).  The
      validators only look for the ASCII digits '0'..'9'; no byte of a
      multi-byte UTF-8 sequence lies in that range, so ranging over bytes
      and ranging over runes select the same digits.
    - A [uuid.UUID] is a 128-bit number of [N].
    - A table is the list of its rows, most recent row first.
    - A database transaction that returns an error is rolled back: the
      operation yields the database it started from. *)

From Stdlib Require Import ZArith List String Ascii Bool Lia.
From stdpp Require Import gmap strings pretty.
Import ListNotations.

Local Set Warnings "-register-all".

Local Open Scope string_scope.
Local Open Scope Z_scope.

(** ** Machine integers *)

Module Int64.

Definition modulus : Z := 2 ^ 64.
Definition min_signed : Z := - 2 ^ 63.
Definition max_signed : Z := 2 ^ 63 - 1.

(** Two's complement wrap-around of a mathematical integer to [int64]. *)
Definition wrap (z : Z) : Z := (z + 2 ^ 63) mod modulus - 2 ^ 63.

Definition in_range (z : Z) : Prop := min_signed <= z <= max_signed.

Definition in_rangeb (z : Z) : bool := (min_signed <=? z) && (z <=? max_signed).

(** Go's unary minus on an [int64]. *)
Definition neg (z : Z) : Z := wrap (- z).

(** Go's product of two [int64]. *)
Definition mul (x y : Z) : Z := wrap (x * y).

End Int64.

(** ** Go errors

    An [error] value is a chain: a sentinel, a driver error, a message
    wrapping a cause ([fmt.Errorf] with [%w], or without a cause), or a
    [*ServiceError]. *)

Inductive error : Type :=
| ErrNoRows                                   (* sql.ErrNoRows *)
| ErrDuplicateTransaction                     (* models.ErrDuplicateTransaction *)
| ErrDriver (msg : string)                    (* any other database/sql or driver error *)
| Errorf (msg : string) (cause : option error) (* fmt.Errorf(msg) or fmt.Errorf(msg + ": %w", cause) *)
| ServiceError (Code Message : string) (Err : option error).

Inductive result (A : Type) : Type :=
| Ok (a : A)
| Err (e : error).
Arguments Ok {A} a.
Arguments Err {A} e.

(** The text of [err.Error()]. *)
Fixpoint Error (e : error) : string :=
  match e with
  | ErrNoRows => "sql: no rows in result set"
  | ErrDuplicateTransaction => "duplicate transaction"
  | ErrDriver msg => msg
  | Errorf msg None => msg
  | Errorf msg (Some c) => msg +:+ ": " +:+ Error c
  | ServiceError _ Message None => Message
  | ServiceError _ Message (Some c) => Message +:+ ": " +:+ Error c
  end.

(** [errors.Is(err, models.ErrDuplicateTransaction)]: walks the [Unwrap] chain. *)
Fixpoint is_ErrDuplicateTransaction (e : error) : bool :=
  match e with
  | ErrDuplicateTransaction => true
  | Errorf _ (Some c) => is_ErrDuplicateTransaction c
  | ServiceError _ _ (Some c) => is_ErrDuplicateTransaction c
  | _ => false
  end.

(** ** Models (package models) *)

Definition uuid : Type := N.

(** Instants and durations in nanoseconds. *)
Definition Time : Type := Z.

Inductive TransactionType : Type := AUTH_HOLD | CAPTURE | VOID | REFUND.

Inductive TransactionStatus : Type := ACTIVE | COMPLETED | EXPIRED.

Definition TransactionType_eqb (a b : TransactionType) : bool :=
  match a, b with
  | AUTH_HOLD, AUTH_HOLD | CAPTURE, CAPTURE | VOID, VOID | REFUND, REFUND => true
  | _, _ => false
  end.

Definition TransactionStatus_eqb (a b : TransactionStatus) : bool :=
  match a, b with
  | ACTIVE, ACTIVE | COMPLETED, COMPLETED | EXPIRED, EXPIRED => true
  | _, _ => false
  end.

(** A ledger row.  [Metadata] is never set by the services and is left out. *)
Record Transaction : Type := mkTransaction {
  ID : uuid;
  AccountID : uuid;
  Type_ : TransactionType;
  AmountCents : Z;
  Currency : string;
  ReferenceID : option uuid;
  Status : TransactionStatus;
  ExpiresAt : option Time;
  CreatedAt : Time
}.

Record Account : Type := mkAccount {
  AccID : uuid;
  AccountNumber : string;
  CVV : string;
  ExpiryMonth : Z;
  ExpiryYear : Z;
  BalanceCents : Z;
  AvailableBalanceCents : Z;
  UpdatedAt : Time
}.

Record IdempotencyKey : Type := mkIdempotencyKey {
  Key : string;
  RequestPath : string;
  ResponseBody : string;
  ResponseStatus : Z;
  IdemCreatedAt : Time
}.

(** ** Validators (package service) *)

Module Validators.

(** [r >= '0' && r <= '9'] *)
Definition is_digit (c : ascii) : bool :=
  let n := Z.of_nat (nat_of_ascii c) in (48 <=? n) && (n <=? 57).

(** The first loop of [ValidateLuhn]: collect [int(r - '0')] for the digits. *)
Fixpoint digits_of (s : string) : list Z :=
  match s with
  | EmptyString => []
  | String c rest =>
      if is_digit c then (Z.of_nat (nat_of_ascii c) - 48) :: digits_of rest
      else digits_of rest
  end.

(** One iteration of the second loop, on the state [(sum, isSecond)]. *)
Definition luhn_step (st : Z * bool) (digit : Z) : Z * bool :=
  let '(sum, isSecond) := st in
  let digit :=
    if isSecond then
      let digit := digit * 2 in
      if digit >? 9 then digit - 9 else digit
    else digit in
  (sum + digit, negb isSecond).

(** [for i := len(digits) - 1; i >= 0; i--]: the digits from the right. *)
Definition luhn_loop (digits : list Z) : Z * bool :=
  fold_left luhn_step (rev digits) (0, false).

Definition ValidateLuhn (cardNumber : string) : option error :=
  let digits := digits_of cardNumber in
  let len := Z.of_nat (List.length digits) in
  if (len <? 13) || (len >? 19) then
    Some (Errorf "invalid card number length: must be 13-19 digits" None)
  else
    let sum := fst (luhn_loop digits) in
    if negb (Z.rem sum 10 =? 0) then
      Some (Errorf "invalid card number: failed Luhn check" None)
    else None.

(** [%02d] on a month that passed the range check. *)
Definition pad2 (n : Z) : string := if n <? 10 then "0" +:+ pretty n else pretty n.

(** [ValidateExpiry], with [time.Now()] read as the current year and month. *)
Definition ValidateExpiry (currentYear currentMonth : Z) (expiryMonth expiryYear : Z)
  : option error :=
  if (expiryMonth <? 1) || (expiryMonth >? 12) then
    Some (Errorf "invalid month: must be between 1 and 12" None)
  else if expiryYear <? currentYear then
    Some (Errorf ("card expired: year " +:+ pretty expiryYear +:+ " is in the past") None)
  else if (expiryYear =? currentYear) && (expiryMonth <? currentMonth) then
    Some (Errorf ("card expired: " +:+ pad2 expiryMonth +:+ "/" +:+ pretty expiryYear) None)
  else None.

Definition ValidateCVV (cvv : string) : option error :=
  let len := Z.of_nat (String.length cvv) in
  if (len <? 3) || (len >? 4) then
    Some (Errorf "invalid CVV: must be 3 or 4 digits" None)
  else if forallb is_digit (list_ascii_of_string cvv) then None
  else Some (Errorf "invalid CVV: must contain only digits" None).

Definition ValidateAmount (amount : Z) : option error :=
  if amount <=? 0 then Some (Errorf "invalid amount: must be greater than 0" None)
  else None.

(** The checksum as the specification words it: counting positions from
    the right, every second digit is doubled, and 9 is subtracted from a
    doubled value that exceeds 9. *)
Definition doubled (d : Z) : Z := if 2 * d >? 9 then 2 * d - 9 else 2 * d.

Fixpoint luhn_sum_from_right (from_right : list Z) (second : bool) : Z :=
  match from_right with
  | [] => 0
  | d :: rest => (if second then doubled d else d) + luhn_sum_from_right rest (negb second)
  end.

Definition luhn_checksum (digits : list Z) : Z := luhn_sum_from_right (rev digits) false.

End Validators.

(** ** The database *)

Record DB : Type := mkDB {
  accounts : list Account;
  transactions : list Transaction
}.

Definition option_uuid_eqb (a b : option uuid) : bool :=
  match a, b with
  | Some x, Some y => N.eqb x y
  | None, None => true
  | _, _ => false
  end.

(** *** Account store (repository/account.go) *)

Module AccountRepository.

(** [SELECT ... FROM accounts WHERE id = $1] *)
Definition FindByID (db : DB) (id : uuid) : result Account :=
  match find (fun a => N.eqb (AccID a) id) (accounts db) with
  | Some a => Ok a
  | None => Err (Errorf "account not found" (Some ErrNoRows))
  end.

(** [SELECT ... FROM accounts WHERE account_number = $1] *)
Definition FindByAccountNumber (db : DB) (accountNumber : string) : result Account :=
  match find (fun a => String.eqb (AccountNumber a) accountNumber) (accounts db) with
  | Some a => Ok a
  | None => Err (Errorf "account not found" (Some ErrNoRows))
  end.

(** Modelled from the spec: [FindByAccountNumberForUpdate] is declared by
    the service's use of it but its body is not in the sources at hand;
    the specification gives it as the lookup by card number that also
    takes the row lock, so it returns what [FindByAccountNumber] returns. *)
Definition FindByAccountNumberForUpdate (db : DB) (accountNumber : string) : result Account :=
  FindByAccountNumber db accountNumber.

(** The row after [SET balance_cents = balance_cents + $2,
    available_balance_cents = available_balance_cents + $3, updated_at = NOW()]. *)
Definition adjust (now : Time) (balanceDelta availableBalanceDelta : Z) (a : Account) : Account :=
  {| AccID := AccID a;
     AccountNumber := AccountNumber a;
     CVV := CVV a;
     ExpiryMonth := ExpiryMonth a;
     ExpiryYear := ExpiryYear a;
     BalanceCents := BalanceCents a + balanceDelta;
     AvailableBalanceCents := AvailableBalanceCents a + availableBalanceDelta;
     UpdatedAt := now |}.

(** Both sums must fit the [BIGINT] columns, or the statement fails. *)
Definition fits (balanceDelta availableBalanceDelta : Z) (a : Account) : bool :=
  Int64.in_rangeb (BalanceCents a + balanceDelta)
  && Int64.in_rangeb (AvailableBalanceCents a + availableBalanceDelta).

(** The rows matched by [WHERE id = $1]. *)
Definition matched (accountID : uuid) (rows : list Account) : list Account :=
  List.filter (fun a => N.eqb (AccID a) accountID) rows.

(** The table after the [UPDATE]. *)
Definition adjust_rows (now : Time) (accountID : uuid)
    (balanceDelta availableBalanceDelta : Z) (rows : list Account) : list Account :=
  map (fun a => if N.eqb (AccID a) accountID
                then adjust now balanceDelta availableBalanceDelta a else a)
      rows.

Definition AdjustBalances (now : Time) (db : DB) (accountID : uuid)
    (balanceDelta availableBalanceDelta : Z) : result DB :=
  let rows := matched accountID (accounts db) in
  if negb (forallb (fits balanceDelta availableBalanceDelta) rows) then
    Err (Errorf "failed to adjust account balances" (Some (ErrDriver "pq: bigint out of range")))
  else if Nat.eqb (List.length rows) 0 then
    Err (Errorf "account not found" None)
  else
    Ok {| accounts :=
            adjust_rows now accountID balanceDelta availableBalanceDelta (accounts db);
          transactions := transactions db |}.

End AccountRepository.

(** *** Ledger store

    The Go file of the transaction repository is not among the sources;
    its interface is fixed by the services and the tests that call it, the
    constraints by the migration (primary key on [id], foreign key
    [account_id -> accounts(id)], partial unique index
    [idx_transactions_reference_type_unique] on [(reference_id, type)]
    where [type IN ('CAPTURE','VOID','REFUND')] and [reference_id IS NOT
    NULL]). *)

Module TransactionRepository.

(** Modelled from the spec: [find_by_id(id)], the row with that primary
    key or a not-found error. *)
Definition FindByID (db : DB) (id : uuid) : result Transaction :=
  match find (fun t => N.eqb (ID t) id) (transactions db) with
  | Some t => Ok t
  | None => Err (Errorf "transaction not found" (Some ErrNoRows))
  end.

(** Modelled from the spec: [find_by_id_for_update(id)], the row-lock
    variant of [find_by_id]; it returns the same row. *)
Definition FindByIDForUpdate (db : DB) (id : uuid) : result Transaction :=
  FindByID db id.

(** Modelled from the spec: [find_by_reference(reference_id, type)], the
    optional parent-to-child lookup; absent is [(nil, nil)]. *)
Definition FindByReferenceID (db : DB) (referenceID : uuid) (txnType : TransactionType)
  : result (option Transaction) :=
  Ok (find (fun t => option_uuid_eqb (ReferenceID t) (Some referenceID)
                     && TransactionType_eqb (Type_ t) txnType)
           (transactions db)).

(** Rows covered by the partial unique index. *)
Definition indexed (t : Transaction) : bool :=
  match Type_ t, ReferenceID t with
  | (CAPTURE | VOID | REFUND), Some _ => true
  | _, _ => false
  end.

Definition conflicts (t r : Transaction) : bool :=
  indexed r && option_uuid_eqb (ReferenceID r) (ReferenceID t)
  && TransactionType_eqb (Type_ r) (Type_ t).

(** Modelled from the spec: [create(txn)] inserts the row; a conflict on
    [(reference_id, type)] for CAPTURE, VOID or REFUND returns the
    distinct [ErrDuplicateTransaction]; any other constraint of the
    migration that the row violates (primary key, foreign key) is an
    ordinary wrapped driver error.  The services always pass an [ID]
    drawn by [uuid.New()]. *)
Definition Create (db : DB) (t : Transaction) : result DB :=
  if existsb (fun r => N.eqb (ID r) (ID t)) (transactions db) then
    Err (Errorf "failed to create transaction"
           (Some (ErrDriver "pq: duplicate key value violates unique constraint transactions_pkey")))
  else if indexed t && existsb (conflicts t) (transactions db) then
    Err ErrDuplicateTransaction
  else if negb (existsb (fun a => N.eqb (AccID a) (AccountID t)) (accounts db)) then
    Err (Errorf "failed to create transaction"
           (Some (ErrDriver "pq: insert or update on table transactions violates foreign key constraint")))
  else
    Ok {| accounts := accounts db; transactions := t :: transactions db |}.

Definition with_status (newStatus : TransactionStatus) (t : Transaction) : Transaction :=
  {| ID := ID t;
     AccountID := AccountID t;
     Type_ := Type_ t;
     AmountCents := AmountCents t;
     Currency := Currency t;
     ReferenceID := ReferenceID t;
     Status := newStatus;
     ExpiresAt := ExpiresAt t;
     CreatedAt := CreatedAt t |}.

(** Modelled from the spec: [update_status(id, new_status)]; no row with
    that id is an error (the repository test "update non-existent
    transaction" expects one). *)
Definition set_status (id : uuid) (newStatus : TransactionStatus) (rows : list Transaction)
  : list Transaction :=
  map (fun t => if N.eqb (ID t) id then with_status newStatus t else t) rows.

Definition UpdateStatus (db : DB) (id : uuid) (newStatus : TransactionStatus) : result DB :=
  if existsb (fun t => N.eqb (ID t) id) (transactions db) then
    Ok {| accounts := accounts db;
          transactions := set_status id newStatus (transactions db) |}
  else Err (Errorf "transaction not found" None).

End TransactionRepository.

(** ** Configuration (package config) *)

Module Config.

Section WithAtoi.

(** [strconv.Atoi] of the standard library; [None] is its error. *)
Variable Atoi : string -> option Z.

(** [os.Getenv(key)] on the process environment: the empty string when
    the variable is not set. *)
Definition Getenv (environ : gmap string string) (key : string) : string :=
  match environ !! key with
  | Some v => v
  | None => ""
  end.

Definition getEnvAsInt (environ : gmap string string) (key : string) (defaultValue : Z) : Z :=
  let valueStr := Getenv environ key in
  if String.eqb valueStr "" then defaultValue
  else match Atoi valueStr with
       | None => defaultValue
       | Some value => value
       end.

(** The [AuthExpiryHours] field that [Load] fills in. *)
Definition AuthExpiryHours (environ : gmap string string) : Z :=
  getEnvAsInt environ "AUTH_EXPIRY_HOURS" 168.

End WithAtoi.

End Config.

(** ** Payment services (package service) *)

(** What one service call reads from its surroundings: the clock
    ([time.Now()], taken once per call, and its calendar year and month),
    the identifier drawn by [uuid.New()], and whether [BeginTx] or
    [Commit] fail. *)
Record Env : Type := mkEnv {
  now : Time;
  currentYear : Z;
  currentMonth : Z;
  newUUID : uuid;
  beginErr : option error;
  commitErr : option error
}.

Module Service.

Definition ErrCodeInvalidCard := "invalid_card".
Definition ErrCodeInvalidCVV := "invalid_cvv".
Definition ErrCodeInvalidAmount := "invalid_amount".
Definition ErrCodeCardExpired := "card_expired".
Definition ErrCodeInsufficientFunds := "insufficient_funds".
Definition ErrCodeAccountNotFound := "account_not_found".
Definition ErrCodeAuthNotFound := "authorization_not_found".
Definition ErrCodeAuthExpired := "authorization_expired".
Definition ErrCodeAuthAlreadyUsed := "authorization_already_used".
Definition ErrCodeAlreadyCaptured := "already_captured".
Definition ErrCodeAlreadyVoided := "already_voided".
Definition ErrCodeAlreadyRefunded := "already_refunded".
Definition ErrCodeAmountMismatch := "amount_mismatch".
Definition ErrCodeCaptureNotFound := "capture_not_found".
Definition ErrCodeInternalError := "internal_error".

(** [time.Hour] in nanoseconds. *)
Definition Hour : Z := 3600 * 1000000000.

(** The shape shared by [Authorize], [Capture], [Void] and [Refund]:
    [BeginTx], the business logic on the transaction's view of the
    database, [Commit]; the deferred [Rollback] restores the database on
    every error path. *)
Definition inTx (env : Env) (db : DB) (body : DB -> result (Transaction * DB))
  : result Transaction * DB :=
  match beginErr env with
  | Some err =>
      (Err (ServiceError ErrCodeInternalError
              ("failed to start transaction: " +:+ Error err) None), db)
  | None =>
      match body db with
      | Err e => (Err e, db)
      | Ok (txn, db') =>
          match commitErr env with
          | Some err =>
              (Err (ServiceError ErrCodeInternalError
                      ("failed to commit transaction: " +:+ Error err) None), db)
          | None => (Ok txn, db')
          end
      end
  end.

(** *** Authorization *)

Record AuthorizationService : Type := mkAuthorizationService {
  authExpiryHours : Z
}.

Definition NewAuthorizationService (authExpiryHours : Z) : AuthorizationService :=
  {| authExpiryHours := authExpiryHours |}.

Definition validateAuthorizationRequest (cardNumber cvv : string) (amount : Z)
  : option error :=
  match Validators.ValidateLuhn cardNumber with
  | Some err => Some (ServiceError ErrCodeInvalidCard (Error err) None)
  | None =>
      match Validators.ValidateCVV cvv with
      | Some err => Some (ServiceError ErrCodeInvalidCVV (Error err) None)
      | None =>
          match Validators.ValidateAmount amount with
          | Some err => Some (ServiceError ErrCodeInvalidAmount (Error err) None)
          | None => None
          end
      end
  end.

(** [time.Now().Add(time.Duration(s.authExpiryHours) * time.Hour)] *)
Definition expiresAt (s : AuthorizationService) (env : Env) : Time :=
  now env + Int64.mul (authExpiryHours s) Hour.

Definition performAuthorization (s : AuthorizationService) (env : Env) (db : DB)
    (cardNumber cvv : string) (amount : Z) : result (Transaction * DB) :=
  match AccountRepository.FindByAccountNumberForUpdate db cardNumber with
  | Err _ => Err (ServiceError ErrCodeInvalidCard "card not found or invalid" None)
  | Ok account =>
      if negb (String.eqb (CVV account) cvv) then
        Err (ServiceError ErrCodeInvalidCVV "CVV does not match" None)
      else
        match Validators.ValidateExpiry (currentYear env) (currentMonth env)
                (ExpiryMonth account) (ExpiryYear account) with
        | Some err => Err (ServiceError ErrCodeCardExpired (Error err) None)
        | None =>
            if AvailableBalanceCents account <? amount then
              Err (ServiceError ErrCodeInsufficientFunds "insufficient funds" None)
            else
              let authTx :=
                {| ID := newUUID env;
                   AccountID := AccID account;
                   Type_ := AUTH_HOLD;
                   AmountCents := amount;
                   Currency := "USD";
                   ReferenceID := None;
                   Status := ACTIVE;
                   ExpiresAt := Some (expiresAt s env);
                   CreatedAt := now env |} in
              match TransactionRepository.Create db authTx with
              | Err err =>
                  Err (ServiceError ErrCodeInternalError
                         ("failed to create authorization: " +:+ Error err) None)
              | Ok db1 =>
                  match AccountRepository.AdjustBalances (now env) db1 (AccID account)
                          0 (Int64.neg amount) with
                  | Err err =>
                      Err (ServiceError ErrCodeInternalError
                             ("failed to adjust balance: " +:+ Error err) None)
                  | Ok db2 => Ok (authTx, db2)
                  end
              end
        end
  end.

Definition Authorize (s : AuthorizationService) (env : Env) (db : DB)
    (cardNumber cvv : string) (amount : Z) : result Transaction * DB :=
  match validateAuthorizationRequest cardNumber cvv amount with
  | Some err => (Err err, db)
  | None => inTx env db (fun tx => performAuthorization s env tx cardNumber cvv amount)
  end.

Definition GetAuthorization (db : DB) (authID : uuid) : result Transaction :=
  match TransactionRepository.FindByID db authID with
  | Err _ => Err (ServiceError ErrCodeAuthNotFound "authorization not found" None)
  | Ok txn =>
      if negb (TransactionType_eqb (Type_ txn) AUTH_HOLD) then
        Err (ServiceError ErrCodeAuthNotFound "authorization not found" None)
      else Ok txn
  end.

(** *** Capture *)

(** The authorization carries an expiry and [time.Now()] is after it. *)
Definition expired (env : Env) (t : Transaction) : bool :=
  match ExpiresAt t with
  | Some e => now env >? e
  | None => false
  end.

Definition performCapture (env : Env) (db : DB) (authorizationID : uuid) (amount : Z)
  : result (Transaction * DB) :=
  match TransactionRepository.FindByIDForUpdate db authorizationID with
  | Err _ => Err (ServiceError ErrCodeAuthNotFound "authorization not found" None)
  | Ok authTxn =>
      if negb (TransactionType_eqb (Type_ authTxn) AUTH_HOLD) then
        Err (ServiceError ErrCodeAuthNotFound "authorization not found" None)
      else if negb (TransactionStatus_eqb (Status authTxn) ACTIVE) then
        Err (ServiceError ErrCodeAuthAlreadyUsed
               "authorization has already been completed or cancelled" None)
      else if expired env authTxn then
        Err (ServiceError ErrCodeAuthExpired "authorization has expired" None)
      else if negb (amount =? AmountCents authTxn) then
        Err (ServiceError ErrCodeAmountMismatch
               "capture amount does not match authorized amount" None)
      else
        let captureTxn :=
          {| ID := newUUID env;
             AccountID := AccountID authTxn;
             Type_ := CAPTURE;
             AmountCents := amount;
             Currency := Currency authTxn;
             ReferenceID := Some authorizationID;
             Status := COMPLETED;
             ExpiresAt := None;
             CreatedAt := now env |} in
        match TransactionRepository.Create db captureTxn with
        | Err err =>
            if is_ErrDuplicateTransaction err then
              Err (ServiceError ErrCodeAlreadyCaptured
                     "authorization has already been captured" None)
            else Err (Errorf "failed to create capture" (Some err))
        | Ok db1 =>
            match TransactionRepository.UpdateStatus db1 authorizationID COMPLETED with
            | Err err =>
                Err (ServiceError ErrCodeInternalError
                       ("failed to update authorization: " +:+ Error err) None)
            | Ok db2 =>
                match AccountRepository.AdjustBalances (now env) db2 (AccountID authTxn)
                        (Int64.neg amount) 0 with
                | Err err =>
                    Err (ServiceError ErrCodeInternalError
                           ("failed to adjust balance: " +:+ Error err) None)
                | Ok db3 => Ok (captureTxn, db3)
                end
            end
        end
  end.

Definition Capture (env : Env) (db : DB) (authorizationID : uuid) (amount : Z)
  : result Transaction * DB :=
  inTx env db (fun tx => performCapture env tx authorizationID amount).

Definition GetCapture (db : DB) (captureID : uuid) : result Transaction :=
  match TransactionRepository.FindByID db captureID with
  | Err _ => Err (ServiceError ErrCodeCaptureNotFound "capture not found" None)
  | Ok txn =>
      if negb (TransactionType_eqb (Type_ txn) CAPTURE) then
        Err (ServiceError ErrCodeCaptureNotFound "capture not found" None)
      else Ok txn
  end.

(** *** Void *)

Definition performVoid (env : Env) (db : DB) (authorizationID : uuid)
  : result (Transaction * DB) :=
  match TransactionRepository.FindByIDForUpdate db authorizationID with
  | Err _ => Err (ServiceError ErrCodeAuthNotFound "authorization not found" None)
  | Ok authTxn =>
      if negb (TransactionType_eqb (Type_ authTxn) AUTH_HOLD) then
        Err (ServiceError ErrCodeAuthNotFound "authorization not found" None)
      else if negb (TransactionStatus_eqb (Status authTxn) ACTIVE) then
        Err (ServiceError ErrCodeAuthAlreadyUsed
               "authorization has already been completed or cancelled" None)
      else
        match TransactionRepository.FindByReferenceID db authorizationID CAPTURE with
        | Err err =>
            Err (ServiceError ErrCodeInternalError
                   ("failed to check existing capture: " +:+ Error err) None)
        | Ok (Some _) =>
            Err (ServiceError ErrCodeAlreadyCaptured
                   "cannot void an authorization that has been captured" None)
        | Ok None =>
            let voidTxn :=
              {| ID := newUUID env;
                 AccountID := AccountID authTxn;
                 Type_ := VOID;
                 AmountCents := AmountCents authTxn;
                 Currency := Currency authTxn;
                 ReferenceID := Some authorizationID;
                 Status := COMPLETED;
                 ExpiresAt := None;
                 CreatedAt := now env |} in
            match TransactionRepository.Create db voidTxn with
            | Err err =>
                if is_ErrDuplicateTransaction err then
                  Err (ServiceError ErrCodeAlreadyVoided
                         "authorization has already been voided" None)
                else Err (Errorf "failed to create void" (Some err))
            | Ok db1 =>
                match TransactionRepository.UpdateStatus db1 authorizationID COMPLETED with
                | Err err =>
                    Err (ServiceError ErrCodeInternalError
                           ("failed to update authorization: " +:+ Error err) None)
                | Ok db2 =>
                    match AccountRepository.AdjustBalances (now env) db2 (AccountID authTxn)
                            0 (AmountCents authTxn) with
                    | Err err =>
                        Err (ServiceError ErrCodeInternalError
                               ("failed to adjust balance: " +:+ Error err) None)
                    | Ok db3 => Ok (voidTxn, db3)
                    end
                end
            end
        end
  end.

Definition Void (env : Env) (db : DB) (authorizationID : uuid) : result Transaction * DB :=
  inTx env db (fun tx => performVoid env tx authorizationID).

(** *** Refund *)

Definition performRefund (env : Env) (db : DB) (captureID : uuid) (amount : Z)
  : result (Transaction * DB) :=
  match TransactionRepository.FindByIDForUpdate db captureID with
  | Err _ => Err (ServiceError ErrCodeCaptureNotFound "capture not found" None)
  | Ok captureTxn =>
      if negb (TransactionType_eqb (Type_ captureTxn) CAPTURE) then
        Err (ServiceError ErrCodeCaptureNotFound "capture not found" None)
      else if negb (TransactionStatus_eqb (Status captureTxn) COMPLETED) then
        Err (ServiceError ErrCodeCaptureNotFound "capture is not in completed status" None)
      else if negb (amount =? AmountCents captureTxn) then
        Err (ServiceError ErrCodeAmountMismatch
               ("refund amount (" +:+ pretty amount +:+ ") must equal capture amount ("
                  +:+ pretty (AmountCents captureTxn) +:+ ")") None)
      else
        let refundTxn :=
          {| ID := newUUID env;
             AccountID := AccountID captureTxn;
             Type_ := REFUND;
             AmountCents := amount;
             Currency := Currency captureTxn;
             ReferenceID := Some captureID;
             Status := COMPLETED;
             ExpiresAt := None;
             CreatedAt := now env |} in
        match TransactionRepository.Create db refundTxn with
        | Err err =>
            if is_ErrDuplicateTransaction err then
              Err (ServiceError ErrCodeAlreadyRefunded
                     "capture has already been refunded" None)
            else Err (Errorf "failed to create refund" (Some err))
        | Ok db1 =>
            match AccountRepository.AdjustBalances (now env) db1 (AccountID captureTxn)
                    amount amount with
            | Err err =>
                Err (ServiceError ErrCodeInternalError
                       ("failed to adjust balance: " +:+ Error err) None)
            | Ok db2 => Ok (refundTxn, db2)
            end
        end
  end.

Definition Refund (env : Env) (db : DB) (captureID : uuid) (amount : Z)
  : result Transaction * DB :=
  inTx env db (fun tx => performRefund env tx captureID amount).

Definition GetRefund (db : DB) (refundID : uuid) : result Transaction :=
  match TransactionRepository.FindByID db refundID with
  | Err _ => Err (ServiceError "refund_not_found" "refund not found" None)
  | Ok txn =>
      if negb (TransactionType_eqb (Type_ txn) REFUND) then
        Err (ServiceError "refund_not_found" "refund not found" None)
      else Ok txn
  end.

End Service.

(** ** HTTP layer (package handlers) *)

Module Handlers.

(** Modelled from the spec: the generated [api.ErrorCode] constants are
    not among the sources; they are the codes of the error taxonomy, one
    constant per code the handlers name. *)
Inductive ErrorCode : Type :=
| ErrorCodeInvalidCard
| ErrorCodeInvalidCvv
| ErrorCodeInvalidAmount
| ErrorCodeCardExpired
| ErrorCodeInsufficientFunds
| ErrorCodeAuthorizationNotFound
| ErrorCodeAuthorizationExpired
| ErrorCodeAuthorizationAlreadyUsed
| ErrorCodeAlreadyCaptured
| ErrorCodeAlreadyVoided
| ErrorCodeAlreadyRefunded
| ErrorCodeAmountMismatch
| ErrorCodeCaptureNotFound
| ErrorCodeNotFound
| ErrorCodeInternalError.

(** Modelled from the spec: the text of each code in a response body. *)
Definition ErrorCode_text (c : ErrorCode) : string :=
  match c with
  | ErrorCodeInvalidCard => "invalid_card"
  | ErrorCodeInvalidCvv => "invalid_cvv"
  | ErrorCodeInvalidAmount => "invalid_amount"
  | ErrorCodeCardExpired => "card_expired"
  | ErrorCodeInsufficientFunds => "insufficient_funds"
  | ErrorCodeAuthorizationNotFound => "authorization_not_found"
  | ErrorCodeAuthorizationExpired => "authorization_expired"
  | ErrorCodeAuthorizationAlreadyUsed => "authorization_already_used"
  | ErrorCodeAlreadyCaptured => "already_captured"
  | ErrorCodeAlreadyVoided => "already_voided"
  | ErrorCodeAlreadyRefunded => "already_refunded"
  | ErrorCodeAmountMismatch => "amount_mismatch"
  | ErrorCodeCaptureNotFound => "capture_not_found"
  | ErrorCodeNotFound => "not_found"
  | ErrorCodeInternalError => "internal_error"
  end.

(** The generated response objects of one endpoint; each is named after
    the HTTP status it is written with ([Create...200JSONResponse],
    [...400JSONResponse], ...). *)
Inductive ResponseObject (A : Type) : Type :=
| JSON200 (body : A)
| JSON400 (Error_ : ErrorCode) (Message : string)
| JSON402 (Error_ : ErrorCode) (Message : string)
| JSON404 (Error_ : ErrorCode) (Message : string)
| JSON500 (Error_ : ErrorCode) (Message : string).
Arguments JSON200 {A} body.
Arguments JSON400 {A} Error_ Message.
Arguments JSON402 {A} Error_ Message.
Arguments JSON404 {A} Error_ Message.
Arguments JSON500 {A} Error_ Message.

Definition StatusCode {A : Type} (r : ResponseObject A) : Z :=
  match r with
  | JSON200 _ => 200
  | JSON400 _ _ => 400
  | JSON402 _ _ => 402
  | JSON404 _ _ => 404
  | JSON500 _ _ => 500
  end.

Definition ErrorOf {A : Type} (r : ResponseObject A) : option ErrorCode :=
  match r with
  | JSON200 _ => None
  | JSON400 e _ | JSON402 e _ | JSON404 e _ | JSON500 e _ => Some e
  end.

Definition PrefixAuthorization := "auth_".
Definition PrefixCapture := "cap_".
Definition PrefixVoid := "void_".
Definition PrefixRefund := "ref_".

Definition mapServiceErrorToCode (code : string) : ErrorCode :=
  if String.eqb code Service.ErrCodeInvalidCard then ErrorCodeInvalidCard
  else if String.eqb code Service.ErrCodeInvalidCVV then ErrorCodeInvalidCvv
  else if String.eqb code Service.ErrCodeInvalidAmount then ErrorCodeInvalidAmount
  else if String.eqb code Service.ErrCodeCardExpired then ErrorCodeCardExpired
  else if String.eqb code Service.ErrCodeInsufficientFunds then ErrorCodeInsufficientFunds
  else if String.eqb code Service.ErrCodeAuthNotFound then ErrorCodeAuthorizationNotFound
  else if String.eqb code Service.ErrCodeAuthExpired then ErrorCodeAuthorizationExpired
  else if String.eqb code Service.ErrCodeAuthAlreadyUsed then ErrorCodeAuthorizationAlreadyUsed
  else if String.eqb code Service.ErrCodeAlreadyCaptured then ErrorCodeAlreadyCaptured
  else if String.eqb code Service.ErrCodeAlreadyVoided then ErrorCodeAlreadyVoided
  else if String.eqb code Service.ErrCodeAlreadyRefunded then ErrorCodeAlreadyRefunded
  else if String.eqb code Service.ErrCodeAmountMismatch then ErrorCodeAmountMismatch
  else if String.eqb code Service.ErrCodeCaptureNotFound then ErrorCodeCaptureNotFound
  else ErrorCodeInternalError.

Definition isPaymentRequiredError (code : string) : bool :=
  String.eqb code Service.ErrCodeInsufficientFunds.

(** [errors.As(err, &svcErr)]: the first [*ServiceError] of the chain, as
    its code and message. *)
Fixpoint extractServiceError (err : error) : option (string * string) :=
  match err with
  | ServiceError Code Message _ => Some (Code, Message)
  | Errorf _ (Some c) => extractServiceError c
  | _ => None
  end.

Definition handleAuthorizationError {A : Type} (err : error) : ResponseObject A :=
  match extractServiceError err with
  | None => JSON500 ErrorCodeInternalError "internal error"
  | Some (Code, Message) =>
      let errorCode := mapServiceErrorToCode Code in
      if isPaymentRequiredError Code then JSON402 errorCode Message
      else JSON400 errorCode Message
  end.

(** [handleVoidError], [handleRefundError] and [handleCaptureError] have
    one body. *)
Definition handleCaptureError {A : Type} (err : error) : ResponseObject A :=
  match extractServiceError err with
  | None => JSON500 ErrorCodeInternalError "internal error"
  | Some (Code, Message) => JSON400 (mapServiceErrorToCode Code) Message
  end.

Definition handleVoidError {A : Type} (err : error) : ResponseObject A :=
  match extractServiceError err with
  | None => JSON500 ErrorCodeInternalError "internal error"
  | Some (Code, Message) => JSON400 (mapServiceErrorToCode Code) Message
  end.

Definition handleRefundError {A : Type} (err : error) : ResponseObject A :=
  match extractServiceError err with
  | None => JSON500 ErrorCodeInternalError "internal error"
  | Some (Code, Message) => JSON400 (mapServiceErrorToCode Code) Message
  end.

Record AuthorizationBody : Type := mkAuthorizationBody {
  AuthorizationId : string;
  AuthAmount : Z;
  AuthCurrency : string;
  AuthExpiresAt : Time;
  AuthCreatedAt : Time
}.

(** The bodies of a capture, a void and a refund: the operation's id, the
    id of the row it refers to, amount, currency and time. *)
Record ChildBody : Type := mkChildBody {
  ChildId : string;
  ParentId : string;
  ChildAmount : Z;
  ChildCurrency : string;
  ChildAt : Time
}.

Section WithUUIDText.

(** [uuid.Parse] and [UUID.String] of the uuid library. *)
Variable uuid_Parse : string -> option uuid.
Variable uuid_String : uuid -> string.

Definition formatAuthorizationID (id : uuid) : string := PrefixAuthorization +:+ uuid_String id.
Definition formatCaptureID (id : uuid) : string := PrefixCapture +:+ uuid_String id.
Definition formatVoidID (id : uuid) : string := PrefixVoid +:+ uuid_String id.
Definition formatRefundID (id : uuid) : string := PrefixRefund +:+ uuid_String id.

Definition parseIDWithPrefix (id prefix : string) : option uuid :=
  if negb (String.prefix prefix id) then None
  else uuid_Parse (String.substring (String.length prefix)
                     (String.length id - String.length prefix) id).

Definition parseAuthorizationID (id : string) : option uuid :=
  parseIDWithPrefix id PrefixAuthorization.
Definition parseCaptureID (id : string) : option uuid :=
  parseIDWithPrefix id PrefixCapture.
Definition parseRefundID (id : string) : option uuid :=
  parseIDWithPrefix id PrefixRefund.

(** A handler returns its response object and the database after the
    call; [None] stands for the panic of dereferencing a nil
    [ExpiresAt] or [ReferenceID]. *)
Definition CreateAuthorization (s : Service.AuthorizationService) (env : Env) (db : DB)
    (CardNumber Cvv : string) (Amount : Z)
  : option (ResponseObject AuthorizationBody) * DB :=
  match Service.Authorize s env db CardNumber Cvv Amount with
  | (Err err, db') => (Some (handleAuthorizationError err), db')
  | (Ok txn, db') =>
      (match ExpiresAt txn with
       | Some e =>
           Some (JSON200 {| AuthorizationId := formatAuthorizationID (ID txn);
                            AuthAmount := AmountCents txn;
                            AuthCurrency := Currency txn;
                            AuthExpiresAt := e;
                            AuthCreatedAt := CreatedAt txn |})
       | None => None
       end, db')
  end.

Definition child200 (fmt : uuid -> string) (fmtParent : uuid -> string) (txn : Transaction)
  : option (ResponseObject ChildBody) :=
  match ReferenceID txn with
  | Some ref =>
      Some (JSON200 {| ChildId := fmt (ID txn);
                       ParentId := fmtParent ref;
                       ChildAmount := AmountCents txn;
                       ChildCurrency := Currency txn;
                       ChildAt := CreatedAt txn |})
  | None => None
  end.

Definition CreateCapture (env : Env) (db : DB) (AuthorizationId_ : string) (Amount : Z)
  : option (ResponseObject ChildBody) * DB :=
  match parseAuthorizationID AuthorizationId_ with
  | None =>
      (Some (JSON400 ErrorCodeAuthorizationNotFound "invalid authorization ID format"), db)
  | Some authID =>
      match Service.Capture env db authID Amount with
      | (Err err, db') => (Some (handleCaptureError err), db')
      | (Ok txn, db') => (child200 formatCaptureID formatAuthorizationID txn, db')
      end
  end.

Definition CreateVoid (env : Env) (db : DB) (AuthorizationId_ : string)
  : option (ResponseObject ChildBody) * DB :=
  match parseAuthorizationID AuthorizationId_ with
  | None =>
      (Some (JSON400 ErrorCodeAuthorizationNotFound "invalid authorization ID format"), db)
  | Some authID =>
      match Service.Void env db authID with
      | (Err err, db') => (Some (handleVoidError err), db')
      | (Ok txn, db') => (child200 formatVoidID formatAuthorizationID txn, db')
      end
  end.

Definition CreateRefund (env : Env) (db : DB) (CaptureId : string) (Amount : Z)
  : option (ResponseObject ChildBody) * DB :=
  match parseCaptureID CaptureId with
  | None => (Some (JSON400 ErrorCodeCaptureNotFound "invalid capture ID format"), db)
  | Some captureID =>
      match Service.Refund env db captureID Amount with
      | (Err err, db') => (Some (handleRefundError err), db')
      | (Ok txn, db') => (child200 formatRefundID formatCaptureID txn, db')
      end
  end.

End WithUUIDText.

End Handlers.

(** ** Idempotency middleware (package middleware) *)

Module Middleware.

Definition idempotencyKeyHeader := "Idempotency-Key".

Definition idempotentPaths : list string :=
  [ "/api/v1/authorizations"; "/api/v1/captures"; "/api/v1/voids"; "/api/v1/refunds" ].

(** A request, as far as the middleware reads it.  [Header] maps a
    canonical header name to its first value. *)
Record Request : Type := mkRequest {
  Method : string;
  URL_Path : string;
  Header : gmap string string
}.

(** [r.Header.Get(key)]: the empty string when the header is absent. *)
Definition Header_Get (h : gmap string string) (key : string) : string :=
  match h !! key with
  | Some v => v
  | None => ""
  end.

(** The calls made on an [http.ResponseWriter], in order. *)
Inductive WriterCall : Type :=
| HeaderSet (key value : string)
| WriteHeader (code : Z)
| Write (b : string).

Record responseCapture : Type := mkResponseCapture {
  body : string;
  statusCode : Z
}.

Definition newResponseCapture : responseCapture :=
  {| body := ""; statusCode := 200 |}.

(** The capture's own [WriteHeader] and [Write] record and then forward
    to the embedded writer; [Header()] is the embedded writer's. *)
Definition capture_call (rc : responseCapture) (c : WriterCall) : responseCapture :=
  match c with
  | WriteHeader code => {| body := body rc; statusCode := code |}
  | Write b => {| body := body rc +:+ b; statusCode := statusCode rc |}
  | HeaderSet _ _ => rc
  end.

Definition captured (calls : list WriterCall) : responseCapture :=
  fold_left capture_call calls newResponseCapture.

(** The response of a handler as the specification words it ("invoke the
    handler while capturing status and body"), read off the calls alone:
    the body is the payloads of the [Write] calls, one after the other in
    the order of the calls; the status is the code of the last
    [WriteHeader] call, and 200 when the handler never calls it. *)
Fixpoint written_body (calls : list WriterCall) : string :=
  match calls with
  | [] => ""
  | Write b :: rest => b +:+ written_body rest
  | _ :: rest => written_body rest
  end.

Fixpoint last_code (calls : list WriterCall) : option Z :=
  match calls with
  | [] => None
  | c :: rest =>
      match last_code rest, c with
      | Some code, _ => Some code
      | None, WriteHeader code => Some code
      | None, _ => None
      end
  end.

Definition written_status (calls : list WriterCall) : Z :=
  match last_code calls with
  | Some code => code
  | None => 200
  end.

Definition requiresIdempotency (r : Request) : bool :=
  if negb (String.eqb (Method r) "POST") then false
  else existsb (String.eqb (URL_Path r)) idempotentPaths.

(** [strings.TrimSuffix(urlPath, "/")]: one trailing slash is removed. *)
Fixpoint normalizeRequestPath (urlPath : string) : string :=
  match urlPath with
  | EmptyString => EmptyString
  | String c EmptyString => if Ascii.eqb c "/"%char then EmptyString else urlPath
  | String c rest => String c (normalizeRequestPath rest)
  end.

Definition shouldCacheResponse (statusCode : Z) : bool :=
  (200 <=? statusCode) && (statusCode <? 300).

(** What serving one request leaves behind: the calls made on the
    client's writer, the idempotency store, the state behind the handler,
    the lines logged at error level. *)
Record Served (S W : Type) : Type := mkServed {
  written : list WriterCall;
  store : S;
  world : W;
  errors_logged : list string
}.
Arguments mkServed {S W} written store world errors_logged.
Arguments written {S W} s.
Arguments store {S W} s.
Arguments world {S W} s.
Arguments errors_logged {S W} s.

Section Idempotency.

(** The store behind the [IdempotencyRepository] interface and the
    state behind the wrapped handler. *)
Context {S W : Type}.

(** [repo.Get] and [repo.Store]. *)
Variable repo_Get : S -> string -> string -> result (option IdempotencyKey).
Variable repo_Store : S -> IdempotencyKey -> option error * S.

(** [next.ServeHTTP(w, r)]: the calls the handler makes on the writer it
    is given, and the state it leaves. *)
Variable next : Request -> W -> list WriterCall * W.

(** [time.Now()] at the time of storing. *)
Variable clock : Time.

Definition pass_through (r : Request) (st : S) (w : W) (logs : list string)
  : Served S W :=
  let '(calls, w') := next r w in
  {| written := calls; store := st; world := w'; errors_logged := logs |}.

Definition Idempotency (r : Request) (st : S) (w : W) : Served S W :=
  if negb (requiresIdempotency r) then pass_through r st w []
  else
    let idempotencyKey := Header_Get (Header r) idempotencyKeyHeader in
    if String.eqb idempotencyKey "" then pass_through r st w []
    else
      let requestPath := normalizeRequestPath (URL_Path r) in
      match repo_Get st idempotencyKey requestPath with
      | Err err => pass_through r st w ["failed to check idempotency cache"]
      | Ok (Some cached) =>
          {| written :=
               [ HeaderSet "Content-Type" "application/json";
                 HeaderSet "X-Idempotent-Replayed" "true";
                 WriteHeader (ResponseStatus cached);
                 Write (ResponseBody cached) ];
             store := st;
             world := w;
             errors_logged := [] |}
      | Ok None =>
          let '(calls, w') := next r w in
          let capture := captured calls in
          if shouldCacheResponse (statusCode capture) then
            let idemKey :=
              {| Key := idempotencyKey;
                 RequestPath := requestPath;
                 ResponseBody := body capture;
                 ResponseStatus := statusCode capture;
                 IdemCreatedAt := clock |} in
            match repo_Store st idemKey with
            | (Some err, st') =>
                {| written := calls; store := st'; world := w';
                   errors_logged := ["failed to store idempotency key"] |}
            | (None, st') =>
                {| written := calls; store := st'; world := w'; errors_logged := [] |}
            end
          else
            {| written := calls; store := st; world := w'; errors_logged := [] |}
      end.

End Idempotency.

(** *** The idempotency store

    Modelled from the spec: the Go file of the idempotency repository is
    not among the sources.  [get(key, path)] returns the record or
    absent; [put(record)] inserts and, on a conflict on [(key,
    request_path)], keeps the first write. *)
Definition MemStore : Type := gmap (string * string) IdempotencyKey.

Definition Mem_Get (st : MemStore) (key requestPath : string)
  : result (option IdempotencyKey) :=
  Ok (st !! (key, requestPath)).

Definition Mem_Store (st : MemStore) (idemKey : IdempotencyKey) : option error * MemStore :=
  match st !! (Key idemKey, RequestPath idemKey) with
  | Some _ => (None, st)
  | None => (None, <[ (Key idemKey, RequestPath idemKey) := idemKey ]> st)
  end.

(** A store whose writes always fail and change nothing. *)
Definition Failing_Store (st : MemStore) (idemKey : IdempotencyKey) : option error * MemStore :=
  (Some (ErrDriver "failed to store"), st).

End Middleware.

(** ** The ledger as a whole *)

(** One request to a payment service. *)
Inductive Op : Type :=
| OpAuthorize (cardNumber cvv : string) (amount : Z)
| OpCapture (authorizationID : uuid) (amount : Z)
| OpVoid (authorizationID : uuid)
| OpRefund (captureID : uuid) (amount : Z).

Definition exec (s : Service.AuthorizationService) (env : Env) (op : Op) (db : DB)
  : result Transaction * DB :=
  match op with
  | OpAuthorize cardNumber cvv amount => Service.Authorize s env db cardNumber cvv amount
  | OpCapture authorizationID amount => Service.Capture env db authorizationID amount
  | OpVoid authorizationID => Service.Void env db authorizationID
  | OpRefund captureID amount => Service.Refund env db captureID amount
  end.

(** A history: requests served one after the other, each in its own
    surroundings; a request that fails leaves the database as it was. *)
Fixpoint run (s : Service.AuthorizationService) (history : list (Env * Op)) (db : DB) : DB :=
  match history with
  | [] => db
  | (env, op) :: rest => run s rest (snd (exec s env op db))
  end.

(** The signed deltas of the balance-effects table. *)
Definition posted_delta (t : Transaction) : Z :=
  match Type_ t with
  | AUTH_HOLD => 0
  | CAPTURE => - AmountCents t
  | VOID => 0
  | REFUND => AmountCents t
  end.

Definition available_delta (t : Transaction) : Z :=
  match Type_ t with
  | AUTH_HOLD => - AmountCents t
  | CAPTURE => 0
  | VOID => AmountCents t
  | REFUND => AmountCents t
  end.

(** The sum of a delta over the ledger rows of one account. *)
Fixpoint ledger_sum (delta : Transaction -> Z) (accountID : uuid) (rows : list Transaction) : Z :=
  match rows with
  | [] => 0
  | t :: rest =>
      (if N.eqb (AccountID t) accountID then delta t else 0) + ledger_sum delta accountID rest
  end.

(** The amount of an account's holds that are still ACTIVE. *)
Definition hold_amount (t : Transaction) : Z :=
  match Type_ t, Status t with
  | AUTH_HOLD, ACTIVE => AmountCents t
  | _, _ => 0
  end.

(** The lookup of an account by id, as an option. *)
Definition account_of (db : DB) (id : uuid) : option Account :=
  find (fun a => N.eqb (AccID a) id) (accounts db).

(** The columns of every account row hold [BIGINT] values. *)
Definition accounts_typed (db : DB) : Prop :=
  Forall (fun a => Int64.in_range (BalanceCents a) /\ Int64.in_range (AvailableBalanceCents a))
         (accounts db).

(** Every hold of the ledger is for a positive [int64] amount. *)
Definition holds_positive (db : DB) : Prop :=
  Forall (fun t => Type_ t = AUTH_HOLD -> 0 < AmountCents t <= Int64.max_signed)
         (transactions db).

(** A seed state: the accounts are provisioned and nothing is in the ledger. *)
Definition seed (db : DB) : Prop :=
  transactions db = [] /\ accounts_typed db.

(** Every account keeps its active holds between available and posted. *)
Definition holds_covered (db : DB) : Prop :=
  Forall (fun a =>
            AvailableBalanceCents a + ledger_sum hold_amount (AccID a) (transactions db)
            <= BalanceCents a)
         (accounts db).

Definition available_le_balance (db : DB) : Prop :=
  Forall (fun a => AvailableBalanceCents a <= BalanceCents a) (accounts db).

(** *** What a committed operation does to the database

    One ledger row is put on top of the table and the account it names is
    moved by the row's own deltas; capture and void also complete the hold
    they settle. *)

Definition posts (at_ : Time) (t : Transaction) (rows' : list Transaction) (db db' : DB) : Prop :=
  transactions db' = t :: rows'
  /\ accounts db'
     = AccountRepository.adjust_rows at_ (AccountID t) (posted_delta t) (available_delta t)
         (accounts db)
  /\ forallb (AccountRepository.fits (posted_delta t) (available_delta t))
             (AccountRepository.matched (AccountID t) (accounts db)) = true.

Inductive effect (db db' : DB) : Prop :=
| effect_hold (at_ : Time) (t : Transaction) :
    Type_ t = AUTH_HOLD ->
    Status t = ACTIVE ->
    0 < AmountCents t <= Int64.max_signed ->
    posts at_ t (transactions db) db db' ->
    effect db db'
| effect_settle (at_ : Time) (t auth : Transaction) :
    Type_ t = CAPTURE \/ Type_ t = VOID ->
    In auth (transactions db) ->
    Type_ auth = AUTH_HOLD ->
    Status auth = ACTIVE ->
    AccountID t = AccountID auth ->
    AmountCents t = AmountCents auth ->
    posts at_ t (TransactionRepository.set_status (ID auth) COMPLETED (transactions db)) db db' ->
    effect db db'
| effect_refund (at_ : Time) (t : Transaction) :
    Type_ t = REFUND ->
    posts at_ t (transactions db) db db' ->
    effect db db'.

(** The accounts of [db], row by row, against the accounts of the seed
    state [db0]: same account, and the ledger sums equal the movement of
    the two balances. *)
Definition sums_match (rows : list Transaction) (a0 a : Account) : Prop :=
  AccID a = AccID a0
  /\ ledger_sum posted_delta (AccID a0) rows = BalanceCents a - BalanceCents a0
  /\ ledger_sum available_delta (AccID a0) rows
     = AvailableBalanceCents a - AvailableBalanceCents a0.

(** The code of a service error, if the error is one. *)
Definition code_of {A : Type} (r : result A) : option string :=
  match r with
  | Err (ServiceError Code _ _) => Some Code
  | _ => None
  end.

(** ** Sample data: the accounts seeded by the migration *)

Module Sample.

Definition A : Account :=
  {| AccID := 1%N; AccountNumber := "4111111111111111"; CVV := "123";
     ExpiryMonth := 12; ExpiryYear := 2030;
     BalanceCents := 1000000; AvailableBalanceCents := 1000000; UpdatedAt := 0 |}.

Definition B : Account :=
  {| AccID := 2%N; AccountNumber := "4242424242424242"; CVV := "456";
     ExpiryMonth := 6; ExpiryYear := 2030;
     BalanceCents := 50000; AvailableBalanceCents := 50000; UpdatedAt := 0 |}.

Definition Z_ : Account :=
  {| AccID := 3%N; AccountNumber := "5555555555554444"; CVV := "789";
     ExpiryMonth := 9; ExpiryYear := 2030;
     BalanceCents := 0; AvailableBalanceCents := 0; UpdatedAt := 0 |}.

Definition E : Account :=
  {| AccID := 4%N; AccountNumber := "5105105105105100"; CVV := "321";
     ExpiryMonth := 3; ExpiryYear := 2020;
     BalanceCents := 500000; AvailableBalanceCents := 500000; UpdatedAt := 0 |}.

Definition db0 : DB := {| accounts := [A; B; Z_; E]; transactions := [] |}.

Definition svc : Service.AuthorizationService := {| Service.authExpiryHours := 168 |}.

(** Surroundings of a call at instant [t] (October 2026) drawing [id]. *)
Definition env (t : Time) (id : uuid) : Env :=
  {| now := t; currentYear := 2026; currentMonth := 10; newUUID := id;
     beginErr := None; commitErr := None |}.

(** The hold that authorizing 10000 on card A at instant 1000 creates. *)
Definition auth1 : Transaction :=
  {| ID := 100%N; AccountID := 1%N; Type_ := AUTH_HOLD; AmountCents := 10000;
     Currency := "USD"; ReferenceID := None; Status := ACTIVE;
     ExpiresAt := Some (1000 + 168 * 3600 * 1000000000); CreatedAt := 1000 |}.

(** The database after authorizing 10000 on card A, and after capturing it. *)
Definition db1 : DB := snd (Service.Authorize svc (env 1000 100%N) db0 "4111111111111111" "123" 10000).
Definition db2 : DB := snd (Service.Capture (env 2000 101%N) db1 100%N 10000).

(** The capture of that hold at instant 2000, and its refund at 3000. *)
Definition capture1 : Transaction :=
  {| ID := 101%N; AccountID := 1%N; Type_ := CAPTURE; AmountCents := 10000;
     Currency := "USD"; ReferenceID := Some 100%N; Status := COMPLETED;
     ExpiresAt := None; CreatedAt := 2000 |}.

Definition refund1 : Transaction :=
  {| ID := 102%N; AccountID := 1%N; Type_ := REFUND; AmountCents := 10000;
     Currency := "USD"; ReferenceID := Some 101%N; Status := COMPLETED;
     ExpiresAt := None; CreatedAt := 3000 |}.

Definition void1 : Transaction :=
  {| ID := 101%N; AccountID := 1%N; Type_ := VOID; AmountCents := 10000;
     Currency := "USD"; ReferenceID := Some 100%N; Status := COMPLETED;
     ExpiresAt := None; CreatedAt := 2000 |}.

(** The database after voiding the hold instead, and after the refund. *)
Definition db_voided : DB := snd (Service.Void (env 2000 101%N) db1 100%N).
Definition db3 : DB := snd (Service.Refund (env 3000 102%N) db2 101%N 10000).

(** A POST of an authorization with the key [K]. *)
Definition request : Middleware.Request :=
  {| Middleware.Method := "POST";
     Middleware.URL_Path := "/api/v1/authorizations";
     Middleware.Header := {[ "Idempotency-Key" := "K" ]} |}.

(** A handler that answers with the given status and body and counts its
    invocations. *)
Definition handler (status : Z) (body : string)
    (_ : Middleware.Request) (invocations : nat)
  : list Middleware.WriterCall * nat :=
  ([ Middleware.HeaderSet "Content-Type" "application/json";
     Middleware.WriteHeader status;
     Middleware.Write body ],
   S invocations).

(** The record of an earlier answer to [request]. *)
Definition stored : IdempotencyKey :=
  {| Key := "K"; RequestPath := "/api/v1/authorizations";
     ResponseBody := "first"; ResponseStatus := 200; IdemCreatedAt := 7 |}.

End Sample.


(** ** Chaos middleware (package middleware) *)

Module Chaos.

Definition excludedPaths : list string := [ "/health"; "/docs" ].

Definition isExcludedPath (path : string) : bool :=
  existsb (fun excluded => String.prefix excluded path) excludedPaths.

(** [time.Millisecond] in nanoseconds. *)
Definition Millisecond : Z := 1000000.

(** [injectLatency]: the [time.Duration] handed to [time.Sleep], or [None]
    when it returns without sleeping.  [draw n] is
    [rand.Int(rand.Reader, big.NewInt(n))]: a number of [[0, n)], or [None]
    for its error. *)
Definition injectLatency (draw : Z -> option Z) (minMS maxMS : Z) : option Z :=
  if (minMS <=? 0) && (maxMS <=? 0) then None
  else
    let rangeMS := Int64.wrap (maxMS - minMS) in
    if rangeMS <=? 0 then Some (Int64.mul minMS Millisecond)
    else
      match draw rangeMS with
      | None => Some (Int64.mul minMS Millisecond)
      | Some randomOffset =>
          let sleepMS := Int64.wrap (minMS + Int64.wrap randomOffset) in
          Some (Int64.mul sleepMS Millisecond)
      end.

Section FailureInjection.

Context {W : Type}.

(** [json.NewEncoder(w).Encode(resp)] on a [chaosErrorResponse]: the text
    written for the fields [Error] and [Message]. *)
Variable json_Encode : string -> string -> string.

(** What [shouldInjectFailure(cfg.FailureRate)] returned for this request. *)
Variable inject : bool.

Variable next : Middleware.Request -> W -> list Middleware.WriterCall * W.

Definition writeFailureResponse : list Middleware.WriterCall :=
  [ Middleware.HeaderSet "Content-Type" "application/json";
    Middleware.WriteHeader 500;
    Middleware.Write (json_Encode "internal_error" "Random failure injection") ].

Definition FailureInjection (r : Middleware.Request) (w : W)
  : list Middleware.WriterCall * W :=
  if isExcludedPath (Middleware.URL_Path r) then next r w
  else if inject then (writeFailureResponse, w)
  else next r w.

End FailureInjection.

(** [NewRouter]: the idempotency middleware wraps the chaos middleware,
    which wraps the routes. *)
Definition Router {S W : Type}
    (repo_Get : S -> string -> string -> result (option IdempotencyKey))
    (repo_Store : S -> IdempotencyKey -> option error * S)
    (json_Encode : string -> string -> string) (inject : bool)
    (mux : Middleware.Request -> W -> list Middleware.WriterCall * W)
    (clock : Time) (r : Middleware.Request) (st : S) (w : W) : Middleware.Served S W :=
  Middleware.Idempotency repo_Get repo_Store (FailureInjection json_Encode inject mux)
    clock r st w.

End Chaos.

(** ** GET handlers (package handlers) *)

Module GetHandlers.

(** [time.Time{}], the zero instant (0001-01-01 00:00:00 UTC), in
    nanoseconds from the Unix epoch. *)
Definition zeroTime : Time := - 62135596800 * 1000000000.

Section WithUUIDText.

Variable uuid_Parse : string -> option uuid.
Variable uuid_String : uuid -> string.

(** GET /api/v1/authorizations/{authorizationId} *)
Definition GetAuthorization (db : DB) (AuthorizationId : string)
  : Handlers.ResponseObject Handlers.AuthorizationBody :=
  match Handlers.parseAuthorizationID uuid_Parse AuthorizationId with
  | None => Handlers.JSON404 Handlers.ErrorCodeNotFound "authorization not found"
  | Some authID =>
      match Service.GetAuthorization db authID with
      | Err _ => Handlers.JSON404 Handlers.ErrorCodeNotFound "authorization not found"
      | Ok txn =>
          let expiresAt :=
            match ExpiresAt txn with
            | Some e => e
            | None => zeroTime
            end in
          Handlers.JSON200
            {| Handlers.AuthorizationId := Handlers.formatAuthorizationID uuid_String (ID txn);
               Handlers.AuthAmount := AmountCents txn;
               Handlers.AuthCurrency := Currency txn;
               Handlers.AuthExpiresAt := expiresAt;
               Handlers.AuthCreatedAt := CreatedAt txn |}
      end
  end.

(** GET /api/v1/captures/{captureId}; [None] is the panic of dereferencing
    a nil [ReferenceID]. *)
Definition GetCapture (db : DB) (CaptureId : string)
  : option (Handlers.ResponseObject Handlers.ChildBody) :=
  match Handlers.parseCaptureID uuid_Parse CaptureId with
  | None => Some (Handlers.JSON404 Handlers.ErrorCodeNotFound "capture not found")
  | Some captureID =>
      match Service.GetCapture db captureID with
      | Err _ => Some (Handlers.JSON404 Handlers.ErrorCodeNotFound "capture not found")
      | Ok txn =>
          Handlers.child200 (Handlers.formatCaptureID uuid_String)
            (Handlers.formatAuthorizationID uuid_String) txn
      end
  end.

(** GET /api/v1/refunds/{refundId} *)
Definition GetRefund (db : DB) (RefundId : string)
  : option (Handlers.ResponseObject Handlers.ChildBody) :=
  match Handlers.parseRefundID uuid_Parse RefundId with
  | None => Some (Handlers.JSON404 Handlers.ErrorCodeNotFound "refund not found")
  | Some refundID =>
      match Service.GetRefund db refundID with
      | Err _ => Some (Handlers.JSON404 Handlers.ErrorCodeNotFound "refund not found")
      | Ok txn =>
          Handlers.child200 (Handlers.formatRefundID uuid_String)
            (Handlers.formatCaptureID uuid_String) txn
      end
  end.

End WithUUIDText.

End GetHandlers.

(** ** The shape of the ledger *)

(** The row settles a hold: it is a capture or a void. *)
Definition settles (t : Transaction) : Prop :=
  Type_ t = CAPTURE \/ Type_ t = VOID.

(** What a row refers to.  A hold refers to nothing, carries an expiry
    and is ACTIVE or COMPLETED; a capture or a void refers to a COMPLETED
    hold of its own account and amount; a refund refers to a capture of
    its own account and amount. *)
Definition reference_resolves (rows : list Transaction) (t : Transaction) : Prop :=
  match Type_ t with
  | AUTH_HOLD =>
      ReferenceID t = None /\ ExpiresAt t <> None
      /\ (Status t = ACTIVE \/ Status t = COMPLETED)
  | CAPTURE | VOID =>
      exists auth,
        In auth rows /\ ReferenceID t = Some (ID auth) /\ Type_ auth = AUTH_HOLD
        /\ Status auth = COMPLETED /\ AccountID auth = AccountID t
        /\ AmountCents auth = AmountCents t
  | REFUND =>
      exists cap,
        In cap rows /\ ReferenceID t = Some (ID cap) /\ Type_ cap = CAPTURE
        /\ AccountID cap = AccountID t /\ AmountCents cap = AmountCents t
  end.

Record ledger_shape (rows : list Transaction) : Prop := mkLedgerShape {
  ids_unique : List.NoDup (map ID rows);
  references : Forall (reference_resolves rows) rows;
  settled_once :
    forall t r, In t rows -> In r rows -> settles t -> settles r ->
                ReferenceID t = ReferenceID r -> t = r;
  refunded_once :
    forall t r, In t rows -> In r rows -> Type_ t = REFUND -> Type_ r = REFUND ->
                ReferenceID t = ReferenceID r -> t = r;
  completed_settled :
    forall auth, In auth rows -> Type_ auth = AUTH_HOLD -> Status auth = COMPLETED ->
                 exists t, In t rows /\ settles t /\ ReferenceID t = Some (ID auth)
}.

(** A history on the seeded accounts: a hold that is captured and
    refunded, a hold that is voided, a second capture that is refused. *)
Definition sample_history : list (Env * Op) :=
  [ (Sample.env 1000 100%N, OpAuthorize "4111111111111111" "123" 10000);
    (Sample.env 2000 101%N, OpCapture 100%N 10000);
    (Sample.env 3000 102%N, OpRefund 101%N 10000);
    (Sample.env 4000 103%N, OpAuthorize "4242424242424242" "456" 2500);
    (Sample.env 5000 104%N, OpVoid 103%N);
    (Sample.env 6000 105%N, OpCapture 103%N 2500) ].

(** Every row of the ledger is for a positive [int64] amount. *)
Definition rows_positive (db : DB) : Prop :=
  Forall (fun t => 0 < AmountCents t <= Int64.max_signed) (transactions db).

(** No account is overdrawn: neither balance is below zero. *)
Definition solvent (db : DB) : Prop :=
  Forall (fun a => 0 <= AvailableBalanceCents a /\ 0 <= BalanceCents a) (accounts db).

Definition available_nonneg (db : DB) : Prop :=
  Forall (fun a => 0 <= AvailableBalanceCents a) (accounts db).

(** The codes that the error switch of the handlers names, and the code
    it falls back to. *)
Definition switch_codes : list string :=
  [ Service.ErrCodeInvalidCard; Service.ErrCodeInvalidCVV; Service.ErrCodeInvalidAmount;
    Service.ErrCodeCardExpired; Service.ErrCodeInsufficientFunds;
    Service.ErrCodeAuthNotFound; Service.ErrCodeAuthExpired;
    Service.ErrCodeAuthAlreadyUsed; Service.ErrCodeAlreadyCaptured;
    Service.ErrCodeAlreadyVoided; Service.ErrCodeAlreadyRefunded;
    Service.ErrCodeAmountMismatch; Service.ErrCodeCaptureNotFound ].
(** * Properties *)

(** ** Machine integers *)

Lemma in_rangeb_spec (z : Z) : Int64.in_rangeb z = true <-> Int64.in_range z.
Proof.
  unfold Int64.in_rangeb, Int64.in_range.
  rewrite andb_true_iff, !Z.leb_le. tauto.
Qed.

Lemma wrap_in_range (z : Z) : Int64.in_range z -> Int64.wrap z = z.
Proof.
  unfold Int64.in_range, Int64.wrap, Int64.min_signed, Int64.max_signed, Int64.modulus.
  intros H. rewrite Z.mod_small; lia.
Qed.

Lemma neg_exact (z : Z) : Int64.min_signed < z <= Int64.max_signed -> Int64.neg z = - z.
Proof.
  intros H. unfold Int64.neg. apply wrap_in_range.
  unfold Int64.in_range, Int64.min_signed, Int64.max_signed in *. lia.
Qed.

(** ** Validators *)

Section Luhn.

Import Validators.

Lemma luhn_step_doubled (sum : Z) (b : bool) (d : Z) :
  luhn_step (sum, b) d = (sum + (if b then doubled d else d), negb b).
Proof.
  unfold luhn_step, doubled. destruct b; [|reflexivity].
  replace (d * 2) with (2 * d) by lia. reflexivity.
Qed.

(** The loop computes the checksum of the digits it is fed, whatever the
    sum and the parity it starts from. *)
Lemma luhn_fold (l : list Z) : forall (sum : Z) (b : bool),
  fst (fold_left luhn_step l (sum, b)) = sum + luhn_sum_from_right l b.
Proof.
  induction l as [|d l IH]; intros sum b; cbn [fold_left].
  - simpl. lia.
  - rewrite luhn_step_doubled, IH. simpl. lia.
Qed.

Lemma luhn_loop_checksum (digits : list Z) :
  fst (luhn_loop digits) = luhn_checksum digits.
Proof. unfold luhn_loop, luhn_checksum. rewrite luhn_fold. apply Z.add_0_l. Qed.

Lemma digits_of_filter (s : string) :
  digits_of s =
  map (fun c => Z.of_nat (nat_of_ascii c) - 48) (List.filter is_digit (list_ascii_of_string s)).
Proof.
  induction s as [|c s IH]; cbn [digits_of list_ascii_of_string List.filter]; [reflexivity|].
  destruct (is_digit c); cbn [map]; now rewrite IH.
Qed.

Lemma digits_of_decimal (s : string) : Forall (fun d => 0 <= d <= 9) (digits_of s).
Proof.
  induction s as [|c s IH]; cbn [digits_of]; [constructor|].
  destruct (is_digit c) eqn:Hc; [|exact IH].
  constructor; [|exact IH].
  unfold is_digit in Hc. apply andb_true_iff in Hc as [H1 H2].
  apply Z.leb_le in H1, H2. lia.
Qed.

End Luhn.

(** C9. [ValidateLuhn] keeps the decimal digits of its input, in order;
    it rejects with the length error when fewer than 13 or more than 19
    digits remain, whatever the checksum (so 12 and 20 digits are
    rejected); otherwise it accepts exactly when the Luhn sum, which
    doubles every second digit from the right and subtracts 9 from a
    doubled value above 9, is divisible by 10. *)
Theorem ValidateLuhn_spec (cardNumber : string) :
  let digits := Validators.digits_of cardNumber in
  let len := Z.of_nat (List.length digits) in
  digits = map (fun c => Z.of_nat (nat_of_ascii c) - 48)
               (List.filter Validators.is_digit (list_ascii_of_string cardNumber))
  /\ (len < 13 \/ 19 < len ->
      Validators.ValidateLuhn cardNumber
      = Some (Errorf "invalid card number length: must be 13-19 digits" None))
  /\ (13 <= len <= 19 ->
      (Validators.ValidateLuhn cardNumber = None <-> (10 | Validators.luhn_checksum digits)))
  /\ (Validators.ValidateLuhn cardNumber = None <->
      13 <= len <= 19 /\ (10 | Validators.luhn_checksum digits)).
Proof.
  intros digits len.
  assert (Hrem : (Z.rem (fst (Validators.luhn_loop digits)) 10 =? 0) = true
                 <-> (10 | Validators.luhn_checksum digits)).
  { rewrite Z.eqb_eq, luhn_loop_checksum. apply Z.rem_divide. lia. }
  assert (Hlen : ((len <? 13) || (len >? 19)) = true <-> (len < 13 \/ 19 < len)).
  { rewrite orb_true_iff, Z.ltb_lt, Z.gtb_ltb, Z.ltb_lt. tauto. }
  split; [apply digits_of_filter|].
  unfold Validators.ValidateLuhn. fold digits. fold len.
  destruct ((len <? 13) || (len >? 19)) eqn:Hl.
  - assert (len < 13 \/ 19 < len) by (apply Hlen; reflexivity).
    repeat split; intros; try lia; try discriminate; try reflexivity.
  - assert (~ (len < 13 \/ 19 < len)) by (rewrite <- Hlen; congruence).
    destruct (Z.rem (fst (Validators.luhn_loop digits)) 10 =? 0) eqn:Hr; simpl.
    + assert (10 | Validators.luhn_checksum digits) by (apply Hrem; reflexivity).
      repeat split; intros; try lia; auto.
    + assert (~ (10 | Validators.luhn_checksum digits)) by (rewrite <- Hrem; congruence).
      repeat split; intros; try lia; try discriminate; tauto.
Qed.

Lemma ValidateLuhn_spec_witness :
  Validators.ValidateLuhn "4111111111111111" = None
  <-> 13 <= 16 <= 19 /\ (10 | Validators.luhn_checksum (Validators.digits_of "4111111111111111")).
Proof. exact (proj2 (proj2 (proj2 (ValidateLuhn_spec "4111111111111111")))). Defined.

Example ValidateLuhn_12_digits_luhn_valid :
  Validators.luhn_checksum (Validators.digits_of "411111111117") = 30
  /\ Validators.ValidateLuhn "411111111117"
     = Some (Errorf "invalid card number length: must be 13-19 digits" None).
Proof. split; reflexivity. Qed.

Example ValidateLuhn_20_digits_luhn_valid :
  Validators.luhn_checksum (Validators.digits_of "41111111111111111115") = 40
  /\ Validators.ValidateLuhn "41111111111111111115"
     = Some (Errorf "invalid card number length: must be 13-19 digits" None).
Proof. split; reflexivity. Qed.

Example ValidateLuhn_strips_separators :
  Validators.ValidateLuhn "4111-1111 1111 1111" = None.
Proof. reflexivity. Qed.

(** ** Repositories *)

Ltac break_match_hyp H :=
  match type of H with
  | context [match ?x with _ => _ end] => destruct x eqn:?
  end.

(** Follow the one path of a cascade of checks that ends in [Ok]. *)
Ltac invert_ok H := repeat (break_match_hyp H; try discriminate H).

Lemma TransactionType_eqb_eq (a b : TransactionType) :
  TransactionType_eqb a b = true <-> a = b.
Proof. destruct a, b; simpl; split; congruence. Qed.

Lemma TransactionStatus_eqb_eq (a b : TransactionStatus) :
  TransactionStatus_eqb a b = true <-> a = b.
Proof. destruct a, b; simpl; split; congruence. Qed.

Lemma TransactionType_eqb_neq (a b : TransactionType) :
  TransactionType_eqb a b = false <-> a <> b.
Proof. destruct a, b; simpl; split; congruence. Qed.

Lemma TransactionStatus_eqb_neq (a b : TransactionStatus) :
  TransactionStatus_eqb a b = false <-> a <> b.
Proof. destruct a, b; simpl; split; congruence. Qed.

Lemma Tx_FindByID_Ok (db : DB) (id : uuid) (t : Transaction) :
  TransactionRepository.FindByID db id = Ok t -> In t (transactions db) /\ ID t = id.
Proof.
  unfold TransactionRepository.FindByID. intros H.
  destruct (find _ _) eqn:Hf; [|discriminate]. injection H as ->.
  apply find_some in Hf as [Hin Heq]. apply N.eqb_eq in Heq. auto.
Qed.

Lemma Tx_FindByID_Err (db : DB) (id : uuid) :
  (forall t, In t (transactions db) -> ID t <> id) ->
  TransactionRepository.FindByID db id = Err (Errorf "transaction not found" (Some ErrNoRows)).
Proof.
  unfold TransactionRepository.FindByID. intros H.
  destruct (find _ _) eqn:Hf; [|reflexivity].
  apply find_some in Hf as [Hin Heq]. apply N.eqb_eq in Heq. now apply H in Hin.
Qed.

Lemma Tx_FindByID_head (db : DB) (t : Transaction) (rows : list Transaction) :
  transactions db = t :: rows -> TransactionRepository.FindByID db (ID t) = Ok t.
Proof.
  unfold TransactionRepository.FindByID. intros ->. simpl. now rewrite N.eqb_refl.
Qed.

Lemma Create_Ok (db db' : DB) (t : Transaction) :
  TransactionRepository.Create db t = Ok db' ->
  db' = {| accounts := accounts db; transactions := t :: transactions db |}.
Proof.
  unfold TransactionRepository.Create. intros H. invert_ok H. now injection H as <-.
Qed.

(** The primary key: a created row has an id no other row has. *)
Lemma Create_fresh (db db' : DB) (t : Transaction) :
  TransactionRepository.Create db t = Ok db' ->
  forall r, In r (transactions db) -> ID r <> ID t.
Proof.
  unfold TransactionRepository.Create. intros H r Hin Heq.
  destruct (existsb _ _) eqn:Hex; [discriminate|].
  assert (existsb (fun r => N.eqb (ID r) (ID t)) (transactions db) = true); [|congruence].
  apply existsb_exists. exists r. split; [exact Hin|]. now apply N.eqb_eq.
Qed.

Lemma set_status_cons_fresh (id : uuid) (st : TransactionStatus) (t : Transaction)
    (rows : list Transaction) :
  ID t <> id ->
  TransactionRepository.set_status id st (t :: rows)
  = t :: TransactionRepository.set_status id st rows.
Proof.
  intros Hne. unfold TransactionRepository.set_status. simpl.
  destruct (N.eqb_spec (ID t) id); [contradiction|reflexivity].
Qed.

Lemma UpdateStatus_Ok (db db' : DB) (id : uuid) (st : TransactionStatus) :
  TransactionRepository.UpdateStatus db id st = Ok db' ->
  db' = {| accounts := accounts db;
           transactions := TransactionRepository.set_status id st (transactions db) |}.
Proof.
  unfold TransactionRepository.UpdateStatus. intros H. invert_ok H. now injection H as <-.
Qed.

Lemma AdjustBalances_Ok (at_ : Time) (db db' : DB) (id : uuid) (dB dA : Z) :
  AccountRepository.AdjustBalances at_ db id dB dA = Ok db' ->
  db' = {| accounts := AccountRepository.adjust_rows at_ id dB dA (accounts db);
           transactions := transactions db |}
  /\ forallb (AccountRepository.fits dB dA) (AccountRepository.matched id (accounts db)) = true.
Proof.
  unfold AccountRepository.AdjustBalances. intros H. invert_ok H. injection H as <-.
  split; [reflexivity|]. now apply negb_false_iff.
Qed.

Lemma Acc_FindByAccountNumber_Ok (db : DB) (n : string) (a : Account) :
  AccountRepository.FindByAccountNumber db n = Ok a ->
  In a (accounts db) /\ AccountNumber a = n.
Proof.
  unfold AccountRepository.FindByAccountNumber. intros H.
  destruct (find _ _) eqn:Hf; [|discriminate]. injection H as ->.
  apply find_some in Hf as [Hin Heq]. apply String.eqb_eq in Heq. auto.
Qed.

(** ** What a successful call has done *)

Lemma performAuthorization_Ok (s : Service.AuthorizationService) (env : Env) (db db' : DB)
    (cardNumber cvv : string) (amount : Z) (tx : Transaction) :
  Service.performAuthorization s env db cardNumber cvv amount = Ok (tx, db') ->
  exists account,
    AccountRepository.FindByAccountNumber db cardNumber = Ok account
    /\ CVV account = cvv
    /\ amount <= AvailableBalanceCents account
    /\ tx = {| ID := newUUID env; AccountID := AccID account; Type_ := AUTH_HOLD;
               AmountCents := amount; Currency := "USD"; ReferenceID := None;
               Status := ACTIVE; ExpiresAt := Some (Service.expiresAt s env);
               CreatedAt := now env |}
    /\ db' = {| accounts :=
                  AccountRepository.adjust_rows (now env) (AccID account) 0 (Int64.neg amount)
                    (accounts db);
                transactions := tx :: transactions db |}
    /\ forallb (AccountRepository.fits 0 (Int64.neg amount))
               (AccountRepository.matched (AccID account) (accounts db)) = true.
Proof.
  unfold Service.performAuthorization, AccountRepository.FindByAccountNumberForUpdate.
  intros H. invert_ok H. injection H as <- <-.
  match goal with Hc : TransactionRepository.Create _ _ = Ok _ |- _ =>
    apply Create_Ok in Hc; subst end.
  match goal with Ha : AccountRepository.AdjustBalances _ _ _ _ _ = Ok _ |- _ =>
    apply AdjustBalances_Ok in Ha as [-> Hfits] end.
  eexists. split; [reflexivity|].
  match goal with Hn : negb (String.eqb _ _) = false |- _ =>
    apply negb_false_iff, String.eqb_eq in Hn end.
  match goal with Hlt : (_ <? _) = false |- _ => apply Z.ltb_ge in Hlt end.
  simpl in *. repeat split; auto.
Qed.

Lemma inTx_Ok (env : Env) (db db' : DB) (body : DB -> result (Transaction * DB))
    (tx : Transaction) :
  Service.inTx env db body = (Ok tx, db') ->
  beginErr env = None /\ commitErr env = None /\ body db = Ok (tx, db').
Proof.
  unfold Service.inTx. intros H. invert_ok H. now injection H as <- <-.
Qed.

(** Every error path rolls back. *)
Lemma inTx_Err (env : Env) (db db' : DB) (body : DB -> result (Transaction * DB)) (e : error) :
  Service.inTx env db body = (Err e, db') -> db' = db.
Proof.
  unfold Service.inTx. intros H.
  repeat (break_match_hyp H; try discriminate H); now injection H.
Qed.

Lemma inTx_healthy (env : Env) (db : DB) (body : DB -> result (Transaction * DB)) :
  beginErr env = None -> commitErr env = None ->
  Service.inTx env db body
  = match body db with
    | Ok (tx, db') => (Ok tx, db')
    | Err e => (Err e, db)
    end.
Proof.
  unfold Service.inTx. intros -> Hc. destruct (body db) as [[tx db']|e]; [|reflexivity].
  now rewrite Hc.
Qed.

Lemma performCapture_Ok (env : Env) (db db' : DB) (authorizationID : uuid) (amount : Z)
    (tx : Transaction) :
  Service.performCapture env db authorizationID amount = Ok (tx, db') ->
  exists authTxn,
    TransactionRepository.FindByID db authorizationID = Ok authTxn
    /\ Type_ authTxn = AUTH_HOLD
    /\ Status authTxn = ACTIVE
    /\ Service.expired env authTxn = false
    /\ amount = AmountCents authTxn
    /\ tx = {| ID := newUUID env; AccountID := AccountID authTxn; Type_ := CAPTURE;
               AmountCents := amount; Currency := Currency authTxn;
               ReferenceID := Some authorizationID; Status := COMPLETED;
               ExpiresAt := None; CreatedAt := now env |}
    /\ db' = {| accounts :=
                  AccountRepository.adjust_rows (now env) (AccountID authTxn)
                    (Int64.neg amount) 0 (accounts db);
                transactions :=
                  tx :: TransactionRepository.set_status authorizationID COMPLETED
                          (transactions db) |}
    /\ forallb (AccountRepository.fits (Int64.neg amount) 0)
               (AccountRepository.matched (AccountID authTxn) (accounts db)) = true.
Proof.
  unfold Service.performCapture, TransactionRepository.FindByIDForUpdate.
  intros H. invert_ok H. injection H as <- <-.
  match goal with Hf : TransactionRepository.FindByID _ _ = Ok _ |- _ =>
    pose proof (Tx_FindByID_Ok _ _ _ Hf) as [Hin Hid] end.
  match goal with Hc : TransactionRepository.Create _ _ = Ok _ |- _ =>
    pose proof (Create_fresh _ _ _ Hc _ Hin) as Hfresh;
    apply Create_Ok in Hc; subst end.
  match goal with Hu : TransactionRepository.UpdateStatus _ _ _ = Ok _ |- _ =>
    apply UpdateStatus_Ok in Hu; subst end.
  match goal with Ha : AccountRepository.AdjustBalances _ _ _ _ _ = Ok _ |- _ =>
    apply AdjustBalances_Ok in Ha as [-> Hfits] end.
  cbn [transactions accounts] in *.
  rewrite set_status_cons_fresh by (cbn [ID] in *; congruence).
  eexists. split; [reflexivity|].
  repeat match goal with
         | Hn : negb _ = false |- _ => apply negb_false_iff in Hn
         end.
  match goal with Ht : TransactionType_eqb _ _ = true |- _ =>
    apply TransactionType_eqb_eq in Ht end.
  match goal with Ht : TransactionStatus_eqb _ _ = true |- _ =>
    apply TransactionStatus_eqb_eq in Ht end.
  match goal with Ht : (_ =? _) = true |- _ => apply Z.eqb_eq in Ht end.
  simpl in *. repeat split; auto.
Qed.

Lemma performVoid_Ok (env : Env) (db db' : DB) (authorizationID : uuid) (tx : Transaction) :
  Service.performVoid env db authorizationID = Ok (tx, db') ->
  exists authTxn,
    TransactionRepository.FindByID db authorizationID = Ok authTxn
    /\ Type_ authTxn = AUTH_HOLD
    /\ Status authTxn = ACTIVE
    /\ tx = {| ID := newUUID env; AccountID := AccountID authTxn; Type_ := VOID;
               AmountCents := AmountCents authTxn; Currency := Currency authTxn;
               ReferenceID := Some authorizationID; Status := COMPLETED;
               ExpiresAt := None; CreatedAt := now env |}
    /\ db' = {| accounts :=
                  AccountRepository.adjust_rows (now env) (AccountID authTxn)
                    0 (AmountCents authTxn) (accounts db);
                transactions :=
                  tx :: TransactionRepository.set_status authorizationID COMPLETED
                          (transactions db) |}
    /\ forallb (AccountRepository.fits 0 (AmountCents authTxn))
               (AccountRepository.matched (AccountID authTxn) (accounts db)) = true.
Proof.
  unfold Service.performVoid, TransactionRepository.FindByIDForUpdate.
  intros H. invert_ok H. injection H as <- <-.
  match goal with Hf : TransactionRepository.FindByID _ _ = Ok _ |- _ =>
    pose proof (Tx_FindByID_Ok _ _ _ Hf) as [Hin Hid] end.
  match goal with Hc : TransactionRepository.Create _ _ = Ok _ |- _ =>
    pose proof (Create_fresh _ _ _ Hc _ Hin) as Hfresh;
    apply Create_Ok in Hc; subst end.
  match goal with Hu : TransactionRepository.UpdateStatus _ _ _ = Ok _ |- _ =>
    apply UpdateStatus_Ok in Hu; subst end.
  match goal with Ha : AccountRepository.AdjustBalances _ _ _ _ _ = Ok _ |- _ =>
    apply AdjustBalances_Ok in Ha as [-> Hfits] end.
  cbn [transactions accounts] in *.
  rewrite set_status_cons_fresh by (cbn [ID] in *; congruence).
  eexists. split; [reflexivity|].
  repeat match goal with
         | Hn : negb _ = false |- _ => apply negb_false_iff in Hn
         end.
  match goal with Ht : TransactionType_eqb _ _ = true |- _ =>
    apply TransactionType_eqb_eq in Ht end.
  match goal with Ht : TransactionStatus_eqb _ _ = true |- _ =>
    apply TransactionStatus_eqb_eq in Ht end.
  simpl in *. repeat split; auto.
Qed.

Lemma performRefund_Ok (env : Env) (db db' : DB) (captureID : uuid) (amount : Z)
    (tx : Transaction) :
  Service.performRefund env db captureID amount = Ok (tx, db') ->
  exists captureTxn,
    TransactionRepository.FindByID db captureID = Ok captureTxn
    /\ Type_ captureTxn = CAPTURE
    /\ Status captureTxn = COMPLETED
    /\ amount = AmountCents captureTxn
    /\ tx = {| ID := newUUID env; AccountID := AccountID captureTxn; Type_ := REFUND;
               AmountCents := amount; Currency := Currency captureTxn;
               ReferenceID := Some captureID; Status := COMPLETED;
               ExpiresAt := None; CreatedAt := now env |}
    /\ db' = {| accounts :=
                  AccountRepository.adjust_rows (now env) (AccountID captureTxn)
                    amount amount (accounts db);
                transactions := tx :: transactions db |}
    /\ forallb (AccountRepository.fits amount amount)
               (AccountRepository.matched (AccountID captureTxn) (accounts db)) = true.
Proof.
  unfold Service.performRefund, TransactionRepository.FindByIDForUpdate.
  intros H. invert_ok H. injection H as <- <-.
  match goal with Hc : TransactionRepository.Create _ _ = Ok _ |- _ =>
    apply Create_Ok in Hc; subst end.
  match goal with Ha : AccountRepository.AdjustBalances _ _ _ _ _ = Ok _ |- _ =>
    apply AdjustBalances_Ok in Ha as [-> Hfits] end.
  eexists. split; [reflexivity|].
  repeat match goal with
         | Hn : negb _ = false |- _ => apply negb_false_iff in Hn
         end.
  match goal with Ht : TransactionType_eqb _ _ = true |- _ =>
    apply TransactionType_eqb_eq in Ht end.
  match goal with Ht : TransactionStatus_eqb _ _ = true |- _ =>
    apply TransactionStatus_eqb_eq in Ht end.
  match goal with Ht : (_ =? _) = true |- _ => apply Z.eqb_eq in Ht end.
  simpl in *. repeat split; auto.
Qed.

Lemma validateAuthorizationRequest_None (cardNumber cvv : string) (amount : Z) :
  Service.validateAuthorizationRequest cardNumber cvv amount = None <->
  Validators.ValidateLuhn cardNumber = None
  /\ Validators.ValidateCVV cvv = None
  /\ 0 < amount.
Proof.
  unfold Service.validateAuthorizationRequest, Validators.ValidateAmount.
  destruct (Validators.ValidateLuhn cardNumber); [intuition discriminate|].
  destruct (Validators.ValidateCVV cvv); [intuition discriminate|].
  destruct (Z.leb_spec amount 0); split; intros; try discriminate; intuition lia.
Qed.

Lemma accounts_typed_In (db : DB) (a : Account) :
  accounts_typed db -> In a (accounts db) ->
  Int64.in_range (BalanceCents a) /\ Int64.in_range (AvailableBalanceCents a).
Proof. unfold accounts_typed. rewrite List.Forall_forall. intros H ?; apply H; assumption. Qed.

Lemma holds_positive_In (db : DB) (t : Transaction) :
  holds_positive db -> In t (transactions db) -> Type_ t = AUTH_HOLD ->
  0 < AmountCents t <= Int64.max_signed.
Proof. unfold holds_positive. rewrite List.Forall_forall. intros H ? ?; apply H; assumption. Qed.

Lemma Authorize_Ok (s : Service.AuthorizationService) (env : Env) (db db' : DB)
    (cardNumber cvv : string) (amount : Z) (tx : Transaction) :
  Service.Authorize s env db cardNumber cvv amount = (Ok tx, db') ->
  Service.validateAuthorizationRequest cardNumber cvv amount = None
  /\ Service.performAuthorization s env db cardNumber cvv amount = Ok (tx, db').
Proof.
  unfold Service.Authorize. intros H.
  destruct (Service.validateAuthorizationRequest _ _ _); [discriminate|].
  apply inTx_Ok in H. tauto.
Qed.

(** A call either leaves the database as it was or has one of the three
    effects. *)
Lemma exec_effect (s : Service.AuthorizationService) (env : Env) (op : Op) (db : DB) :
  accounts_typed db -> holds_positive db ->
  snd (exec s env op db) = db \/ effect db (snd (exec s env op db)).
Proof.
  intros Htyped Hpos.
  destruct (exec s env op db) as [[tx|e] db'] eqn:Hexec; cbn [snd].
  2:{ left. destruct op; cbn [exec] in Hexec.
      - unfold Service.Authorize in Hexec.
        destruct (Service.validateAuthorizationRequest _ _ _).
        + now injection Hexec.
        + now apply inTx_Err in Hexec.
      - now apply inTx_Err in Hexec.
      - now apply inTx_Err in Hexec.
      - now apply inTx_Err in Hexec. }
  right. destruct op; cbn [exec] in Hexec.
  - apply Authorize_Ok in Hexec as [Hval Hperf].
    apply validateAuthorizationRequest_None in Hval as (_ & _ & Hamount).
    apply performAuthorization_Ok in Hperf
      as (account & Hfind & _ & Havail & Htx & -> & Hfits).
    apply Acc_FindByAccountNumber_Ok in Hfind as [Hin _].
    destruct (accounts_typed_In _ _ Htyped Hin) as [_ Hr].
    assert (Hmax : amount <= Int64.max_signed) by (unfold Int64.in_range in Hr; lia).
    rewrite neg_exact in * by (unfold Int64.min_signed; lia).
    apply effect_hold with (at_ := now env) (t := tx); subst tx;
      cbn [Type_ Status AmountCents]; try reflexivity; [lia|].
    unfold posts, posted_delta, available_delta; cbn. auto.
  - apply inTx_Ok in Hexec as (_ & _ & Hperf).
    apply performCapture_Ok in Hperf
      as (auth & Hfind & Htype & Hstatus & _ & -> & Htx & -> & Hfits).
    apply Tx_FindByID_Ok in Hfind as [Hin <-].
    pose proof (holds_positive_In _ _ Hpos Hin Htype) as Hamount.
    rewrite neg_exact in * by (unfold Int64.min_signed; lia).
    apply effect_settle with (at_ := now env) (t := tx) (auth := auth); subst tx;
      cbn [Type_ AccountID AmountCents]; auto.
    unfold posts, posted_delta, available_delta; cbn. auto.
  - apply inTx_Ok in Hexec as (_ & _ & Hperf).
    apply performVoid_Ok in Hperf as (auth & Hfind & Htype & Hstatus & Htx & -> & Hfits).
    apply Tx_FindByID_Ok in Hfind as [Hin <-].
    apply effect_settle with (at_ := now env) (t := tx) (auth := auth); subst tx;
      cbn [Type_ AccountID AmountCents]; auto.
    unfold posts, posted_delta, available_delta; cbn. auto.
  - apply inTx_Ok in Hexec as (_ & _ & Hperf).
    apply performRefund_Ok in Hperf as (cap & Hfind & Htype & Hstatus & -> & Htx & -> & Hfits).
    apply effect_refund with (at_ := now env) (t := tx); subst tx; cbn [Type_]; auto.
    unfold posts, posted_delta, available_delta; cbn. auto.
Qed.

(** ** Invariants of the ledger *)

Lemma adjust_rows_typed (at_ : Time) (id : uuid) (dB dA : Z) (rows : list Account) :
  Forall (fun a => Int64.in_range (BalanceCents a) /\ Int64.in_range (AvailableBalanceCents a))
         rows ->
  forallb (AccountRepository.fits dB dA) (AccountRepository.matched id rows) = true ->
  Forall (fun a => Int64.in_range (BalanceCents a) /\ Int64.in_range (AvailableBalanceCents a))
         (AccountRepository.adjust_rows at_ id dB dA rows).
Proof.
  unfold AccountRepository.adjust_rows, AccountRepository.matched.
  induction 1 as [|a rows Ha _ IH]; cbn [map List.filter]; intros Hfits; [constructor|].
  destruct (N.eqb (AccID a) id).
  - cbn [forallb] in Hfits. apply andb_true_iff in Hfits as [Hfit Hrest].
    constructor; [|now apply IH].
    unfold AccountRepository.fits in Hfit. apply andb_true_iff in Hfit as [H1 H2].
    apply in_rangeb_spec in H1, H2. cbn. auto.
  - constructor; [exact Ha|now apply IH].
Qed.

Lemma set_status_Forall (P : Transaction -> Prop) (id : uuid) (st : TransactionStatus)
    (rows : list Transaction) :
  (forall t, P t -> P (TransactionRepository.with_status st t)) ->
  Forall P rows -> Forall P (TransactionRepository.set_status id st rows).
Proof.
  intros Hp. unfold TransactionRepository.set_status.
  induction 1 as [|t rows Ht _ IH]; cbn [map]; constructor; auto.
  destruct (N.eqb (ID t) id); auto.
Qed.

Lemma effect_typed (db db' : DB) : effect db db' -> accounts_typed db -> accounts_typed db'.
Proof.
  unfold accounts_typed.
  intros [at_ t _ _ _ (_ & -> & Hfits) | at_ t auth _ _ _ _ _ _ (_ & -> & Hfits)
         | at_ t _ (_ & -> & Hfits)] Htyped; now apply adjust_rows_typed.
Qed.

Lemma effect_holds_positive (db db' : DB) :
  effect db db' -> holds_positive db -> holds_positive db'.
Proof.
  unfold holds_positive.
  intros [at_ t Htype _ Hamount (-> & _) | at_ t auth Htype _ _ _ _ _ (-> & _)
         | at_ t Htype (-> & _)] Hpos; constructor; auto.
  - intros Ht. destruct Htype; congruence.
  - apply set_status_Forall; auto.
  - intros Ht. congruence.
Qed.

(** An invariant of the three effects is an invariant of every history. *)
Lemma run_preserves (P : DB -> Prop) (s : Service.AuthorizationService) :
  (forall db db', accounts_typed db -> holds_positive db -> P db -> effect db db' -> P db') ->
  forall (history : list (Env * Op)) (db : DB),
    accounts_typed db -> holds_positive db -> P db ->
    accounts_typed (run s history db) /\ holds_positive (run s history db)
    /\ P (run s history db).
Proof.
  intros Hstep. induction history as [|[env op] rest IH]; intros db Htyped Hpos Hp; cbn [run].
  - auto.
  - destruct (exec_effect s env op db Htyped Hpos) as [-> | Heff].
    + now apply IH.
    + apply IH; eauto using effect_typed, effect_holds_positive.
Qed.

Lemma seed_holds_positive (db : DB) : seed db -> holds_positive db.
Proof. intros [Hrows _]. unfold holds_positive. rewrite Hrows. constructor. Qed.

(** *** The sums of the ledger *)

Lemma ledger_sum_set_status (delta : Transaction -> Z) (acc id : uuid) (st : TransactionStatus)
    (rows : list Transaction) :
  (forall t, delta (TransactionRepository.with_status st t) = delta t) ->
  ledger_sum delta acc (TransactionRepository.set_status id st rows) = ledger_sum delta acc rows.
Proof.
  intros Hd. unfold TransactionRepository.set_status.
  induction rows as [|t rows IH]; cbn [map ledger_sum]; [reflexivity|].
  rewrite IH. destruct (N.eqb (ID t) id); [|reflexivity].
  rewrite Hd. reflexivity.
Qed.

Lemma posted_delta_with_status (st : TransactionStatus) (t : Transaction) :
  posted_delta (TransactionRepository.with_status st t) = posted_delta t.
Proof. reflexivity. Qed.

Lemma available_delta_with_status (st : TransactionStatus) (t : Transaction) :
  available_delta (TransactionRepository.with_status st t) = available_delta t.
Proof. reflexivity. Qed.

(** Putting a row on the ledger and moving its account by the row's
    deltas keeps the sums equal to the movement of the balances. *)
Lemma posts_sums_match (at_ : Time) (t : Transaction) (rows rows' : list Transaction)
    (l0 l : list Account) :
  (forall acc, ledger_sum posted_delta acc rows' = ledger_sum posted_delta acc rows) ->
  (forall acc, ledger_sum available_delta acc rows' = ledger_sum available_delta acc rows) ->
  Forall2 (sums_match rows) l0 l ->
  Forall2 (sums_match (t :: rows')) l0
          (AccountRepository.adjust_rows at_ (AccountID t) (posted_delta t) (available_delta t) l).
Proof.
  intros Hp Ha. unfold AccountRepository.adjust_rows.
  induction 1 as [|a0 a l0 l (Hid & Hposted & Havail) _ IH]; cbn [map]; constructor; [|exact IH].
  unfold sums_match. cbn [ledger_sum]. rewrite Hp, Ha, Hposted, Havail, Hid.
  rewrite (N.eqb_sym (AccountID t) (AccID a0)).
  destruct (N.eqb (AccID a0) (AccountID t)); cbn; repeat split; auto; lia.
Qed.

Lemma effect_sums_match (db0 db db' : DB) :
  effect db db' ->
  Forall2 (sums_match (transactions db)) (accounts db0) (accounts db) ->
  Forall2 (sums_match (transactions db')) (accounts db0) (accounts db').
Proof.
  intros [at_ t _ _ _ (-> & -> & _) | at_ t auth _ _ _ _ _ _ (-> & -> & _)
         | at_ t _ (-> & -> & _)] Hsums.
  - now apply posts_sums_match with (rows := transactions db).
  - apply posts_sums_match with (rows := transactions db); auto; intros acc;
      apply ledger_sum_set_status; reflexivity.
  - now apply posts_sums_match with (rows := transactions db).
Qed.

Lemma sums_match_seed (l : list Account) : Forall2 (sums_match []) l l.
Proof.
  induction l as [|a l IH]; constructor; [|exact IH].
  unfold sums_match. cbn. repeat split; lia.
Qed.

Lemma sums_match_find (rows : list Transaction) (l0 l : list Account) (id : uuid)
    (a0 : Account) :
  Forall2 (sums_match rows) l0 l ->
  find (fun a => N.eqb (AccID a) id) l0 = Some a0 ->
  exists a, find (fun a => N.eqb (AccID a) id) l = Some a /\ sums_match rows a0 a.
Proof.
  induction 1 as [|b0 b l0 l Hm _ IH]; cbn [find]; [discriminate|].
  destruct Hm as (Hid & Hrest). rewrite Hid.
  destruct (N.eqb (AccID b0) id).
  - intros [= <-]. exists b. unfold sums_match. auto.
  - exact IH.
Qed.

(** C1. Ledger-sum accounting invariant.  Start from a seed state
    (provisioned accounts, empty ledger) and serve any history of
    Authorize, Capture, Void and Refund requests, each of which either
    commits or is rolled back.  Then every account of the seed state is
    still there, the sum over its ledger rows of the signed posted deltas
    (AUTH_HOLD 0, CAPTURE -amount, VOID 0, REFUND +amount) is its current
    [balance_cents] minus its initial one, and the sum of the signed
    available deltas (AUTH_HOLD -amount, CAPTURE 0, VOID +amount, REFUND
    +amount) is its current [available_balance_cents] minus its initial
    one. *)
Theorem ledger_sums_equal_balance_movement
    (s : Service.AuthorizationService) (history : list (Env * Op)) (db0 : DB)
    (id : uuid) (a0 : Account) :
  seed db0 ->
  account_of db0 id = Some a0 ->
  exists a,
    account_of (run s history db0) id = Some a
    /\ ledger_sum posted_delta id (transactions (run s history db0))
       = BalanceCents a - BalanceCents a0
    /\ ledger_sum available_delta id (transactions (run s history db0))
       = AvailableBalanceCents a - AvailableBalanceCents a0.
Proof.
  intros Hseed Hfind.
  pose proof (seed_holds_positive _ Hseed) as Hpos.
  destruct Hseed as [Hrows Htyped].
  destruct (run_preserves
              (fun db => Forall2 (sums_match (transactions db)) (accounts db0) (accounts db))
              s (fun db db' _ _ Hp Heff => effect_sums_match db0 db db' Heff Hp)
              history db0 Htyped Hpos) as (_ & _ & Hsums).
  { rewrite Hrows. apply sums_match_seed. }
  unfold account_of in *.
  destruct (sums_match_find _ _ _ _ _ Hsums Hfind) as (a & Ha & Hid & Hposted & Havail).
  exists a. split; [exact Ha|].
  apply find_some in Hfind as [_ Heq]. apply N.eqb_eq in Heq. subst id. auto.
Qed.

Lemma ledger_sums_equal_balance_movement_witness :
  exists a,
    account_of
      (run Sample.svc
           [ (Sample.env 1000 100%N, OpAuthorize "4111111111111111" "123" 10000);
             (Sample.env 2000 101%N, OpCapture 100%N 10000);
             (Sample.env 3000 102%N, OpRefund 101%N 10000);
             (Sample.env 4000 103%N, OpAuthorize "4111111111111111" "123" 2500) ]
           Sample.db0) 1%N = Some a
    /\ ledger_sum posted_delta 1%N
         (transactions
            (run Sample.svc
               [ (Sample.env 1000 100%N, OpAuthorize "4111111111111111" "123" 10000);
                 (Sample.env 2000 101%N, OpCapture 100%N 10000);
                 (Sample.env 3000 102%N, OpRefund 101%N 10000);
                 (Sample.env 4000 103%N, OpAuthorize "4111111111111111" "123" 2500) ]
               Sample.db0))
       = BalanceCents a - BalanceCents Sample.A
    /\ ledger_sum available_delta 1%N
         (transactions
            (run Sample.svc
               [ (Sample.env 1000 100%N, OpAuthorize "4111111111111111" "123" 10000);
                 (Sample.env 2000 101%N, OpCapture 100%N 10000);
                 (Sample.env 3000 102%N, OpRefund 101%N 10000);
                 (Sample.env 4000 103%N, OpAuthorize "4111111111111111" "123" 2500) ]
               Sample.db0))
       = AvailableBalanceCents a - AvailableBalanceCents Sample.A.
Proof.
  apply (ledger_sums_equal_balance_movement Sample.svc _ Sample.db0 1%N Sample.A).
  - split; [reflexivity|].
    unfold accounts_typed, Int64.in_range, Int64.min_signed, Int64.max_signed.
    repeat constructor; cbn; lia.
  - reflexivity.
Defined.

Example ledger_after_sample_history :
  let db :=
    run Sample.svc
        [ (Sample.env 1000 100%N, OpAuthorize "4111111111111111" "123" 10000);
          (Sample.env 2000 101%N, OpCapture 100%N 10000);
          (Sample.env 3000 102%N, OpRefund 101%N 10000);
          (Sample.env 4000 103%N, OpAuthorize "4111111111111111" "123" 2500) ]
        Sample.db0 in
  map (fun t => (Type_ t, AmountCents t)) (transactions db)
  = [ (AUTH_HOLD, 2500); (REFUND, 10000); (CAPTURE, 10000); (AUTH_HOLD, 10000) ]
  /\ ledger_sum posted_delta 1%N (transactions db) = 0
  /\ ledger_sum available_delta 1%N (transactions db) = - 2500
  /\ option_map BalanceCents (account_of db 1%N) = Some 1000000
  /\ option_map AvailableBalanceCents (account_of db 1%N) = Some 997500.
Proof. vm_compute. repeat split; reflexivity. Qed.

(** *** Active holds sit between available and posted *)

Lemma hold_amount_completed (t : Transaction) :
  hold_amount (TransactionRepository.with_status COMPLETED t) = 0.
Proof. unfold hold_amount. cbn. now destruct (Type_ t). Qed.

Lemma hold_amount_nonneg (t : Transaction) :
  (Type_ t = AUTH_HOLD -> 0 < AmountCents t <= Int64.max_signed) -> 0 <= hold_amount t.
Proof.
  unfold hold_amount. intros H.
  destruct (Type_ t); try lia. destruct (Status t); try lia.
  specialize (H eq_refl). lia.
Qed.

Lemma ledger_sum_hold_nonneg (acc : uuid) (rows : list Transaction) :
  Forall (fun t => Type_ t = AUTH_HOLD -> 0 < AmountCents t <= Int64.max_signed) rows ->
  0 <= ledger_sum hold_amount acc rows.
Proof.
  induction 1 as [|t rows Ht _ IH]; cbn [ledger_sum]; [lia|].
  apply hold_amount_nonneg in Ht. destruct (N.eqb (AccountID t) acc); lia.
Qed.

(** Completing rows never raises the active holds of an account. *)
Lemma ledger_sum_hold_complete_le (acc id : uuid) (rows : list Transaction) :
  Forall (fun t => Type_ t = AUTH_HOLD -> 0 < AmountCents t <= Int64.max_signed) rows ->
  ledger_sum hold_amount acc (TransactionRepository.set_status id COMPLETED rows)
  <= ledger_sum hold_amount acc rows.
Proof.
  unfold TransactionRepository.set_status.
  induction 1 as [|t rows Ht _ IH]; cbn [map ledger_sum]; [lia|].
  apply hold_amount_nonneg in Ht.
  destruct (N.eqb (ID t) id).
  - cbn [AccountID TransactionRepository.with_status]. rewrite hold_amount_completed.
    destruct (N.eqb (AccountID t) acc); lia.
  - destruct (N.eqb (AccountID t) acc); lia.
Qed.

(** Completing an active hold lowers the active holds of its account by
    at least its amount. *)
Lemma ledger_sum_hold_settle (acc : uuid) (auth : Transaction) (rows : list Transaction) :
  Forall (fun t => Type_ t = AUTH_HOLD -> 0 < AmountCents t <= Int64.max_signed) rows ->
  In auth rows -> Type_ auth = AUTH_HOLD -> Status auth = ACTIVE ->
  ledger_sum hold_amount acc (TransactionRepository.set_status (ID auth) COMPLETED rows)
  + (if N.eqb (AccountID auth) acc then AmountCents auth else 0)
  <= ledger_sum hold_amount acc rows.
Proof.
  intros Hpos Hin Htype Hstatus.
  induction Hpos as [|t rows Ht Hrows IH]; [contradiction|].
  destruct Hin as [-> | Hin].
  - pose proof (ledger_sum_hold_complete_le acc (ID auth) rows Hrows) as Hle.
    unfold TransactionRepository.set_status in *. cbn [map ledger_sum].
    rewrite N.eqb_refl. cbn [AccountID TransactionRepository.with_status].
    rewrite hold_amount_completed.
    assert (hold_amount auth = AmountCents auth) as ->
        by (unfold hold_amount; now rewrite Htype, Hstatus).
    destruct (N.eqb (AccountID auth) acc); lia.
  - specialize (IH Hin). apply hold_amount_nonneg in Ht.
    unfold TransactionRepository.set_status in *. cbn [map ledger_sum].
    destruct (N.eqb (ID t) (ID auth)).
    + cbn [AccountID TransactionRepository.with_status]. rewrite hold_amount_completed.
      destruct (N.eqb (AccountID t) acc); lia.
    + destruct (N.eqb (AccountID t) acc); lia.
Qed.

(** The account rows move with the ledger, one row at a time. *)
Lemma posts_holds_covered (at_ : Time) (t : Transaction) (rows rows' : list Transaction)
    (l : list Account) :
  (forall a, In a l ->
     (if N.eqb (AccID a) (AccountID t) then available_delta t - posted_delta t else 0)
     + ledger_sum hold_amount (AccID a) (t :: rows')
     <= ledger_sum hold_amount (AccID a) rows) ->
  Forall (fun a => AvailableBalanceCents a + ledger_sum hold_amount (AccID a) rows
                   <= BalanceCents a) l ->
  Forall (fun a => AvailableBalanceCents a + ledger_sum hold_amount (AccID a) (t :: rows')
                   <= BalanceCents a)
         (AccountRepository.adjust_rows at_ (AccountID t) (posted_delta t) (available_delta t) l).
Proof.
  unfold AccountRepository.adjust_rows. intros Hstep Hcov.
  induction Hcov as [|a l Ha _ IH]; cbn [map]; constructor.
  - specialize (Hstep a (or_introl eq_refl)).
    destruct (N.eqb (AccID a) (AccountID t)); cbn [AccID AvailableBalanceCents BalanceCents
      AccountRepository.adjust]; lia.
  - apply IH. intros b Hb. apply Hstep. now right.
Qed.

Lemma effect_holds_covered (db db' : DB) :
  effect db db' -> holds_positive db -> holds_covered db -> holds_covered db'.
Proof.
  unfold holds_covered, holds_positive.
  intros [at_ t Htype Hstatus Hamount (-> & -> & _)
         | at_ t auth Htype Hin Hatype Hastatus Hacc Hamt (-> & -> & _)
         | at_ t Htype (-> & -> & _)] Hpos Hcov.
  - apply posts_holds_covered with (rows := transactions db); [|exact Hcov].
    intros a _. cbn [ledger_sum]. rewrite (N.eqb_sym (AccountID t) (AccID a)).
    unfold available_delta, posted_delta, hold_amount. rewrite Htype, Hstatus.
    destruct (N.eqb (AccID a) (AccountID t)); lia.
  - apply posts_holds_covered with (rows := transactions db); [|exact Hcov].
    intros a _. cbn [ledger_sum]. rewrite (N.eqb_sym (AccountID t) (AccID a)).
    pose proof (ledger_sum_hold_settle (AccID a) auth _ Hpos Hin Hatype Hastatus) as Hle.
    pose proof (holds_positive_In db auth Hpos Hin Hatype) as Hpos'.
    rewrite <- Hacc, <- Hamt, (N.eqb_sym (AccountID t) (AccID a)) in Hle.
    assert (hold_amount t = 0) as ->
        by (unfold hold_amount; destruct Htype as [-> | ->]; reflexivity).
    unfold available_delta, posted_delta.
    destruct Htype as [-> | ->]; destruct (N.eqb (AccID a) (AccountID t)); lia.
  - apply posts_holds_covered with (rows := transactions db); [|exact Hcov].
    intros a _. cbn [ledger_sum].
    unfold available_delta, posted_delta, hold_amount. rewrite Htype.
    destruct (N.eqb (AccID a) (AccountID t)); destruct (N.eqb (AccountID t) (AccID a)); lia.
Qed.

(** C6. [available_balance_cents <= balance_cents] is preserved: from a
    seed state (provisioned accounts, empty ledger) in which every account
    satisfies it, every history of Authorize, Capture, Void and Refund
    requests leads to a state in which every account satisfies it. *)
Theorem available_never_exceeds_balance
    (s : Service.AuthorizationService) (history : list (Env * Op)) (db0 : DB) :
  seed db0 ->
  available_le_balance db0 ->
  available_le_balance (run s history db0).
Proof.
  intros Hseed Hle.
  pose proof (seed_holds_positive _ Hseed) as Hpos.
  destruct Hseed as [Hrows Htyped].
  destruct (run_preserves holds_covered s
              (fun db db' _ Hp Hc Heff => effect_holds_covered db db' Heff Hp Hc)
              history db0 Htyped Hpos) as (_ & Hpos' & Hcov).
  { unfold holds_covered, available_le_balance in *. rewrite Hrows.
    eapply List.Forall_impl; [|exact Hle]. cbn. intros a Ha. lia. }
  unfold holds_covered, available_le_balance in *.
  eapply List.Forall_impl; [|exact Hcov]. cbn. intros a Ha.
  pose proof (ledger_sum_hold_nonneg (AccID a) _ Hpos'). lia.
Qed.

Lemma available_never_exceeds_balance_witness :
  available_le_balance
    (run Sample.svc
         [ (Sample.env 1000 100%N, OpAuthorize "4111111111111111" "123" 10000);
           (Sample.env 2000 101%N, OpCapture 100%N 10000);
           (Sample.env 3000 102%N, OpAuthorize "4242424242424242" "456" 50000);
           (Sample.env 4000 103%N, OpVoid 102%N);
           (Sample.env 5000 104%N, OpRefund 101%N 10000) ]
         Sample.db0).
Proof.
  apply (available_never_exceeds_balance Sample.svc _ Sample.db0).
  - split; [reflexivity|].
    unfold accounts_typed, Int64.in_range, Int64.min_signed, Int64.max_signed.
    repeat constructor; cbn; lia.
  - unfold available_le_balance. repeat constructor; cbn; lia.
Defined.

(** ** Round trips *)

Lemma find_adjust_rows (at_ : Time) (acct id : uuid) (dB dA : Z) (l : list Account) :
  find (fun a => N.eqb (AccID a) id) (AccountRepository.adjust_rows at_ acct dB dA l)
  = option_map (fun a => if N.eqb (AccID a) acct
                         then AccountRepository.adjust at_ dB dA a else a)
               (find (fun a => N.eqb (AccID a) id) l).
Proof.
  unfold AccountRepository.adjust_rows.
  induction l as [|a l IH]; cbn [map find option_map]; [reflexivity|].
  assert (Hid : AccID (if N.eqb (AccID a) acct
                       then AccountRepository.adjust at_ dB dA a else a) = AccID a)
    by (destruct (N.eqb (AccID a) acct); reflexivity).
  rewrite Hid. destruct (N.eqb (AccID a) id); [reflexivity|exact IH].
Qed.

Lemma Authorize_amount_exact (s : Service.AuthorizationService) (env : Env) (db db' : DB)
    (cardNumber cvv : string) (amount : Z) (tx : Transaction) :
  accounts_typed db ->
  Service.Authorize s env db cardNumber cvv amount = (Ok tx, db') ->
  0 < amount <= Int64.max_signed.
Proof.
  intros Htyped H. apply Authorize_Ok in H as [Hval Hperf].
  apply validateAuthorizationRequest_None in Hval as (_ & _ & Hamount).
  apply performAuthorization_Ok in Hperf as (account & Hfind & _ & Havail & _).
  apply Acc_FindByAccountNumber_Ok in Hfind as [Hin _].
  destruct (accounts_typed_In _ _ Htyped Hin) as [_ Hr].
  unfold Int64.in_range in Hr. lia.
Qed.

(** C2. Round-trip balance identity.  A successful Authorize of [m]
    followed by a successful Void of that authorization leaves every
    account, the authorized one included, with exactly the posted and the
    available balance it had before; so does a successful Authorize of [m]
    followed by a successful Capture of that authorization and a
    successful Refund of that capture. *)
Theorem round_trip_restores_balances
    (s : Service.AuthorizationService) (env1 env2 env3 : Env) (db0 db1 : DB)
    (cardNumber cvv : string) (m : Z) (auth : Transaction) :
  accounts_typed db0 ->
  Service.Authorize s env1 db0 cardNumber cvv m = (Ok auth, db1) ->
  (forall void db2,
      Service.Void env2 db1 (ID auth) = (Ok void, db2) ->
      forall id a0, account_of db0 id = Some a0 ->
        exists a, account_of db2 id = Some a
                  /\ BalanceCents a = BalanceCents a0
                  /\ AvailableBalanceCents a = AvailableBalanceCents a0)
  /\ (forall m' r capture db2 refund db3,
      Service.Capture env2 db1 (ID auth) m' = (Ok capture, db2) ->
      Service.Refund env3 db2 (ID capture) r = (Ok refund, db3) ->
      forall id a0, account_of db0 id = Some a0 ->
        exists a, account_of db3 id = Some a
                  /\ BalanceCents a = BalanceCents a0
                  /\ AvailableBalanceCents a = AvailableBalanceCents a0).
Proof.
  intros Htyped Hauth.
  pose proof (Authorize_amount_exact _ _ _ _ _ _ _ _ Htyped Hauth) as Hm.
  apply Authorize_Ok in Hauth as [_ Hperf].
  apply performAuthorization_Ok in Hperf as (account & _ & _ & _ & Hauth & Hdb1 & _).
  rewrite neg_exact in Hdb1 by (unfold Int64.min_signed; lia).
  assert (Hhead : TransactionRepository.FindByID db1 (ID auth) = Ok auth)
    by (apply Tx_FindByID_head with (rows := transactions db0); now rewrite Hdb1).
  split.
  - intros void db2 Hvoid id a0 Hfind.
    apply inTx_Ok in Hvoid as (_ & _ & Hperf).
    apply performVoid_Ok in Hperf as (authTxn & Hf & _ & _ & _ & -> & _).
    rewrite Hhead in Hf. injection Hf as <-.
    unfold account_of in *. rewrite Hdb1. cbn [accounts].
    rewrite !find_adjust_rows, Hfind. cbn [option_map].
    eexists. split; [reflexivity|].
    rewrite Hauth. cbn [AccountID AmountCents].
    destruct (N.eqb (AccID a0) (AccID account)) eqn:Hhit;
      repeat (cbn [AccID AccountRepository.adjust]; rewrite Hhit);
      cbn; lia.
  - intros m' r capture db2 refund db3 Hcap Href id a0 Hfind.
    apply inTx_Ok in Hcap as (_ & _ & Hperf).
    apply performCapture_Ok in Hperf as (authTxn & Hf & _ & _ & _ & Hm' & Hcapture & Hdb2 & _).
    rewrite Hhead in Hf. injection Hf as <-.
    assert (m' = m) as -> by (rewrite Hm', Hauth; reflexivity).
    rewrite neg_exact in Hdb2 by (unfold Int64.min_signed; lia).
    assert (Hhead2 : TransactionRepository.FindByID db2 (ID capture) = Ok capture).
    { eapply Tx_FindByID_head. rewrite Hdb2. reflexivity. }
    apply inTx_Ok in Href as (_ & _ & Hperf).
    apply performRefund_Ok in Hperf as (captureTxn & Hf & _ & _ & Hr & _ & -> & _).
    rewrite Hhead2 in Hf. injection Hf as <-.
    assert (r = m) as -> by (rewrite Hr, Hcapture; reflexivity).
    unfold account_of in *. cbn [accounts]. rewrite Hdb2. cbn [accounts].
    rewrite Hdb1. cbn [accounts].
    rewrite !find_adjust_rows, Hfind. cbn [option_map].
    eexists. split; [reflexivity|].
    rewrite Hcapture, Hauth. cbn [AccountID AmountCents].
    destruct (N.eqb (AccID a0) (AccID account)) eqn:Hhit;
      repeat (cbn [AccID AccountRepository.adjust]; rewrite Hhit);
      cbn; lia.
Qed.

Lemma sample_accounts_typed : accounts_typed Sample.db0.
Proof.
  unfold accounts_typed, Int64.in_range, Int64.min_signed, Int64.max_signed.
  repeat constructor; cbn; lia.
Defined.

Lemma round_trip_restores_balances_witness :
  (exists a,
      account_of Sample.db_voided 1%N = Some a
      /\ BalanceCents a = BalanceCents Sample.A
      /\ AvailableBalanceCents a = AvailableBalanceCents Sample.A)
  /\ (exists a,
      account_of Sample.db3 1%N = Some a
      /\ BalanceCents a = BalanceCents Sample.A
      /\ AvailableBalanceCents a = AvailableBalanceCents Sample.A).
Proof.
  assert (Hauth : Service.Authorize Sample.svc (Sample.env 1000 100%N) Sample.db0
                    "4111111111111111" "123" 10000 = (Ok Sample.auth1, Sample.db1))
    by (vm_compute; reflexivity).
  assert (Hvoid : Service.Void (Sample.env 2000 101%N) Sample.db1 (ID Sample.auth1)
                  = (Ok Sample.void1, Sample.db_voided))
    by (vm_compute; reflexivity).
  assert (Hcapture : Service.Capture (Sample.env 2000 101%N) Sample.db1 (ID Sample.auth1) 10000
                     = (Ok Sample.capture1, Sample.db2))
    by (vm_compute; reflexivity).
  assert (Hrefund : Service.Refund (Sample.env 3000 102%N) Sample.db2 (ID Sample.capture1) 10000
                    = (Ok Sample.refund1, Sample.db3))
    by (vm_compute; reflexivity).
  assert (Hfind : account_of Sample.db0 1%N = Some Sample.A) by reflexivity.
  destruct (round_trip_restores_balances Sample.svc
              (Sample.env 1000 100%N) (Sample.env 2000 101%N) (Sample.env 3000 102%N)
              Sample.db0 Sample.db1 "4111111111111111" "123" 10000 Sample.auth1
              sample_accounts_typed Hauth) as [Hv Hr].
  split.
  - exact (Hv Sample.void1 Sample.db_voided Hvoid 1%N Sample.A Hfind).
  - exact (Hr 10000 10000 Sample.capture1 Sample.db2 Sample.refund1 Sample.db3
              Hcapture Hrefund 1%N Sample.A Hfind).
Defined.

(** ** Lookups *)

(** C10. A GET lookup reports an existing row of another type as not
    found: [GetAuthorization] on the id of a row that is not an AUTH_HOLD
    returns [authorization_not_found], [GetCapture] on the id of a row that
    is not a CAPTURE returns [capture_not_found], and [GetRefund] on the id
    of a row that is not a REFUND returns [refund_not_found]. *)
Theorem get_wrong_type_is_not_found (db : DB) (id : uuid) (txn : Transaction) :
  TransactionRepository.FindByID db id = Ok txn ->
  (Type_ txn <> AUTH_HOLD ->
   Service.GetAuthorization db id
   = Err (ServiceError "authorization_not_found" "authorization not found" None))
  /\ (Type_ txn <> CAPTURE ->
      Service.GetCapture db id
      = Err (ServiceError "capture_not_found" "capture not found" None))
  /\ (Type_ txn <> REFUND ->
      Service.GetRefund db id
      = Err (ServiceError "refund_not_found" "refund not found" None)).
Proof.
  intros Hfind.
  unfold Service.GetAuthorization, Service.GetCapture, Service.GetRefund.
  rewrite Hfind.
  repeat split; intros Hne; apply TransactionType_eqb_neq in Hne; now rewrite Hne.
Qed.

Lemma get_wrong_type_is_not_found_witness :
  Service.GetAuthorization Sample.db2 101%N
  = Err (ServiceError "authorization_not_found" "authorization not found" None)
  /\ Service.GetCapture Sample.db2 100%N
     = Err (ServiceError "capture_not_found" "capture not found" None)
  /\ Service.GetRefund Sample.db2 100%N
     = Err (ServiceError "refund_not_found" "refund not found" None).
Proof.
  split; [|split].
  - eapply (get_wrong_type_is_not_found Sample.db2 101%N); [reflexivity|discriminate].
  - eapply (get_wrong_type_is_not_found Sample.db2 100%N); [reflexivity|discriminate].
  - eapply (get_wrong_type_is_not_found Sample.db2 100%N); [reflexivity|discriminate].
Defined.

(** A lookup of the right type returns the row, and a missing row is also
    reported as not found. *)
Lemma get_right_type_found (db : DB) (id : uuid) (txn : Transaction) :
  TransactionRepository.FindByID db id = Ok txn ->
  (Type_ txn = AUTH_HOLD -> Service.GetAuthorization db id = Ok txn)
  /\ (Type_ txn = CAPTURE -> Service.GetCapture db id = Ok txn)
  /\ (Type_ txn = REFUND -> Service.GetRefund db id = Ok txn).
Proof.
  intros Hfind.
  unfold Service.GetAuthorization, Service.GetCapture, Service.GetRefund.
  rewrite Hfind. repeat split; intros ->; reflexivity.
Qed.

(** ** When the repositories succeed *)

Lemma existsb_id_false (rows : list Transaction) (id : uuid) :
  (forall r, In r rows -> ID r <> id) ->
  existsb (fun r => N.eqb (ID r) id) rows = false.
Proof.
  intros Hfresh. destruct (existsb _ _) eqn:Hex; [|reflexivity].
  apply existsb_exists in Hex as (r & Hin & Heq). apply N.eqb_eq in Heq.
  now apply Hfresh in Hin.
Qed.

Lemma option_uuid_eqb_eq (a b : option uuid) : option_uuid_eqb a b = true <-> a = b.
Proof.
  destruct a as [x|], b as [y|]; cbn; try (split; congruence).
  rewrite N.eqb_eq. split; congruence.
Qed.

(** The partial unique index, read as a statement about the table. *)
Lemma conflict_exists (rows : list Transaction) (t : Transaction) :
  TransactionRepository.indexed t = true ->
  (existsb (TransactionRepository.conflicts t) rows = true <->
   exists r, In r rows /\ ReferenceID r = ReferenceID t /\ Type_ r = Type_ t).
Proof.
  intros Hidx. rewrite existsb_exists. unfold TransactionRepository.conflicts.
  split.
  - intros (r & Hin & Hc). apply andb_true_iff in Hc as [Hc Htype].
    apply andb_true_iff in Hc as [_ Href].
    apply option_uuid_eqb_eq in Href. apply TransactionType_eqb_eq in Htype. eauto.
  - intros (r & Hin & Href & Htype). exists r. split; [exact Hin|].
    assert (TransactionRepository.indexed r = true) as ->.
    { unfold TransactionRepository.indexed in *. now rewrite Href, Htype. }
    apply option_uuid_eqb_eq in Href. apply TransactionType_eqb_eq in Htype.
    now rewrite Href, Htype.
Qed.

Lemma Create_duplicate (db : DB) (t : Transaction) :
  (forall r, In r (transactions db) -> ID r <> ID t) ->
  TransactionRepository.indexed t = true ->
  (exists r, In r (transactions db) /\ ReferenceID r = ReferenceID t /\ Type_ r = Type_ t) ->
  TransactionRepository.Create db t = Err ErrDuplicateTransaction.
Proof.
  intros Hfresh Hidx Hdup. unfold TransactionRepository.Create.
  rewrite existsb_id_false by exact Hfresh.
  apply (conflict_exists _ _ Hidx) in Hdup. now rewrite Hidx, Hdup.
Qed.

Lemma Create_succeeds (db : DB) (t : Transaction) :
  (forall r, In r (transactions db) -> ID r <> ID t) ->
  (TransactionRepository.indexed t = true ->
   ~ exists r, In r (transactions db) /\ ReferenceID r = ReferenceID t /\ Type_ r = Type_ t) ->
  (exists a, In a (accounts db) /\ AccID a = AccountID t) ->
  TransactionRepository.Create db t
  = Ok {| accounts := accounts db; transactions := t :: transactions db |}.
Proof.
  intros Hfresh Hnodup (a & Hin & Hacc). unfold TransactionRepository.Create.
  rewrite existsb_id_false by exact Hfresh.
  assert (TransactionRepository.indexed t
          && existsb (TransactionRepository.conflicts t) (transactions db) = false) as ->.
  { destruct (TransactionRepository.indexed t) eqn:Hidx; [|reflexivity]. cbn.
    destruct (existsb _ _) eqn:Hex; [|reflexivity].
    apply (conflict_exists _ _ Hidx) in Hex. now apply Hnodup in Hex. }
  assert (existsb (fun a => N.eqb (AccID a) (AccountID t)) (accounts db) = true) as ->.
  { apply existsb_exists. exists a. split; [exact Hin|]. now apply N.eqb_eq. }
  reflexivity.
Qed.

Lemma UpdateStatus_succeeds (db : DB) (id : uuid) (st : TransactionStatus) :
  (exists t, In t (transactions db) /\ ID t = id) ->
  TransactionRepository.UpdateStatus db id st
  = Ok {| accounts := accounts db;
          transactions := TransactionRepository.set_status id st (transactions db) |}.
Proof.
  intros (t & Hin & Hid). unfold TransactionRepository.UpdateStatus.
  assert (existsb (fun t => N.eqb (ID t) id) (transactions db) = true) as ->.
  { apply existsb_exists. exists t. split; [exact Hin|]. now apply N.eqb_eq. }
  reflexivity.
Qed.

Lemma AdjustBalances_succeeds (at_ : Time) (db : DB) (id : uuid) (dB dA : Z) :
  (exists a, In a (accounts db) /\ AccID a = id) ->
  (forall a, In a (accounts db) -> AccID a = id ->
     Int64.in_range (BalanceCents a + dB) /\ Int64.in_range (AvailableBalanceCents a + dA)) ->
  AccountRepository.AdjustBalances at_ db id dB dA
  = Ok {| accounts := AccountRepository.adjust_rows at_ id dB dA (accounts db);
          transactions := transactions db |}.
Proof.
  intros (a & Hin & Hid) Hfit. unfold AccountRepository.AdjustBalances.
  assert (forallb (AccountRepository.fits dB dA)
                  (AccountRepository.matched id (accounts db)) = true) as ->.
  { apply forallb_forall. intros b Hb. unfold AccountRepository.matched in Hb.
    apply filter_In in Hb as [Hb Hbid]. apply N.eqb_eq in Hbid.
    destruct (Hfit b Hb Hbid) as [H1 H2]. unfold AccountRepository.fits.
    apply in_rangeb_spec in H1, H2. now rewrite H1, H2. }
  assert (In a (AccountRepository.matched id (accounts db))) as Hm.
  { unfold AccountRepository.matched. apply filter_In. split; [exact Hin|]. now apply N.eqb_eq. }
  destruct (AccountRepository.matched id (accounts db)); [contradiction|]. reflexivity.
Qed.

(** ** Capture *)

(** C4. The checks of Capture, in their order.  With a database that
    accepts the transaction: [authorization_not_found] when no row has the
    id or the row is not an AUTH_HOLD; else [authorization_already_used]
    when its status is not ACTIVE; else [authorization_expired] when its
    [expires_at] is in the past; else [amount_mismatch] when the amount
    differs from the hold's; else [already_captured] when a CAPTURE row
    with that [reference_id] is already in the ledger, so that the insert
    conflicts; and otherwise the capture succeeds with a COMPLETED CAPTURE
    row that refers to the authorization.  Every failure leaves the
    database as it was. *)
Theorem capture_checks_in_order (env : Env) (db : DB) (authorizationID : uuid) (amount : Z) :
  beginErr env = None ->
  commitErr env = None ->
  let outcome := Service.Capture env db authorizationID amount in
  ((forall t, In t (transactions db) -> ID t <> authorizationID) ->
   code_of (fst outcome) = Some "authorization_not_found" /\ snd outcome = db)
  /\ (forall authTxn,
        TransactionRepository.FindByID db authorizationID = Ok authTxn ->
        (Type_ authTxn <> AUTH_HOLD ->
         code_of (fst outcome) = Some "authorization_not_found" /\ snd outcome = db)
        /\ (Type_ authTxn = AUTH_HOLD ->
            (Status authTxn <> ACTIVE ->
             code_of (fst outcome) = Some "authorization_already_used" /\ snd outcome = db)
            /\ (Status authTxn = ACTIVE ->
                ((exists e, ExpiresAt authTxn = Some e /\ e < now env) ->
                 code_of (fst outcome) = Some "authorization_expired" /\ snd outcome = db)
                /\ ((forall e, ExpiresAt authTxn = Some e -> now env <= e) ->
                    (amount <> AmountCents authTxn ->
                     code_of (fst outcome) = Some "amount_mismatch" /\ snd outcome = db)
                    /\ (amount = AmountCents authTxn ->
                        (forall r, In r (transactions db) -> ID r <> newUUID env) ->
                        ((exists r, In r (transactions db)
                                    /\ ReferenceID r = Some authorizationID
                                    /\ Type_ r = CAPTURE) ->
                         code_of (fst outcome) = Some "already_captured" /\ snd outcome = db)
                        /\ ((~ exists r, In r (transactions db)
                                         /\ ReferenceID r = Some authorizationID
                                         /\ Type_ r = CAPTURE) ->
                            (exists a, In a (accounts db) /\ AccID a = AccountID authTxn) ->
                            (forall a, In a (accounts db) -> AccID a = AccountID authTxn ->
                               Int64.in_range (BalanceCents a + Int64.neg amount)
                               /\ Int64.in_range (AvailableBalanceCents a + 0)) ->
                            exists captureTxn db',
                              outcome = (Ok captureTxn, db')
                              /\ Type_ captureTxn = CAPTURE
                              /\ Status captureTxn = COMPLETED
                              /\ ReferenceID captureTxn = Some authorizationID
                              /\ AmountCents captureTxn = amount
                              /\ AccountID captureTxn = AccountID authTxn)))))).
Proof.
  intros Hbegin Hcommit outcome. subst outcome.
  unfold Service.Capture. rewrite (inTx_healthy _ _ _ Hbegin Hcommit).
  unfold Service.performCapture, TransactionRepository.FindByIDForUpdate.
  split.
  { intros Hmissing. rewrite (Tx_FindByID_Err _ _ Hmissing). cbn. auto. }
  intros authTxn Hfind. rewrite Hfind.
  pose proof (Tx_FindByID_Ok _ _ _ Hfind) as [Hin Hid].
  split.
  { intros Htype. apply TransactionType_eqb_neq in Htype. rewrite Htype. cbn. auto. }
  intros Htype. rewrite (proj2 (TransactionType_eqb_eq _ _) Htype). cbn [negb].
  split.
  { intros Hstatus. apply TransactionStatus_eqb_neq in Hstatus. rewrite Hstatus. cbn. auto. }
  intros Hstatus. rewrite (proj2 (TransactionStatus_eqb_eq _ _) Hstatus). cbn [negb].
  split.
  { intros (e & He & Hlt). unfold Service.expired. rewrite He.
    rewrite (proj2 (Z.gtb_gt _ _)) by lia. cbn. auto. }
  intros Hlive.
  assert (Service.expired env authTxn = false) as ->.
  { unfold Service.expired. destruct (ExpiresAt authTxn) as [e|]; [|reflexivity].
    specialize (Hlive e eq_refl). rewrite Z.gtb_ltb. apply Z.ltb_ge. lia. }
  split.
  { intros Hne. apply Z.eqb_neq in Hne. rewrite Hne. cbn. auto. }
  intros Heq Hfresh. rewrite (proj2 (Z.eqb_eq _ _) Heq). cbn [negb].
  split.
  { intros Hdup. rewrite Create_duplicate; cbn; auto. }
  intros Hnodup Hacc Hfit.
  rewrite Create_succeeds; cbn; auto.
  rewrite UpdateStatus_succeeds by (exists authTxn; cbn; auto).
  rewrite AdjustBalances_succeeds; cbn; auto.
  do 2 eexists. split; [reflexivity|]. cbn. auto.
Qed.

Lemma capture_checks_in_order_witness :
  (exists captureTxn db',
      Service.Capture (Sample.env 2000 101%N) Sample.db1 100%N 10000 = (Ok captureTxn, db')
      /\ Type_ captureTxn = CAPTURE
      /\ Status captureTxn = COMPLETED
      /\ ReferenceID captureTxn = Some 100%N
      /\ AmountCents captureTxn = 10000
      /\ AccountID captureTxn = AccountID Sample.auth1)
  /\ (code_of (fst (Service.Capture (Sample.env 2000 101%N) Sample.db1 100%N 500))
      = Some "amount_mismatch"
      /\ snd (Service.Capture (Sample.env 2000 101%N) Sample.db1 100%N 500) = Sample.db1).
Proof.
  split.
  - destruct (capture_checks_in_order (Sample.env 2000 101%N) Sample.db1 100%N 10000
                eq_refl eq_refl) as [_ Hfound].
    destruct (Hfound Sample.auth1 eq_refl) as [_ Hhold].
    destruct (Hhold eq_refl) as [_ Hactive].
    destruct (Hactive eq_refl) as [_ Hlive].
    assert (Hnot : forall e, ExpiresAt Sample.auth1 = Some e -> now (Sample.env 2000 101%N) <= e).
    { intros e [= <-]. cbn. lia. }
    destruct (Hlive Hnot) as [_ Hamount].
    assert (Hfresh : forall r, In r (transactions Sample.db1) -> ID r <> 101%N).
    { intros r [<- | []]. discriminate. }
    destruct (Hamount eq_refl Hfresh) as [_ Hok].
    apply Hok.
    + intros (r & [<- | []] & Href & _). discriminate.
    + exists (AccountRepository.adjust 1000 0 (-10000) Sample.A). split; [left|]; reflexivity.
    + intros a Hin Hid.
      unfold Int64.in_range, Int64.min_signed, Int64.max_signed.
      destruct Hin as [<- | [<- | [<- | [<- | []]]]]; cbn in Hid; try discriminate.
      vm_compute. repeat split; discriminate.
  - destruct (capture_checks_in_order (Sample.env 2000 101%N) Sample.db1 100%N 500
                eq_refl eq_refl) as [_ Hfound].
    destruct (Hfound Sample.auth1 eq_refl) as [_ Hhold].
    destruct (Hhold eq_refl) as [_ Hactive].
    destruct (Hactive eq_refl) as [_ Hlive].
    assert (Hnot : forall e, ExpiresAt Sample.auth1 = Some e -> now (Sample.env 2000 101%N) <= e).
    { intros e [= <-]. cbn. lia. }
    destruct (Hlive Hnot) as [Hmismatch _].
    apply Hmismatch. discriminate.
Defined.

(** ** Authorize *)

Lemma Acc_FindByAccountNumber_Err (db : DB) (n : string) :
  (forall a, In a (accounts db) -> AccountNumber a <> n) ->
  AccountRepository.FindByAccountNumber db n = Err (Errorf "account not found" (Some ErrNoRows)).
Proof.
  unfold AccountRepository.FindByAccountNumber. intros H.
  destruct (find _ _) eqn:Hf; [|reflexivity].
  apply find_some in Hf as [Hin Heq]. apply String.eqb_eq in Heq. now apply H in Hin.
Qed.

(** A card is expired when its year is before the current year, or is the
    current year with a month before the current month. *)
Lemma ValidateExpiry_expired (currentYear currentMonth expiryMonth expiryYear : Z) :
  expiryYear < currentYear \/ (expiryYear = currentYear /\ expiryMonth < currentMonth) ->
  Validators.ValidateExpiry currentYear currentMonth expiryMonth expiryYear <> None.
Proof.
  unfold Validators.ValidateExpiry. intros H.
  destruct ((expiryMonth <? 1) || (expiryMonth >? 12)); [discriminate|].
  destruct (Z.ltb_spec expiryYear currentYear); [discriminate|].
  destruct (Z.eqb_spec expiryYear currentYear); [|lia].
  destruct (Z.ltb_spec expiryMonth currentMonth); [discriminate|lia].
Qed.

(** A card whose month is a month and which is not expired passes. *)
Lemma ValidateExpiry_valid (currentYear currentMonth expiryMonth expiryYear : Z) :
  1 <= expiryMonth <= 12 ->
  currentYear < expiryYear \/ (expiryYear = currentYear /\ currentMonth <= expiryMonth) ->
  Validators.ValidateExpiry currentYear currentMonth expiryMonth expiryYear = None.
Proof.
  unfold Validators.ValidateExpiry. intros Hm H.
  assert ((expiryMonth <? 1) || (expiryMonth >? 12) = false) as ->.
  { apply orb_false_iff. rewrite Z.gtb_ltb. split; apply Z.ltb_ge; lia. }
  destruct (Z.ltb_spec expiryYear currentYear); [lia|].
  destruct (Z.eqb_spec expiryYear currentYear); [|reflexivity].
  destruct (Z.ltb_spec expiryMonth currentMonth); [lia|reflexivity].
Qed.

(** The primary key of the accounts table. *)
Lemma primary_key_unique (l : list Account) (a b : Account) :
  List.NoDup (map AccID l) -> In a l -> In b l -> AccID a = AccID b -> a = b.
Proof.
  induction l as [|c l IH]; cbn [map]; intros Hnd Ha Hb Hid; [contradiction|].
  apply List.NoDup_cons_iff in Hnd as [Hnotin Hnd].
  destruct Ha as [-> | Ha], Hb as [-> | Hb]; auto.
  - exfalso. apply Hnotin. rewrite Hid. now apply in_map.
  - exfalso. apply Hnotin. rewrite <- Hid. now apply in_map.
Qed.

Lemma account_of_In (db : DB) (a : Account) :
  List.NoDup (map AccID (accounts db)) -> In a (accounts db) -> account_of db (AccID a) = Some a.
Proof.
  intros Hnd Hin. unfold account_of.
  destruct (find _ _) as [b|] eqn:Hf.
  - apply find_some in Hf as [Hb Heq]. apply N.eqb_eq in Heq.
    f_equal. now apply (primary_key_unique (accounts db)).
  - apply (find_none _ _ Hf) in Hin. now rewrite N.eqb_refl in Hin.
Qed.

Lemma expiresAt_hours (s : Service.AuthorizationService) (env : Env) :
  Int64.in_range (Service.authExpiryHours s * Service.Hour) ->
  Service.expiresAt s env = now env + Service.authExpiryHours s * 3600 * 1000000000.
Proof.
  intros H. unfold Service.expiresAt, Int64.mul. rewrite wrap_in_range by exact H.
  unfold Service.Hour. lia.
Qed.

(** C5. Authorize.  With a database that accepts the transaction, the
    inputs are validated first (a Luhn failure is [invalid_card], a
    malformed CVV [invalid_cvv], an amount [<= 0] [invalid_amount]); then
    no account row for the card number is [invalid_card] again, a CVV
    that differs from the account's is [invalid_cvv], an expired card is
    [card_expired], and [insufficient_funds] is returned exactly when
    [available_balance_cents < amount].  Every rejection leaves the
    database as it was.  Otherwise an AUTH_HOLD row with status ACTIVE and
    [expires_at = now + auth expiry] is inserted (168 hours when
    [AUTH_EXPIRY_HOURS] is not set) and the account moves by [(0, -amount)]. *)
Theorem authorize_checks_and_effect
    (s : Service.AuthorizationService) (env : Env) (db : DB)
    (cardNumber cvv : string) (amount : Z) :
  beginErr env = None ->
  commitErr env = None ->
  let outcome := Service.Authorize s env db cardNumber cvv amount in
  (Validators.ValidateLuhn cardNumber <> None ->
   code_of (fst outcome) = Some "invalid_card" /\ snd outcome = db)
  /\ (Validators.ValidateLuhn cardNumber = None ->
      (Validators.ValidateCVV cvv <> None ->
       code_of (fst outcome) = Some "invalid_cvv" /\ snd outcome = db)
      /\ (Validators.ValidateCVV cvv = None ->
          (amount <= 0 ->
           code_of (fst outcome) = Some "invalid_amount" /\ snd outcome = db)
          /\ (0 < amount ->
              ((forall a, In a (accounts db) -> AccountNumber a <> cardNumber) ->
               code_of (fst outcome) = Some "invalid_card" /\ snd outcome = db)
              /\ (forall account,
                    AccountRepository.FindByAccountNumber db cardNumber = Ok account ->
                    (CVV account <> cvv ->
                     code_of (fst outcome) = Some "invalid_cvv" /\ snd outcome = db)
                    /\ (CVV account = cvv ->
                        ((ExpiryYear account < currentYear env
                          \/ (ExpiryYear account = currentYear env
                              /\ ExpiryMonth account < currentMonth env)) ->
                         code_of (fst outcome) = Some "card_expired" /\ snd outcome = db)
                        /\ (Validators.ValidateExpiry (currentYear env) (currentMonth env)
                              (ExpiryMonth account) (ExpiryYear account) = None ->
                            (code_of (fst outcome) = Some "insufficient_funds"
                             <-> AvailableBalanceCents account < amount)
                            /\ (AvailableBalanceCents account < amount -> snd outcome = db)
                            /\ (amount <= AvailableBalanceCents account ->
                                (forall r, In r (transactions db) -> ID r <> newUUID env) ->
                                accounts_typed db ->
                                List.NoDup (map AccID (accounts db)) ->
                                exists authTx db',
                                  outcome = (Ok authTx, db')
                                  /\ Type_ authTx = AUTH_HOLD
                                  /\ Status authTx = ACTIVE
                                  /\ AmountCents authTx = amount
                                  /\ AccountID authTx = AccID account
                                  /\ ExpiresAt authTx
                                     = Some (now env
                                             + Int64.mul (Service.authExpiryHours s) Service.Hour)
                                  /\ (forall Atoi environ,
                                        environ !! "AUTH_EXPIRY_HOURS" = None ->
                                        s = Service.NewAuthorizationService
                                              (Config.AuthExpiryHours Atoi environ) ->
                                        ExpiresAt authTx
                                        = Some (now env + 168 * 3600 * 1000000000))
                                  /\ transactions db' = authTx :: transactions db
                                  /\ accounts db'
                                     = AccountRepository.adjust_rows (now env) (AccID account)
                                         0 (- amount) (accounts db)
                                  /\ exists account',
                                       account_of db' (AccID account) = Some account'
                                       /\ BalanceCents account' = BalanceCents account + 0
                                       /\ AvailableBalanceCents account'
                                          = AvailableBalanceCents account - amount))))))).
Proof.
  intros Hbegin Hcommit outcome. subst outcome.
  unfold Service.Authorize, Service.validateAuthorizationRequest.
  split.
  { intros Hluhn. destruct (Validators.ValidateLuhn cardNumber); [|contradiction]. cbn. auto. }
  intros ->. split.
  { intros Hcvv. destruct (Validators.ValidateCVV cvv); [|contradiction]. cbn. auto. }
  intros ->. unfold Validators.ValidateAmount. split.
  { intros Hle. rewrite (proj2 (Z.leb_le _ _) Hle). cbn. auto. }
  intros Hpos. rewrite (proj2 (Z.leb_gt _ _) Hpos).
  rewrite (inTx_healthy _ _ _ Hbegin Hcommit).
  unfold Service.performAuthorization, AccountRepository.FindByAccountNumberForUpdate.
  split.
  { intros Hmissing. rewrite (Acc_FindByAccountNumber_Err _ _ Hmissing). cbn. auto. }
  intros account Hfind. rewrite Hfind.
  pose proof (Acc_FindByAccountNumber_Ok _ _ _ Hfind) as [Hin _].
  split.
  { intros Hne. apply String.eqb_neq in Hne. rewrite Hne. cbn. auto. }
  intros Hcvv. rewrite (proj2 (String.eqb_eq _ _) Hcvv). cbn [negb].
  split.
  { intros Hexp. apply ValidateExpiry_expired in Hexp.
    destruct (Validators.ValidateExpiry _ _ _ _); [|contradiction]. cbn. auto. }
  intros ->.
  destruct (Z.ltb_spec (AvailableBalanceCents account) amount) as [Hlt | Hge].
  { cbn. repeat split; auto; intros; lia. }
  split; [|split; [intros; lia|]].
  { split; [|intros; lia]. intros Hcode. exfalso. revert Hcode.
    destruct (TransactionRepository.Create db _) as [db1|e1]; [|cbn; discriminate].
    destruct (AccountRepository.AdjustBalances _ db1 _ _ _) as [db2|e2]; cbn; discriminate. }
  intros _ Hfresh Htyped Hkey.
  destruct (accounts_typed_In _ _ Htyped Hin) as [Hb Ha].
  assert (Hneg : Int64.neg amount = - amount).
  { apply neg_exact. unfold Int64.in_range, Int64.min_signed in *. lia. }
  rewrite Create_succeeds; cbn [ID AccountID]; eauto.
  2:{ cbn. discriminate. }
  rewrite AdjustBalances_succeeds; cbn [accounts]; eauto.
  2:{ intros a Ha' Hid. rewrite Hneg.
      assert (a = account) as -> by (now apply (primary_key_unique (accounts db))).
      unfold Int64.in_range, Int64.min_signed, Int64.max_signed in *. lia. }
  rewrite Hneg.
  do 2 eexists. split; [reflexivity|]. cbn [Type_ Status AmountCents AccountID ExpiresAt
    transactions accounts].
  repeat (split; [reflexivity|]).
  split.
  { intros Atoi environ Hunset ->. f_equal. f_equal.
    unfold Service.NewAuthorizationService, Config.AuthExpiryHours, Config.getEnvAsInt,
      Config.Getenv. rewrite Hunset. reflexivity. }
  repeat (split; [reflexivity|]).
  unfold account_of. cbn [accounts]. rewrite find_adjust_rows.
  fold (account_of db (AccID account)). rewrite (account_of_In _ _ Hkey Hin).
  cbn [option_map]. rewrite N.eqb_refl. eexists. split; [reflexivity|]. cbn. lia.
Qed.

Lemma sample_primary_key : List.NoDup (map AccID (accounts Sample.db0)).
Proof.
  cbn. repeat (apply List.NoDup_cons; [cbn; intuition discriminate|]). apply List.NoDup_nil.
Defined.

Lemma authorize_checks_and_effect_witness :
  (exists authTx db',
      Service.Authorize Sample.svc (Sample.env 1000 100%N) Sample.db0
        "4111111111111111" "123" 10000 = (Ok authTx, db')
      /\ Type_ authTx = AUTH_HOLD
      /\ Status authTx = ACTIVE
      /\ ExpiresAt authTx = Some (1000 + 168 * 3600 * 1000000000)
      /\ account_of db' 1%N
         = Some (AccountRepository.adjust 1000 0 (- 10000) Sample.A))
  /\ code_of (fst (Service.Authorize Sample.svc (Sample.env 1000 100%N) Sample.db0
                     "5555555555554444" "789" 100)) = Some "insufficient_funds"
  /\ code_of (fst (Service.Authorize Sample.svc (Sample.env 1000 100%N) Sample.db0
                     "5105105105105100" "321" 10000)) = Some "card_expired".
Proof.
  split; [|split].
  - destruct (authorize_checks_and_effect Sample.svc (Sample.env 1000 100%N) Sample.db0
                "4111111111111111" "123" 10000 eq_refl eq_refl) as [_ Hluhn].
    destruct (Hluhn eq_refl) as [_ Hcvv].
    destruct (Hcvv eq_refl) as [_ Hamount].
    destruct (Hamount ltac:(lia)) as [_ Hfound].
    destruct (Hfound Sample.A eq_refl) as [_ Hmatch].
    destruct (Hmatch eq_refl) as [_ Hvalid].
    destruct (Hvalid eq_refl) as (_ & _ & Hok).
    destruct (Hok ltac:(cbn; lia) ltac:(intros r []) sample_accounts_typed sample_primary_key)
      as (authTx & db' & Hout & Htype & Hstatus & _ & _ & Hexp & _ & _ & Haccs & _).
    clear Hluhn Hcvv Hamount Hfound Hmatch Hvalid Hok.
    exists authTx, db'.
    split; [exact Hout|]. split; [exact Htype|]. split; [exact Hstatus|].
    split.
    + rewrite Hexp. vm_compute. reflexivity.
    + unfold account_of. rewrite Haccs. vm_compute. reflexivity.
  - destruct (authorize_checks_and_effect Sample.svc (Sample.env 1000 100%N) Sample.db0
                "5555555555554444" "789" 100 eq_refl eq_refl) as [_ Hluhn].
    destruct (Hluhn eq_refl) as [_ Hcvv].
    destruct (Hcvv eq_refl) as [_ Hamount].
    destruct (Hamount ltac:(lia)) as [_ Hfound].
    destruct (Hfound Sample.Z_ eq_refl) as [_ Hmatch].
    destruct (Hmatch eq_refl) as [_ Hvalid].
    destruct (Hvalid eq_refl) as (Hiff & _).
    apply Hiff. cbn. lia.
  - destruct (authorize_checks_and_effect Sample.svc (Sample.env 1000 100%N) Sample.db0
                "5105105105105100" "321" 10000 eq_refl eq_refl) as [_ Hluhn].
    destruct (Hluhn eq_refl) as [_ Hcvv].
    destruct (Hcvv eq_refl) as [_ Hamount].
    destruct (Hamount ltac:(lia)) as [_ Hfound].
    destruct (Hfound Sample.E eq_refl) as [_ Hmatch].
    destruct (Hmatch eq_refl) as [Hexpired _].
    apply Hexpired. left. cbn. lia.
Defined.

(** ** Idempotency middleware *)

Lemma normalizeRequestPath_idempotentPaths (p : string) :
  In p Middleware.idempotentPaths -> Middleware.normalizeRequestPath p = p.
Proof.
  unfold Middleware.idempotentPaths.
  intros [<- | [<- | [<- | [<- | []]]]]; reflexivity.
Qed.

Lemma requiresIdempotency_spec (r : Middleware.Request) :
  Middleware.requiresIdempotency r = true <->
  Middleware.Method r = "POST" /\ In (Middleware.URL_Path r) Middleware.idempotentPaths.
Proof.
  unfold Middleware.requiresIdempotency.
  destruct (String.eqb_spec (Middleware.Method r) "POST") as [Hm | Hm]; cbn [negb].
  - rewrite existsb_exists. split.
    + intros (p & Hin & Heq). apply String.eqb_eq in Heq. subst p. auto.
    + intros [_ Hin]. exists (Middleware.URL_Path r). split; [exact Hin|].
      apply String.eqb_refl.
  - split; [discriminate|]. intros [Hp _]. contradiction.
Qed.

(** The status a handler leaves in the capture when it writes its header
    once, before the body, as the generated handlers do. *)
Lemma captured_single_header (headers : list (string * string)) (code : Z) (chunks : list string) :
  Middleware.statusCode
    (Middleware.captured
       (map (fun kv => Middleware.HeaderSet (fst kv) (snd kv)) headers
        ++ Middleware.WriteHeader code :: map Middleware.Write chunks))
  = code.
Proof.
  unfold Middleware.captured. rewrite fold_left_app. cbn [fold_left].
  set (rc := Middleware.capture_call _ _).
  assert (Hrc : Middleware.statusCode rc = code).
  { subst rc. reflexivity. }
  clearbody rc. revert rc Hrc.
  induction chunks as [|c chunks IH]; intros rc Hrc; cbn [map fold_left]; [exact Hrc|].
  apply IH. exact Hrc.
Qed.

Lemma string_app_assoc (a b c : string) : (a +:+ b) +:+ c = a +:+ (b +:+ c).
Proof.
  induction a as [|x a IH]; [reflexivity|].
  change (String x ((a +:+ b) +:+ c) = String x (a +:+ (b +:+ c))). now rewrite IH.
Qed.

Lemma string_app_empty_r (a : string) : a +:+ "" = a.
Proof.
  induction a as [|x a IH]; [reflexivity|].
  change (String x (a +:+ "") = String x a). now rewrite IH.
Qed.

(** What the capture holds after a handler has run: every byte the
    handler wrote, in order, and the status of its last [WriteHeader]. *)
Lemma fold_capture_call (calls : list Middleware.WriterCall) (rc : Middleware.responseCapture) :
  Middleware.body (fold_left Middleware.capture_call calls rc)
  = Middleware.body rc +:+ Middleware.written_body calls
  /\ Middleware.statusCode (fold_left Middleware.capture_call calls rc)
     = match Middleware.last_code calls with
       | Some code => code
       | None => Middleware.statusCode rc
       end.
Proof.
  revert rc. induction calls as [|c calls IH]; intros rc.
  - cbn. now rewrite string_app_empty_r.
  - cbn [fold_left Middleware.written_body Middleware.last_code].
    destruct (IH (Middleware.capture_call rc c)) as [Hb Hs]. rewrite Hb, Hs.
    destruct c as [k v | code | b]; cbn [Middleware.capture_call Middleware.body
                                           Middleware.statusCode].
    + split; [reflexivity|]. now destruct (Middleware.last_code calls).
    + split; [reflexivity|]. now destruct (Middleware.last_code calls).
    + split; [apply string_app_assoc|]. now destruct (Middleware.last_code calls).
Qed.

Lemma captured_spec (calls : list Middleware.WriterCall) :
  Middleware.body (Middleware.captured calls) = Middleware.written_body calls
  /\ Middleware.statusCode (Middleware.captured calls) = Middleware.written_status calls.
Proof.
  unfold Middleware.captured, Middleware.written_status.
  destruct (fold_capture_call calls Middleware.newResponseCapture) as [Hb Hs].
  rewrite Hb, Hs. split; reflexivity.
Qed.

(** C7. The idempotency middleware, for a POST to one of the four mutating
    paths that carries an [Idempotency-Key].  When the repository has a
    record for (key, normalized path), the response is the stored status
    and body with [Content-Type: application/json] and
    [X-Idempotent-Replayed: true], whatever the handler is: the handler is
    not invoked, and neither the store nor the state behind the handler
    changes.  When it has none, the handler is invoked and its response
    goes to the client as it is; the record (key, path, status, body) is
    handed to [Store] if the captured status is in [200, 300) and nothing
    is stored otherwise; and the response is the same whether [Store]
    succeeds or fails.  The captured body is every byte the handler
    wrote, in order, and the captured status the code of its last
    [WriteHeader], 200 if it made none: the record stored is (key, path,
    that status, that body). *)
Theorem idempotency_replays_and_caches
    {S W : Type}
    (repo_Get : S -> string -> string -> result (option IdempotencyKey))
    (repo_Store : S -> IdempotencyKey -> option error * S)
    (next : Middleware.Request -> W -> list Middleware.WriterCall * W)
    (clock : Time) (r : Middleware.Request) (st : S) (w : W) :
  Middleware.Method r = "POST" ->
  In (Middleware.URL_Path r) Middleware.idempotentPaths ->
  Middleware.Header_Get (Middleware.Header r) "Idempotency-Key" <> "" ->
  let key := Middleware.Header_Get (Middleware.Header r) "Idempotency-Key" in
  let path := Middleware.URL_Path r in
  (forall cached,
      repo_Get st key path = Ok (Some cached) ->
      forall (next' : Middleware.Request -> W -> list Middleware.WriterCall * W),
        Middleware.Idempotency repo_Get repo_Store next' clock r st w
        = {| Middleware.written :=
               [ Middleware.HeaderSet "Content-Type" "application/json";
                 Middleware.HeaderSet "X-Idempotent-Replayed" "true";
                 Middleware.WriteHeader (ResponseStatus cached);
                 Middleware.Write (ResponseBody cached) ];
             Middleware.store := st;
             Middleware.world := w;
             Middleware.errors_logged := [] |})
  /\ (repo_Get st key path = Ok None ->
      let served := Middleware.Idempotency repo_Get repo_Store next clock r st w in
      let capture := Middleware.captured (fst (next r w)) in
      Middleware.written served = fst (next r w)
      /\ Middleware.world served = snd (next r w)
      /\ (200 <= Middleware.statusCode capture < 300 ->
          Middleware.store served
          = snd (repo_Store st {| Key := key;
                                  RequestPath := path;
                                  ResponseBody := Middleware.body capture;
                                  ResponseStatus := Middleware.statusCode capture;
                                  IdemCreatedAt := clock |}))
      /\ (~ 200 <= Middleware.statusCode capture < 300 -> Middleware.store served = st)
      /\ (forall repo_Store' : S -> IdempotencyKey -> option error * S,
            Middleware.written
              (Middleware.Idempotency repo_Get repo_Store' next clock r st w)
            = Middleware.written served)
      /\ Middleware.body capture = Middleware.written_body (fst (next r w))
      /\ Middleware.statusCode capture = Middleware.written_status (fst (next r w))
      /\ (200 <= Middleware.written_status (fst (next r w)) < 300 ->
          Middleware.store served
          = snd (repo_Store st
                   {| Key := key;
                      RequestPath := path;
                      ResponseBody := Middleware.written_body (fst (next r w));
                      ResponseStatus := Middleware.written_status (fst (next r w));
                      IdemCreatedAt := clock |}))
      /\ (~ 200 <= Middleware.written_status (fst (next r w)) < 300 ->
          Middleware.store served = st)).
Proof.
  intros Hpost Hpath Hkey key path.
  assert (Hreq : Middleware.requiresIdempotency r = true)
    by (apply requiresIdempotency_spec; auto).
  assert (Hnorm : Middleware.normalizeRequestPath (Middleware.URL_Path r) = path)
    by (apply normalizeRequestPath_idempotentPaths; exact Hpath).
  apply String.eqb_neq in Hkey.
  split.
  - intros cached Hget next'. unfold Middleware.Idempotency.
    rewrite Hreq. cbn [negb]. unfold Middleware.idempotencyKeyHeader.
    rewrite Hkey, Hnorm. fold key. rewrite Hget. reflexivity.
  - intros Hget served capture.
    assert (Hserved : forall store_,
      Middleware.Idempotency repo_Get store_ next clock r st w
      = (if Middleware.shouldCacheResponse (Middleware.statusCode capture)
         then match store_ st {| Key := key; RequestPath := path;
                                 ResponseBody := Middleware.body capture;
                                 ResponseStatus := Middleware.statusCode capture;
                                 IdemCreatedAt := clock |} with
              | (Some _, st') =>
                  {| Middleware.written := fst (next r w); Middleware.store := st';
                     Middleware.world := snd (next r w);
                     Middleware.errors_logged := ["failed to store idempotency key"] |}
              | (None, st') =>
                  {| Middleware.written := fst (next r w); Middleware.store := st';
                     Middleware.world := snd (next r w); Middleware.errors_logged := [] |}
              end
         else {| Middleware.written := fst (next r w); Middleware.store := st;
                 Middleware.world := snd (next r w); Middleware.errors_logged := [] |})).
    { intros store_. unfold Middleware.Idempotency.
      rewrite Hreq. cbn [negb]. unfold Middleware.idempotencyKeyHeader.
      rewrite Hkey, Hnorm. fold key. rewrite Hget. subst capture.
      destruct (next r w) as [calls w']. reflexivity. }
    assert (Hrange : Middleware.shouldCacheResponse (Middleware.statusCode capture) = true
                     <-> 200 <= Middleware.statusCode capture < 300).
    { unfold Middleware.shouldCacheResponse.
      rewrite andb_true_iff, Z.leb_le, Z.ltb_lt. tauto. }
    assert (Hwritten : forall store_,
      Middleware.written (Middleware.Idempotency repo_Get store_ next clock r st w)
      = fst (next r w)).
    { intros store_. rewrite Hserved.
      destruct (Middleware.shouldCacheResponse _); [|reflexivity].
      destruct (store_ st _) as [[e|] st']; reflexivity. }
    subst served. split; [apply Hwritten|].
    split.
    { rewrite Hserved. destruct (Middleware.shouldCacheResponse _); [|reflexivity].
      destruct (repo_Store st _) as [[e|] st']; reflexivity. }
    assert (Hskip : ~ 200 <= Middleware.statusCode capture < 300 ->
                    Middleware.store
                      (Middleware.Idempotency repo_Get repo_Store next clock r st w) = st).
    { intros Hout. rewrite Hserved.
      destruct (Middleware.shouldCacheResponse _) eqn:Hc; [|reflexivity].
      exfalso. apply Hout, Hrange. reflexivity. }
    assert (Hstore : 200 <= Middleware.statusCode capture < 300 ->
                     Middleware.store
                       (Middleware.Idempotency repo_Get repo_Store next clock r st w)
                     = snd (repo_Store st {| Key := key; RequestPath := path;
                                             ResponseBody := Middleware.body capture;
                                             ResponseStatus := Middleware.statusCode capture;
                                             IdemCreatedAt := clock |})).
    { intros Hin. apply Hrange in Hin. rewrite Hserved, Hin.
      destruct (repo_Store st _) as [[e|] st']; reflexivity. }
    destruct (captured_spec (fst (next r w))) as [Hbody Hstatus].
    fold capture in Hbody, Hstatus.
    split; [exact Hstore|].
    split; [exact Hskip|].
    split; [intros store_; now rewrite !Hwritten|].
    split; [exact Hbody|].
    split; [exact Hstatus|].
    rewrite <- Hbody, <- Hstatus. split; [exact Hstore | exact Hskip].
Qed.

Lemma idempotency_replays_and_caches_witness :
  Middleware.Idempotency Middleware.Mem_Get Middleware.Mem_Store
    (Sample.handler 200 "second") 9 Sample.request
    {[ ("K", "/api/v1/authorizations") := Sample.stored ]} 0%nat
  = {| Middleware.written :=
         [ Middleware.HeaderSet "Content-Type" "application/json";
           Middleware.HeaderSet "X-Idempotent-Replayed" "true";
           Middleware.WriteHeader 200;
           Middleware.Write "first" ];
       Middleware.store := {[ ("K", "/api/v1/authorizations") := Sample.stored ]};
       Middleware.world := 0%nat;
       Middleware.errors_logged := [] |}
  /\ Middleware.written
       (Middleware.Idempotency Middleware.Mem_Get Middleware.Failing_Store
          (Sample.handler 200 "second") 9 Sample.request ∅ 0%nat)
     = fst (Sample.handler 200 "second" Sample.request 0%nat)
  /\ Middleware.store
       (Middleware.Idempotency Middleware.Mem_Get Middleware.Mem_Store
          (Sample.handler 402 "no funds") 9 Sample.request ∅ 0%nat)
     = ∅
  /\ Middleware.store
       (Middleware.Idempotency Middleware.Mem_Get Middleware.Mem_Store
          (Sample.handler 201 "second") 9 Sample.request ∅ 0%nat)
     = {[ ("K", "/api/v1/authorizations") :=
            {| Key := "K"; RequestPath := "/api/v1/authorizations";
               ResponseBody := "second"; ResponseStatus := 201; IdemCreatedAt := 9 |} ]}.
Proof.
  split; [|split; [|split]].
  - destruct (idempotency_replays_and_caches Middleware.Mem_Get Middleware.Mem_Store
                (Sample.handler 200 "second") 9 Sample.request
                {[ ("K", "/api/v1/authorizations") := Sample.stored ]} 0%nat
                eq_refl ltac:(left; reflexivity) ltac:(vm_compute; discriminate))
      as [Hhit _].
    apply (Hhit Sample.stored). vm_compute. reflexivity.
  - destruct (idempotency_replays_and_caches Middleware.Mem_Get Middleware.Failing_Store
                (Sample.handler 200 "second") 9 Sample.request ∅ 0%nat
                eq_refl ltac:(left; reflexivity) ltac:(vm_compute; discriminate))
      as [_ Hmiss].
    destruct (Hmiss ltac:(vm_compute; reflexivity)) as (Hwritten & _). exact Hwritten.
  - destruct (idempotency_replays_and_caches Middleware.Mem_Get Middleware.Mem_Store
                (Sample.handler 402 "no funds") 9 Sample.request ∅ 0%nat
                eq_refl ltac:(left; reflexivity) ltac:(vm_compute; discriminate))
      as [_ Hmiss].
    destruct (Hmiss ltac:(vm_compute; reflexivity)) as (_ & _ & _ & Hskip & _).
    apply Hskip. cbn. lia.
  - destruct (idempotency_replays_and_caches Middleware.Mem_Get Middleware.Mem_Store
                (Sample.handler 201 "second") 9 Sample.request ∅ 0%nat
                eq_refl ltac:(left; reflexivity) ltac:(vm_compute; discriminate))
      as [_ Hmiss].
    destruct (Hmiss ltac:(vm_compute; reflexivity))
      as (_ & _ & _ & _ & _ & _ & _ & Hstore & _).
    rewrite Hstore by (cbn; lia).
    assert (Hkey : Middleware.Header_Get (Middleware.Header Sample.request) "Idempotency-Key"
                   = "K").
    { unfold Middleware.Header_Get, Sample.request. cbn [Middleware.Header].
      now rewrite lookup_singleton_eq. }
    rewrite Hkey.
    cbn [Sample.handler fst Middleware.written_body Middleware.written_status
           Middleware.last_code Sample.request Middleware.URL_Path].
    unfold Middleware.Mem_Store. cbn [Key RequestPath].
    unfold Middleware.MemStore in *. rewrite lookup_empty. cbn [snd].
    apply insert_empty.
Defined.

(** ** HTTP status mapping *)

(** A service error goes out as 402 when its code is [insufficient_funds]
    and as 400 otherwise, under the code that [mapServiceErrorToCode]
    gives; an error that carries no service error goes out as 500
    [internal_error]. *)
Lemma handleAuthorizationError_status {A : Type} (err : error) :
  match Handlers.extractServiceError err with
  | None =>
      @Handlers.handleAuthorizationError A err
      = Handlers.JSON500 Handlers.ErrorCodeInternalError "internal error"
  | Some (Code, Message) =>
      Handlers.StatusCode (@Handlers.handleAuthorizationError A err)
      = (if String.eqb Code "insufficient_funds" then 402 else 400)
      /\ Handlers.ErrorOf (@Handlers.handleAuthorizationError A err)
         = Some (Handlers.mapServiceErrorToCode Code)
  end.
Proof.
  unfold Handlers.handleAuthorizationError, Handlers.isPaymentRequiredError.
  destruct (Handlers.extractServiceError err) as [[Code Message]|]; [|reflexivity].
  change Service.ErrCodeInsufficientFunds with "insufficient_funds".
  destruct (String.eqb Code "insufficient_funds"); split; reflexivity.
Qed.

(** C8, at the input where the code departs from it: the database refuses
    to start a transaction.  [Authorize] wraps the failure in a
    [ServiceError] with code [internal_error], and the handler answers a
    service error that is not [insufficient_funds] with 400: the response
    is HTTP 400 with code [internal_error], not 500, and it carries the
    text of the driver's error. *)
Theorem database_failure_answered_with_400 :
  let env := {| now := 1000; currentYear := 2026; currentMonth := 10; newUUID := 100%N;
                beginErr := Some (ErrDriver "dial tcp: connection refused");
                commitErr := None |} in
  let response :=
    Handlers.CreateAuthorization (fun id => "") Sample.svc env Sample.db0
      "4111111111111111" "123" 10000 in
  response
  = (Some (Handlers.JSON400 Handlers.ErrorCodeInternalError
             "failed to start transaction: dial tcp: connection refused"),
     Sample.db0)
  /\ option_map Handlers.StatusCode (fst response) = Some 400
  /\ Handlers.StatusCode
       (@Handlers.handleCaptureError Handlers.ChildBody
          (ServiceError "internal_error" "failed to adjust balance: account not found" None))
     = 400
  /\ Handlers.StatusCode
       (@Handlers.handleCaptureError Handlers.ChildBody
          (Errorf "failed to create capture" (Some (ErrDriver "connection reset"))))
     = 500.
Proof. vm_compute. repeat split; reflexivity. Qed.

(** * Further properties of the code *)

(** ** Validators *)

(** [ValidateCVV] accepts exactly the strings of three or four bytes that
    are all ASCII digits; a wrong length is reported before a wrong
    character. *)
Theorem ValidateCVV_spec (cvv : string) :
  (Validators.ValidateCVV cvv = None <->
   (String.length cvv = 3%nat \/ String.length cvv = 4%nat)
   /\ forall c, In c (list_ascii_of_string cvv) -> Validators.is_digit c = true)
  /\ ((String.length cvv < 3)%nat \/ (4 < String.length cvv)%nat ->
      Validators.ValidateCVV cvv = Some (Errorf "invalid CVV: must be 3 or 4 digits" None)).
Proof.
  unfold Validators.ValidateCVV.
  assert (Hlen : ((Z.of_nat (String.length cvv) <? 3) || (Z.of_nat (String.length cvv) >? 4))
                 = true
                 <-> ((String.length cvv < 3)%nat \/ (4 < String.length cvv)%nat)).
  { rewrite orb_true_iff, Z.ltb_lt, Z.gtb_ltb, Z.ltb_lt. lia. }
  destruct ((Z.of_nat (String.length cvv) <? 3) || (Z.of_nat (String.length cvv) >? 4)) eqn:Hl.
  - assert ((String.length cvv < 3)%nat \/ (4 < String.length cvv)%nat)
      by (apply Hlen; reflexivity).
    split; [|reflexivity]. split; [discriminate|]. intros [? _]. lia.
  - assert (~ ((String.length cvv < 3)%nat \/ (4 < String.length cvv)%nat))
      by (rewrite <- Hlen; congruence).
    split; [|intros; contradiction].
    destruct (forallb Validators.is_digit (list_ascii_of_string cvv)) eqn:Hd.
    + rewrite forallb_forall in Hd. split; [|reflexivity]. intros _. split; [lia|exact Hd].
    + split; [discriminate|]. intros [_ Hall].
      apply forallb_forall in Hall. congruence.
Qed.

(** [ValidateExpiry] accepts a card exactly when its month is a month and
    its expiry is not before the current month: a card is still valid in
    the month it expires and is rejected from the following month on. *)
Theorem ValidateExpiry_spec (currentYear currentMonth expiryMonth expiryYear : Z) :
  (Validators.ValidateExpiry currentYear currentMonth expiryMonth expiryYear = None <->
   1 <= expiryMonth <= 12
   /\ (currentYear < expiryYear
       \/ (expiryYear = currentYear /\ currentMonth <= expiryMonth)))
  /\ (1 <= expiryMonth <= 12 ->
      Validators.ValidateExpiry expiryYear expiryMonth expiryMonth expiryYear = None)
  /\ (1 <= expiryMonth <= 12 ->
      Validators.ValidateExpiry expiryYear (expiryMonth + 1) expiryMonth expiryYear <> None).
Proof.
  split; [|split].
  - split.
    + unfold Validators.ValidateExpiry.
      destruct ((expiryMonth <? 1) || (expiryMonth >? 12)) eqn:Hm; [discriminate|].
      apply orb_false_iff in Hm as [H1 H2]. rewrite Z.gtb_ltb in H2.
      apply Z.ltb_ge in H1, H2.
      destruct (Z.ltb_spec expiryYear currentYear); [discriminate|].
      destruct (Z.eqb_spec expiryYear currentYear); cbn [andb].
      * destruct (Z.ltb_spec expiryMonth currentMonth); [discriminate|]. intros _. lia.
      * intros _. lia.
    + intros [Hm Hok]. now apply ValidateExpiry_valid.
  - intros Hm. apply ValidateExpiry_valid; [exact Hm|]. right. lia.
  - intros Hm. apply ValidateExpiry_expired. right. lia.
Qed.

Lemma ValidateExpiry_spec_witness :
  Validators.ValidateExpiry 2026 10 10 2026 = None
  /\ Validators.ValidateExpiry 2026 11 10 2026 <> None.
Proof.
  destruct (ValidateExpiry_spec 2026 10 10 2026) as (_ & Hsame & Hnext).
  split; [apply Hsame; lia|apply (Hnext ltac:(lia))].
Defined.

(** ** Void and refund *)

Lemma FindByReferenceID_found (db : DB) (ref : uuid) (ty : TransactionType) :
  (exists r, In r (transactions db) /\ ReferenceID r = Some ref /\ Type_ r = ty) ->
  exists c, TransactionRepository.FindByReferenceID db ref ty = Ok (Some c).
Proof.
  intros (r & Hin & Href & Hty). unfold TransactionRepository.FindByReferenceID.
  destruct (find _ _) as [c|] eqn:Hf; [eauto|].
  apply (find_none _ _ Hf) in Hin.
  rewrite Href, Hty in Hin. cbn in Hin. rewrite N.eqb_refl in Hin. cbn in Hin.
  now rewrite (proj2 (TransactionType_eqb_eq ty ty) eq_refl) in Hin.
Qed.

Lemma FindByReferenceID_absent (db : DB) (ref : uuid) (ty : TransactionType) :
  (~ exists r, In r (transactions db) /\ ReferenceID r = Some ref /\ Type_ r = ty) ->
  TransactionRepository.FindByReferenceID db ref ty = Ok None.
Proof.
  intros Hnone. unfold TransactionRepository.FindByReferenceID.
  destruct (find _ _) as [c|] eqn:Hf; [|reflexivity].
  exfalso. apply Hnone. apply find_some in Hf as [Hin Hc].
  apply andb_true_iff in Hc as [Href Hty].
  apply option_uuid_eqb_eq in Href. apply TransactionType_eqb_eq in Hty. eauto.
Qed.

(** The checks of Void, in their order, with a database that accepts the
    transaction: [authorization_not_found] when no row has the id or the
    row is not an AUTH_HOLD; else [authorization_already_used] when the
    hold is not ACTIVE; else [already_captured] when the ledger holds a
    CAPTURE of it; else [already_voided] when it holds a VOID of it; and
    otherwise the void succeeds with a COMPLETED VOID row for the hold's
    own amount.  The expiry of the hold is never looked at: an ACTIVE hold
    can be voided after [expires_at].  Every failure leaves the database as
    it was. *)
Theorem void_checks_in_order (env : Env) (db : DB) (authorizationID : uuid) :
  beginErr env = None ->
  commitErr env = None ->
  let outcome := Service.Void env db authorizationID in
  ((forall t, In t (transactions db) -> ID t <> authorizationID) ->
   code_of (fst outcome) = Some "authorization_not_found" /\ snd outcome = db)
  /\ (forall authTxn,
        TransactionRepository.FindByID db authorizationID = Ok authTxn ->
        (Type_ authTxn <> AUTH_HOLD ->
         code_of (fst outcome) = Some "authorization_not_found" /\ snd outcome = db)
        /\ (Type_ authTxn = AUTH_HOLD ->
            (Status authTxn <> ACTIVE ->
             code_of (fst outcome) = Some "authorization_already_used" /\ snd outcome = db)
            /\ (Status authTxn = ACTIVE ->
                ((exists r, In r (transactions db)
                            /\ ReferenceID r = Some authorizationID /\ Type_ r = CAPTURE) ->
                 code_of (fst outcome) = Some "already_captured" /\ snd outcome = db)
                /\ ((~ exists r, In r (transactions db)
                                 /\ ReferenceID r = Some authorizationID
                                 /\ Type_ r = CAPTURE) ->
                    (forall r, In r (transactions db) -> ID r <> newUUID env) ->
                    ((exists r, In r (transactions db)
                                /\ ReferenceID r = Some authorizationID /\ Type_ r = VOID) ->
                     code_of (fst outcome) = Some "already_voided" /\ snd outcome = db)
                    /\ ((~ exists r, In r (transactions db)
                                     /\ ReferenceID r = Some authorizationID
                                     /\ Type_ r = VOID) ->
                        (exists a, In a (accounts db) /\ AccID a = AccountID authTxn) ->
                        (forall a, In a (accounts db) -> AccID a = AccountID authTxn ->
                           Int64.in_range (BalanceCents a + 0)
                           /\ Int64.in_range (AvailableBalanceCents a + AmountCents authTxn)) ->
                        exists voidTxn db',
                          outcome = (Ok voidTxn, db')
                          /\ Type_ voidTxn = VOID
                          /\ Status voidTxn = COMPLETED
                          /\ ReferenceID voidTxn = Some authorizationID
                          /\ AmountCents voidTxn = AmountCents authTxn
                          /\ AccountID voidTxn = AccountID authTxn
                          /\ accounts db'
                             = AccountRepository.adjust_rows (now env) (AccountID authTxn)
                                 0 (AmountCents authTxn) (accounts db)))))).
Proof.
  intros Hbegin Hcommit outcome. subst outcome.
  unfold Service.Void. rewrite (inTx_healthy _ _ _ Hbegin Hcommit).
  unfold Service.performVoid, TransactionRepository.FindByIDForUpdate.
  split.
  { intros Hmissing. rewrite (Tx_FindByID_Err _ _ Hmissing). cbn. auto. }
  intros authTxn Hfind. rewrite Hfind.
  pose proof (Tx_FindByID_Ok _ _ _ Hfind) as [Hin Hid].
  split.
  { intros Htype. apply TransactionType_eqb_neq in Htype. rewrite Htype. cbn. auto. }
  intros Htype. rewrite (proj2 (TransactionType_eqb_eq _ _) Htype). cbn [negb].
  split.
  { intros Hstatus. apply TransactionStatus_eqb_neq in Hstatus. rewrite Hstatus. cbn. auto. }
  intros Hstatus. rewrite (proj2 (TransactionStatus_eqb_eq _ _) Hstatus). cbn [negb].
  split.
  { intros Hcap. apply FindByReferenceID_found in Hcap as [c ->]. cbn. auto. }
  intros Hnocap Hfresh. rewrite (FindByReferenceID_absent _ _ _ Hnocap).
  split.
  { intros Hdup. rewrite Create_duplicate; cbn; auto. }
  intros Hnodup Hacc Hfit.
  rewrite Create_succeeds; cbn; auto.
  rewrite UpdateStatus_succeeds by (exists authTxn; cbn; auto).
  rewrite AdjustBalances_succeeds; cbn; auto.
  do 2 eexists. split; [reflexivity|]. cbn. repeat split; reflexivity.
Qed.

(** The checks of Refund, in their order, with a database that accepts the
    transaction: [capture_not_found] when no row has the id, when the row
    is not a CAPTURE, or when the capture is not COMPLETED; else
    [amount_mismatch] when the amount differs from the capture's (a partial
    refund is refused); else [already_refunded] when the ledger holds a
    REFUND of it; and otherwise the refund succeeds with a COMPLETED REFUND
    row, and the account is moved by [(+amount, +amount)]. *)
Theorem refund_checks_in_order (env : Env) (db : DB) (captureID : uuid) (amount : Z) :
  beginErr env = None ->
  commitErr env = None ->
  let outcome := Service.Refund env db captureID amount in
  ((forall t, In t (transactions db) -> ID t <> captureID) ->
   code_of (fst outcome) = Some "capture_not_found" /\ snd outcome = db)
  /\ (forall captureTxn,
        TransactionRepository.FindByID db captureID = Ok captureTxn ->
        (Type_ captureTxn <> CAPTURE \/ Status captureTxn <> COMPLETED ->
         code_of (fst outcome) = Some "capture_not_found" /\ snd outcome = db)
        /\ (Type_ captureTxn = CAPTURE ->
            Status captureTxn = COMPLETED ->
            (amount <> AmountCents captureTxn ->
             code_of (fst outcome) = Some "amount_mismatch" /\ snd outcome = db)
            /\ (amount = AmountCents captureTxn ->
                (forall r, In r (transactions db) -> ID r <> newUUID env) ->
                ((exists r, In r (transactions db)
                            /\ ReferenceID r = Some captureID /\ Type_ r = REFUND) ->
                 code_of (fst outcome) = Some "already_refunded" /\ snd outcome = db)
                /\ ((~ exists r, In r (transactions db)
                                 /\ ReferenceID r = Some captureID /\ Type_ r = REFUND) ->
                    (exists a, In a (accounts db) /\ AccID a = AccountID captureTxn) ->
                    (forall a, In a (accounts db) -> AccID a = AccountID captureTxn ->
                       Int64.in_range (BalanceCents a + amount)
                       /\ Int64.in_range (AvailableBalanceCents a + amount)) ->
                    exists refundTxn db',
                      outcome = (Ok refundTxn, db')
                      /\ Type_ refundTxn = REFUND
                      /\ Status refundTxn = COMPLETED
                      /\ ReferenceID refundTxn = Some captureID
                      /\ AmountCents refundTxn = amount
                      /\ AccountID refundTxn = AccountID captureTxn
                      /\ transactions db' = refundTxn :: transactions db
                      /\ accounts db'
                         = AccountRepository.adjust_rows (now env) (AccountID captureTxn)
                             amount amount (accounts db))))).
Proof.
  intros Hbegin Hcommit outcome. subst outcome.
  unfold Service.Refund. rewrite (inTx_healthy _ _ _ Hbegin Hcommit).
  unfold Service.performRefund, TransactionRepository.FindByIDForUpdate.
  split.
  { intros Hmissing. rewrite (Tx_FindByID_Err _ _ Hmissing). cbn. auto. }
  intros captureTxn Hfind. rewrite Hfind.
  split.
  { intros [Htype | Hstatus].
    - apply TransactionType_eqb_neq in Htype. rewrite Htype. cbn. auto.
    - destruct (TransactionType_eqb (Type_ captureTxn) CAPTURE); cbn [negb]; [|cbn; auto].
      apply TransactionStatus_eqb_neq in Hstatus. rewrite Hstatus. cbn. auto. }
  intros Htype Hstatus.
  rewrite (proj2 (TransactionType_eqb_eq _ _) Htype),
    (proj2 (TransactionStatus_eqb_eq _ _) Hstatus). cbn [negb].
  split.
  { intros Hne. apply Z.eqb_neq in Hne. rewrite Hne. cbn. auto. }
  intros Heq Hfresh. rewrite (proj2 (Z.eqb_eq _ _) Heq). cbn [negb].
  split.
  { intros Hdup. rewrite Create_duplicate; cbn; auto. }
  intros Hnodup Hacc Hfit.
  rewrite Create_succeeds; cbn; auto.
  rewrite AdjustBalances_succeeds; cbn; auto.
  do 2 eexists. split; [reflexivity|]. cbn. repeat split; reflexivity.
Qed.

Lemma sample_db1_account :
  forall a, In a (accounts Sample.db1) -> AccID a = 1%N ->
    a = AccountRepository.adjust 1000 0 (- 10000) Sample.A.
Proof.
  intros a Hin Hid.
  destruct Hin as [<- | [<- | [<- | [<- | []]]]]; cbn in Hid; try discriminate. reflexivity.
Defined.

Lemma void_checks_in_order_witness :
  exists voidTxn db',
    Service.Void (Sample.env 2000 101%N) Sample.db1 100%N = (Ok voidTxn, db')
    /\ Type_ voidTxn = VOID
    /\ Status voidTxn = COMPLETED
    /\ ReferenceID voidTxn = Some 100%N
    /\ AmountCents voidTxn = AmountCents Sample.auth1
    /\ AccountID voidTxn = AccountID Sample.auth1
    /\ accounts db'
       = AccountRepository.adjust_rows 2000 (AccountID Sample.auth1)
           0 (AmountCents Sample.auth1) (accounts Sample.db1).
Proof.
  destruct (void_checks_in_order (Sample.env 2000 101%N) Sample.db1 100%N eq_refl eq_refl)
    as [_ Hfound].
  assert (Hfind : TransactionRepository.FindByID Sample.db1 100%N = Ok Sample.auth1)
    by (vm_compute; reflexivity).
  destruct (Hfound Sample.auth1 Hfind) as [_ Hhold].
  destruct (Hhold eq_refl) as [_ Hactive].
  destruct (Hactive eq_refl) as [_ Hfree].
  assert (Hrows : forall r, In r (transactions Sample.db1) -> r = Sample.auth1).
  { intros r [<- | []]. vm_compute. reflexivity. }
  assert (Hnocap : ~ exists r, In r (transactions Sample.db1)
                               /\ ReferenceID r = Some 100%N /\ Type_ r = CAPTURE).
  { intros (r & Hin & Href & _). rewrite (Hrows r Hin) in Href. discriminate. }
  assert (Hfresh : forall r, In r (transactions Sample.db1) -> ID r <> 101%N).
  { intros r Hin. rewrite (Hrows r Hin). discriminate. }
  destruct (Hfree Hnocap Hfresh) as [_ Hok].
  clear Hfound Hhold Hactive Hfree.
  apply Hok.
  - intros (r & Hin & Href & _). rewrite (Hrows r Hin) in Href. discriminate.
  - exists (AccountRepository.adjust 1000 0 (- 10000) Sample.A).
    split; [left; vm_compute|]; reflexivity.
  - intros a Hin Hid. rewrite (sample_db1_account a Hin Hid).
    unfold Int64.in_range. vm_compute. repeat split; discriminate.
Defined.

Lemma sample_db2_rows :
  transactions Sample.db2
  = [Sample.capture1; TransactionRepository.with_status COMPLETED Sample.auth1].
Proof. vm_compute. reflexivity. Defined.

Lemma sample_db2_accounts :
  accounts Sample.db2
  = [ AccountRepository.adjust 2000 (- 10000) 0
        (AccountRepository.adjust 1000 0 (- 10000) Sample.A);
      Sample.B; Sample.Z_; Sample.E ].
Proof. vm_compute. reflexivity. Defined.

Lemma refund_checks_in_order_witness :
  (exists refundTxn db',
      Service.Refund (Sample.env 3000 102%N) Sample.db2 101%N 10000 = (Ok refundTxn, db')
      /\ Type_ refundTxn = REFUND
      /\ Status refundTxn = COMPLETED
      /\ ReferenceID refundTxn = Some 101%N
      /\ AmountCents refundTxn = 10000
      /\ AccountID refundTxn = AccountID Sample.capture1
      /\ transactions db' = refundTxn :: transactions Sample.db2
      /\ accounts db'
         = AccountRepository.adjust_rows 3000 (AccountID Sample.capture1)
             10000 10000 (accounts Sample.db2))
  /\ code_of (fst (Service.Refund (Sample.env 3000 102%N) Sample.db2 101%N 4000))
     = Some "amount_mismatch".
Proof.
  assert (Hfind : TransactionRepository.FindByID Sample.db2 101%N = Ok Sample.capture1)
    by (vm_compute; reflexivity).
  split.
  - destruct (refund_checks_in_order (Sample.env 3000 102%N) Sample.db2 101%N 10000
                eq_refl eq_refl) as [_ Hfound].
    destruct (Hfound Sample.capture1 Hfind) as [_ Hcap].
    destruct (Hcap eq_refl eq_refl) as [_ Hamount].
    assert (Hrows : forall r, In r (transactions Sample.db2) ->
                      r = Sample.capture1
                      \/ r = TransactionRepository.with_status COMPLETED Sample.auth1).
    { rewrite sample_db2_rows. intros r [<- | [<- | []]]; auto. }
    assert (Hfresh : forall r, In r (transactions Sample.db2) -> ID r <> 102%N).
    { intros r Hin. destruct (Hrows r Hin) as [-> | ->]; discriminate. }
    destruct (Hamount eq_refl Hfresh) as [_ Hok].
    clear Hfound Hcap Hamount.
    apply Hok.
    + intros (r & Hin & Href & Hty). destruct (Hrows r Hin) as [Hr | Hr]; clear Hin;
        subst r; [discriminate Hty|discriminate Href].
    + rewrite sample_db2_accounts. eexists. split; [left; reflexivity|reflexivity].
    + rewrite sample_db2_accounts. intros a Hin Hid.
      destruct Hin as [<- | [<- | [<- | [<- | []]]]]; cbn in Hid; try discriminate Hid.
      clear Hok Hrows Hfresh Hfind.
      unfold Int64.in_range. vm_compute. repeat split; discriminate.
  - destruct (refund_checks_in_order (Sample.env 3000 102%N) Sample.db2 101%N 4000
                eq_refl eq_refl) as [_ Hfound].
    destruct (Hfound Sample.capture1 Hfind) as [_ Hcap].
    destruct (Hcap eq_refl eq_refl) as [Hmismatch _].
    apply Hmismatch. discriminate.
Defined.

(** ** Account store *)

Lemma matched_nil (id : uuid) (rows : list Account) :
  (forall a, In a rows -> AccID a <> id) -> AccountRepository.matched id rows = [].
Proof.
  unfold AccountRepository.matched.
  induction rows as [|a rows IH]; intros Hnone; cbn [List.filter]; [reflexivity|].
  destruct (N.eqb_spec (AccID a) id) as [Heq | _].
  - exfalso. apply (Hnone a); [now left|exact Heq].
  - apply IH. intros b Hb. apply Hnone. now right.
Qed.

(** [AdjustBalances]: with no row for the id it fails with "account not
    found" and nothing else; when it succeeds the ledger is untouched, the
    account with that id has both balances moved by exactly the deltas,
    the new values fit the BIGINT columns, and every other account is as
    it was. *)
Theorem AdjustBalances_spec (at_ : Time) (db : DB) (accountID : uuid)
    (balanceDelta availableBalanceDelta : Z) :
  ((forall a, In a (accounts db) -> AccID a <> accountID) ->
   AccountRepository.AdjustBalances at_ db accountID balanceDelta availableBalanceDelta
   = Err (Errorf "account not found" None))
  /\ (forall db',
        AccountRepository.AdjustBalances at_ db accountID balanceDelta availableBalanceDelta
        = Ok db' ->
        transactions db' = transactions db
        /\ (exists a, account_of db accountID = Some a)
        /\ forall id a,
             account_of db id = Some a ->
             if N.eqb id accountID then
               exists a', account_of db' id = Some a'
                          /\ BalanceCents a' = BalanceCents a + balanceDelta
                          /\ AvailableBalanceCents a'
                             = AvailableBalanceCents a + availableBalanceDelta
                          /\ Int64.in_range (BalanceCents a')
                          /\ Int64.in_range (AvailableBalanceCents a')
                          /\ AccountNumber a' = AccountNumber a /\ CVV a' = CVV a
             else account_of db' id = Some a).
Proof.
  split.
  - intros Hnone. unfold AccountRepository.AdjustBalances.
    rewrite (matched_nil _ _ Hnone). reflexivity.
  - intros db' Hok.
    assert (Hne : AccountRepository.matched accountID (accounts db) <> []).
    { unfold AccountRepository.AdjustBalances in Hok.
      destruct (negb _); [discriminate|].
      destruct (AccountRepository.matched accountID (accounts db)); [discriminate|].
      discriminate. }
    apply AdjustBalances_Ok in Hok as [-> Hfits]. cbn [transactions].
    split; [reflexivity|]. split.
    { unfold account_of. destruct (find _ _) as [a|] eqn:Hf; [eauto|]. exfalso. apply Hne.
      apply matched_nil. intros b Hb Heq. apply (find_none _ _ Hf) in Hb.
      apply N.eqb_neq in Hb. contradiction. }
    intros id a Hfind. unfold account_of in *. cbn [accounts].
    rewrite find_adjust_rows, Hfind. cbn [option_map].
    pose proof (find_some _ _ Hfind) as [Hin Hid]. apply N.eqb_eq in Hid. subst id.
    destruct (N.eqb (AccID a) accountID) eqn:Hhit; [|reflexivity].
    eexists. split; [reflexivity|].
    cbn [BalanceCents AvailableBalanceCents AccountNumber CVV AccountRepository.adjust].
    rewrite forallb_forall in Hfits.
    assert (Hm : In a (AccountRepository.matched accountID (accounts db))).
    { unfold AccountRepository.matched. apply filter_In. auto. }
    apply Hfits in Hm. unfold AccountRepository.fits in Hm.
    apply andb_true_iff in Hm as [H1 H2]. apply in_rangeb_spec in H1, H2.
    destruct H1, H2. repeat split; try reflexivity; assumption.
Qed.

(** Relative deltas add up: after two successful adjustments of the same
    account, its balances have moved by the sum of the deltas and no other
    account has moved. *)
Theorem AdjustBalances_accumulates (t1 t2 : Time) (db db1 db2 : DB) (accountID : uuid)
    (b1 a1 b2 a2 : Z) :
  AccountRepository.AdjustBalances t1 db accountID b1 a1 = Ok db1 ->
  AccountRepository.AdjustBalances t2 db1 accountID b2 a2 = Ok db2 ->
  forall id a,
    account_of db id = Some a ->
    exists a', account_of db2 id = Some a'
               /\ BalanceCents a'
                  = BalanceCents a + (if N.eqb id accountID then b1 + b2 else 0)
               /\ AvailableBalanceCents a'
                  = AvailableBalanceCents a + (if N.eqb id accountID then a1 + a2 else 0).
Proof.
  intros H1 H2 id a Hfind.
  apply AdjustBalances_Ok in H1 as [-> _]. apply AdjustBalances_Ok in H2 as [-> _].
  unfold account_of in *. cbn [accounts]. rewrite !find_adjust_rows, Hfind. cbn [option_map].
  pose proof (find_some _ _ Hfind) as [_ Hid]. apply N.eqb_eq in Hid. subst id.
  eexists. split; [reflexivity|].
  destruct (N.eqb (AccID a) accountID) eqn:Hhit;
    repeat (cbn [AccID AccountRepository.adjust]; rewrite ?Hhit); cbn; lia.
Qed.

Lemma AdjustBalances_accumulates_witness :
  exists a', account_of
               {| accounts :=
                    AccountRepository.adjust_rows 2 1%N 5000 5000
                      (AccountRepository.adjust_rows 1 1%N (- 10000) 0 (accounts Sample.db0));
                  transactions := [] |} 1%N = Some a'
             /\ BalanceCents a' = BalanceCents Sample.A + (- 10000 + 5000)
             /\ AvailableBalanceCents a' = AvailableBalanceCents Sample.A + (0 + 5000).
Proof.
  apply (AdjustBalances_accumulates 1 2 Sample.db0
           {| accounts := AccountRepository.adjust_rows 1 1%N (- 10000) 0 (accounts Sample.db0);
              transactions := [] |}
           _ 1%N (- 10000) 0 5000 5000);
    vm_compute; reflexivity.
Defined.

(** ** A hold is settled once, a capture refunded once *)

Ltac created_by_inversion H :=
  invert_ok H;
  match goal with
  | Hc : TransactionRepository.Create _ _ = Ok _ |- _ => injection H as <- _; eauto
  end.

Lemma performCapture_created (env : Env) (db db' : DB) (id : uuid) (amount : Z)
    (tx : Transaction) :
  Service.performCapture env db id amount = Ok (tx, db') ->
  exists db1, TransactionRepository.Create db tx = Ok db1.
Proof. unfold Service.performCapture. intros H. created_by_inversion H. Qed.

Lemma performVoid_created (env : Env) (db db' : DB) (id : uuid) (tx : Transaction) :
  Service.performVoid env db id = Ok (tx, db') ->
  exists db1, TransactionRepository.Create db tx = Ok db1.
Proof. unfold Service.performVoid. intros H. created_by_inversion H. Qed.

Lemma performRefund_created (env : Env) (db db' : DB) (id : uuid) (amount : Z)
    (tx : Transaction) :
  Service.performRefund env db id amount = Ok (tx, db') ->
  exists db1, TransactionRepository.Create db tx = Ok db1.
Proof. unfold Service.performRefund. intros H. created_by_inversion H. Qed.

Lemma performAuthorization_created (s : Service.AuthorizationService) (env : Env)
    (db db' : DB) (cardNumber cvv : string) (amount : Z) (tx : Transaction) :
  Service.performAuthorization s env db cardNumber cvv amount = Ok (tx, db') ->
  exists db1, TransactionRepository.Create db tx = Ok db1.
Proof. unfold Service.performAuthorization. intros H. created_by_inversion H. Qed.

Lemma find_set_status (id id' : uuid) (st : TransactionStatus) (rows : list Transaction) :
  find (fun t => N.eqb (ID t) id') (TransactionRepository.set_status id st rows)
  = option_map (fun t => if N.eqb (ID t) id then TransactionRepository.with_status st t else t)
               (find (fun t => N.eqb (ID t) id') rows).
Proof.
  unfold TransactionRepository.set_status.
  induction rows as [|t rows IH]; cbn [map find option_map]; [reflexivity|].
  assert (Hid : ID (if N.eqb (ID t) id then TransactionRepository.with_status st t else t)
                = ID t) by (destruct (N.eqb (ID t) id); reflexivity).
  rewrite Hid. destruct (N.eqb (ID t) id'); [reflexivity|exact IH].
Qed.

(** After a capture or a void of a hold, looking the hold up finds it
    COMPLETED. *)
Lemma settled_hold_found_completed (db db' : DB) (id : uuid) (auth tx : Transaction) :
  TransactionRepository.FindByID db id = Ok auth ->
  (forall r, In r (transactions db) -> ID r <> ID tx) ->
  transactions db' = tx :: TransactionRepository.set_status id COMPLETED (transactions db) ->
  TransactionRepository.FindByID db' id
  = Ok (TransactionRepository.with_status COMPLETED auth).
Proof.
  intros Hfind Hfresh Hrows.
  pose proof (Tx_FindByID_Ok _ _ _ Hfind) as [Hin Hid].
  unfold TransactionRepository.FindByID in *. rewrite Hrows. cbn [find].
  destruct (N.eqb_spec (ID tx) id) as [Heq | _].
  { exfalso. apply (Hfresh auth Hin). congruence. }
  rewrite find_set_status.
  destruct (find _ (transactions db)) as [a|]; [|discriminate].
  injection Hfind as ->. cbn [option_map]. now rewrite Hid, N.eqb_refl.
Qed.

Lemma inTx_begun_Err (env : Env) (db : DB) (body : DB -> result (Transaction * DB))
    (e : error) :
  beginErr env = None -> body db = Err e -> Service.inTx env db body = (Err e, db).
Proof. unfold Service.inTx. now intros -> ->. Qed.

(** Once a Capture or a Void of an authorization has committed, every
    later Capture and every later Void of the same authorization is
    refused with [authorization_already_used], whatever the amount and
    the time, and changes nothing. *)
Theorem settled_hold_is_used (env env' : Env) (db db' : DB) (authorizationID : uuid)
    (amount amount' : Z) (tx : Transaction) :
  Service.Capture env db authorizationID amount = (Ok tx, db')
  \/ Service.Void env db authorizationID = (Ok tx, db') ->
  beginErr env' = None ->
  Service.Capture env' db' authorizationID amount'
  = (Err (ServiceError "authorization_already_used"
            "authorization has already been completed or cancelled" None), db')
  /\ Service.Void env' db' authorizationID
     = (Err (ServiceError "authorization_already_used"
               "authorization has already been completed or cancelled" None), db').
Proof.
  intros Hsettled Hbegin.
  assert (Hfound : exists auth,
             Type_ auth = AUTH_HOLD
             /\ TransactionRepository.FindByID db' authorizationID
                = Ok (TransactionRepository.with_status COMPLETED auth)).
  { destruct Hsettled as [H | H]; apply inTx_Ok in H as (_ & _ & Hperf).
    - pose proof (performCapture_created _ _ _ _ _ _ Hperf) as [db1 Hcreate].
      apply performCapture_Ok in Hperf as (auth & Hfind & Htype & _ & _ & _ & _ & -> & _).
      exists auth. split; [exact Htype|].
      eapply settled_hold_found_completed; eauto using Create_fresh.
    - pose proof (performVoid_created _ _ _ _ _ Hperf) as [db1 Hcreate].
      apply performVoid_Ok in Hperf as (auth & Hfind & Htype & _ & _ & -> & _).
      exists auth. split; [exact Htype|].
      eapply settled_hold_found_completed; eauto using Create_fresh. }
  destruct Hfound as (auth & Htype & Hfind).
  split.
  - apply inTx_begun_Err; [exact Hbegin|].
    unfold Service.performCapture, TransactionRepository.FindByIDForUpdate.
    rewrite Hfind. cbn [Type_ Status TransactionRepository.with_status]. now rewrite Htype.
  - apply inTx_begun_Err; [exact Hbegin|].
    unfold Service.performVoid, TransactionRepository.FindByIDForUpdate.
    rewrite Hfind. cbn [Type_ Status TransactionRepository.with_status]. now rewrite Htype.
Qed.

Lemma settled_hold_is_used_witness :
  Service.Capture (Sample.env 5000 105%N) Sample.db2 100%N 10000
  = (Err (ServiceError "authorization_already_used"
            "authorization has already been completed or cancelled" None), Sample.db2)
  /\ Service.Void (Sample.env 5000 105%N) Sample.db2 100%N
     = (Err (ServiceError "authorization_already_used"
               "authorization has already been completed or cancelled" None), Sample.db2).
Proof.
  assert (Hcapture : Service.Capture (Sample.env 2000 101%N) Sample.db1 100%N 10000
                     = (Ok Sample.capture1, Sample.db2))
    by (vm_compute; reflexivity).
  exact (settled_hold_is_used (Sample.env 2000 101%N) (Sample.env 5000 105%N)
           Sample.db1 Sample.db2 100%N 10000 10000 Sample.capture1
           (or_introl Hcapture) eq_refl).
Defined.

(** Once a Refund of a capture has committed, a later Refund of the same
    capture is refused: with the same amount it is [already_refunded], with
    another amount [amount_mismatch]; either way nothing changes. *)
Theorem refunded_capture_is_refused (env env' : Env) (db db' : DB) (captureID : uuid)
    (amount amount' : Z) (tx : Transaction) :
  Service.Refund env db captureID amount = (Ok tx, db') ->
  beginErr env' = None ->
  (forall r, In r (transactions db') -> ID r <> newUUID env') ->
  code_of (fst (Service.Refund env' db' captureID amount'))
  = Some (if amount' =? amount then "already_refunded" else "amount_mismatch")
  /\ snd (Service.Refund env' db' captureID amount') = db'.
Proof.
  intros Hrefund Hbegin Hfresh.
  apply inTx_Ok in Hrefund as (_ & _ & Hperf).
  pose proof (performRefund_created _ _ _ _ _ _ Hperf) as [db1 Hcreate].
  apply performRefund_Ok in Hperf
    as (cap & Hfind & Htype & Hstatus & Hamount & Htx & Hdb' & _).
  pose proof (Tx_FindByID_Ok _ _ _ Hfind) as [Hin Hid].
  assert (Hfind' : TransactionRepository.FindByID db' captureID = Ok cap).
  { unfold TransactionRepository.FindByID in *. rewrite Hdb'. cbn [transactions find].
    destruct (N.eqb_spec (ID tx) captureID) as [Heq | _]; [|exact Hfind].
    exfalso. apply (Create_fresh _ _ _ Hcreate cap Hin). congruence. }
  unfold Service.Refund, Service.inTx. rewrite Hbegin.
  unfold Service.performRefund, TransactionRepository.FindByIDForUpdate.
  rewrite Hfind', (proj2 (TransactionType_eqb_eq _ _) Htype),
    (proj2 (TransactionStatus_eqb_eq _ _) Hstatus). cbn [negb].
  rewrite <- Hamount.
  destruct (Z.eqb_spec amount' amount) as [-> | Hne]; cbn [negb]; [|cbn; auto].
  rewrite Create_duplicate; cbn; auto.
  exists tx. rewrite Hdb'. cbn [transactions]. split; [now left|]. rewrite Htx. cbn. auto.
Qed.

Lemma refunded_capture_is_refused_witness :
  code_of (fst (Service.Refund (Sample.env 6000 106%N) Sample.db3 101%N 10000))
  = Some "already_refunded"
  /\ snd (Service.Refund (Sample.env 6000 106%N) Sample.db3 101%N 10000) = Sample.db3.
Proof.
  assert (Hrefund : Service.Refund (Sample.env 3000 102%N) Sample.db2 101%N 10000
                    = (Ok Sample.refund1, Sample.db3))
    by (vm_compute; reflexivity).
  assert (Hrows : transactions Sample.db3
                  = Sample.refund1 :: transactions Sample.db2)
    by (vm_compute; reflexivity).
  apply (refunded_capture_is_refused (Sample.env 3000 102%N) (Sample.env 6000 106%N)
           Sample.db2 Sample.db3 101%N 10000 10000 Sample.refund1 Hrefund eq_refl).
  rewrite Hrows, sample_db2_rows. intros r [<- | [<- | [<- | []]]]; discriminate.
Defined.

(** ** Middleware *)

(** A request that is not a POST to one of the four mutating paths, or
    that carries no [Idempotency-Key], goes straight to the handler: the
    repository is neither read nor written, whatever it is. *)
Theorem idempotency_passes_through
    {S W : Type}
    (repo_Get : S -> string -> string -> result (option IdempotencyKey))
    (repo_Store : S -> IdempotencyKey -> option error * S)
    (next : Middleware.Request -> W -> list Middleware.WriterCall * W)
    (clock : Time) (r : Middleware.Request) (st : S) (w : W) :
  Middleware.Method r <> "POST"
  \/ ~ In (Middleware.URL_Path r) Middleware.idempotentPaths
  \/ Middleware.Header r !! "Idempotency-Key" = None
  \/ Middleware.Header r !! "Idempotency-Key" = Some "" ->
  Middleware.Idempotency repo_Get repo_Store next clock r st w
  = {| Middleware.written := fst (next r w);
       Middleware.store := st;
       Middleware.world := snd (next r w);
       Middleware.errors_logged := [] |}.
Proof.
  intros Hcase. unfold Middleware.Idempotency, Middleware.pass_through.
  destruct (Middleware.requiresIdempotency r) eqn:Hreq; cbn [negb].
  2:{ destruct (next r w); reflexivity. }
  apply requiresIdempotency_spec in Hreq as [Hpost Hpath].
  destruct Hcase as [H | [H | H]]; try contradiction.
  assert (Middleware.Header_Get (Middleware.Header r) Middleware.idempotencyKeyHeader = "")
    as ->.
  { unfold Middleware.Header_Get, Middleware.idempotencyKeyHeader.
    destruct H as [-> | ->]; reflexivity. }
  cbn. destruct (next r w); reflexivity.
Qed.

Lemma idempotency_passes_through_witness :
  Middleware.Idempotency Middleware.Mem_Get Middleware.Mem_Store
    (Sample.handler 200 "ok") 9
    {| Middleware.Method := "POST"; Middleware.URL_Path := "/api/v1/captures/";
       Middleware.Header := {[ "Idempotency-Key" := "K" ]} |}
    ∅ 0%nat
  = {| Middleware.written :=
         [ Middleware.HeaderSet "Content-Type" "application/json";
           Middleware.WriteHeader 200;
           Middleware.Write "ok" ];
       Middleware.store := ∅;
       Middleware.world := 1%nat;
       Middleware.errors_logged := [] |}.
Proof.
  apply (idempotency_passes_through Middleware.Mem_Get Middleware.Mem_Store
           (Sample.handler 200 "ok") 9
           {| Middleware.Method := "POST"; Middleware.URL_Path := "/api/v1/captures/";
              Middleware.Header := {[ "Idempotency-Key" := "K" ]} |} ∅ 0%nat).
  right. left. cbn. intuition discriminate.
Defined.

(** When the lookup itself fails the middleware fails open: the handler
    is invoked and its response returned, the failure is logged, and
    nothing is stored even for a 2xx response. *)
Theorem idempotency_lookup_failure_fails_open
    {S W : Type}
    (repo_Get : S -> string -> string -> result (option IdempotencyKey))
    (repo_Store : S -> IdempotencyKey -> option error * S)
    (next : Middleware.Request -> W -> list Middleware.WriterCall * W)
    (clock : Time) (r : Middleware.Request) (st : S) (w : W) (err : error) :
  Middleware.Method r = "POST" ->
  In (Middleware.URL_Path r) Middleware.idempotentPaths ->
  Middleware.Header_Get (Middleware.Header r) "Idempotency-Key" <> "" ->
  repo_Get st (Middleware.Header_Get (Middleware.Header r) "Idempotency-Key")
    (Middleware.URL_Path r) = Err err ->
  Middleware.Idempotency repo_Get repo_Store next clock r st w
  = {| Middleware.written := fst (next r w);
       Middleware.store := st;
       Middleware.world := snd (next r w);
       Middleware.errors_logged := ["failed to check idempotency cache"] |}.
Proof.
  intros Hpost Hpath Hkey Hget.
  unfold Middleware.Idempotency, Middleware.pass_through, Middleware.idempotencyKeyHeader.
  rewrite (proj2 (requiresIdempotency_spec r) (conj Hpost Hpath)). cbn [negb].
  apply String.eqb_neq in Hkey. rewrite Hkey.
  rewrite (normalizeRequestPath_idempotentPaths _ Hpath), Hget.
  destruct (next r w); reflexivity.
Qed.

Lemma idempotency_lookup_failure_fails_open_witness :
  Middleware.Idempotency
    (fun (_ : Middleware.MemStore) _ _ => Err (ErrDriver "database connection failed"))
    Middleware.Mem_Store (Sample.handler 200 "ok") 9 Sample.request ∅ 0%nat
  = {| Middleware.written := fst (Sample.handler 200 "ok" Sample.request 0%nat);
       Middleware.store := ∅;
       Middleware.world := 1%nat;
       Middleware.errors_logged := ["failed to check idempotency cache"] |}.
Proof.
  apply (idempotency_lookup_failure_fails_open
           (fun (_ : Middleware.MemStore) _ _ => Err (ErrDriver "database connection failed"))
           Middleware.Mem_Store (Sample.handler 200 "ok") 9 Sample.request ∅ 0%nat
           (ErrDriver "database connection failed"));
    try reflexivity.
  - left. reflexivity.
  - vm_compute. discriminate.
Defined.

Lemma Idempotency_hit
    {S W : Type}
    (repo_Get : S -> string -> string -> result (option IdempotencyKey))
    (repo_Store : S -> IdempotencyKey -> option error * S)
    (next : Middleware.Request -> W -> list Middleware.WriterCall * W)
    (clock : Time) (r : Middleware.Request) (st : S) (w : W) (cached : IdempotencyKey) :
  Middleware.Method r = "POST" ->
  In (Middleware.URL_Path r) Middleware.idempotentPaths ->
  Middleware.Header_Get (Middleware.Header r) "Idempotency-Key" <> "" ->
  repo_Get st (Middleware.Header_Get (Middleware.Header r) "Idempotency-Key")
    (Middleware.URL_Path r) = Ok (Some cached) ->
  Middleware.Idempotency repo_Get repo_Store next clock r st w
  = {| Middleware.written :=
         [ Middleware.HeaderSet "Content-Type" "application/json";
           Middleware.HeaderSet "X-Idempotent-Replayed" "true";
           Middleware.WriteHeader (ResponseStatus cached);
           Middleware.Write (ResponseBody cached) ];
       Middleware.store := st;
       Middleware.world := w;
       Middleware.errors_logged := [] |}.
Proof.
  intros Hpost Hpath Hkey Hget.
  unfold Middleware.Idempotency, Middleware.idempotencyKeyHeader.
  rewrite (proj2 (requiresIdempotency_spec r) (conj Hpost Hpath)). cbn [negb].
  apply String.eqb_neq in Hkey. rewrite Hkey.
  now rewrite (normalizeRequestPath_idempotentPaths _ Hpath), Hget.
Qed.

Lemma Idempotency_miss_stored
    {S W : Type}
    (repo_Get : S -> string -> string -> result (option IdempotencyKey))
    (repo_Store : S -> IdempotencyKey -> option error * S)
    (next : Middleware.Request -> W -> list Middleware.WriterCall * W)
    (clock : Time) (r : Middleware.Request) (st st' : S) (w : W) :
  Middleware.Method r = "POST" ->
  In (Middleware.URL_Path r) Middleware.idempotentPaths ->
  Middleware.Header_Get (Middleware.Header r) "Idempotency-Key" <> "" ->
  repo_Get st (Middleware.Header_Get (Middleware.Header r) "Idempotency-Key")
    (Middleware.URL_Path r) = Ok None ->
  Middleware.shouldCacheResponse
    (Middleware.statusCode (Middleware.captured (fst (next r w)))) = true ->
  repo_Store st
    {| Key := Middleware.Header_Get (Middleware.Header r) "Idempotency-Key";
       RequestPath := Middleware.URL_Path r;
       ResponseBody := Middleware.body (Middleware.captured (fst (next r w)));
       ResponseStatus := Middleware.statusCode (Middleware.captured (fst (next r w)));
       IdemCreatedAt := clock |} = (None, st') ->
  Middleware.Idempotency repo_Get repo_Store next clock r st w
  = {| Middleware.written := fst (next r w);
       Middleware.store := st';
       Middleware.world := snd (next r w);
       Middleware.errors_logged := [] |}.
Proof.
  intros Hpost Hpath Hkey Hget Hcache Hstore.
  unfold Middleware.Idempotency, Middleware.idempotencyKeyHeader.
  rewrite (proj2 (requiresIdempotency_spec r) (conj Hpost Hpath)). cbn [negb].
  apply String.eqb_neq in Hkey. rewrite Hkey.
  rewrite (normalizeRequestPath_idempotentPaths _ Hpath), Hget.
  destruct (next r w) as [calls w']. cbn [fst snd] in *. now rewrite Hcache, Hstore.
Qed.

(** Replay round trip.  A keyed POST that finds no record, gets a 2xx
    response from the handler and stores it successfully in a repository
    that returns what was stored, is answered on the next identical request
    with exactly the status and the body bytes the handler wrote the first
    time, marked [X-Idempotent-Replayed: true]; the second request reaches
    no handler and changes neither the store nor the state behind the
    handler. *)
Theorem idempotency_replay_round_trip
    {S W : Type}
    (repo_Get : S -> string -> string -> result (option IdempotencyKey))
    (repo_Store : S -> IdempotencyKey -> option error * S)
    (next next' : Middleware.Request -> W -> list Middleware.WriterCall * W)
    (clock clock' : Time) (r : Middleware.Request) (st st' : S) (w : W) :
  Middleware.Method r = "POST" ->
  In (Middleware.URL_Path r) Middleware.idempotentPaths ->
  Middleware.Header_Get (Middleware.Header r) "Idempotency-Key" <> "" ->
  repo_Get st (Middleware.Header_Get (Middleware.Header r) "Idempotency-Key")
    (Middleware.URL_Path r) = Ok None ->
  let capture := Middleware.captured (fst (next r w)) in
  200 <= Middleware.statusCode capture < 300 ->
  let record :=
    {| Key := Middleware.Header_Get (Middleware.Header r) "Idempotency-Key";
       RequestPath := Middleware.URL_Path r;
       ResponseBody := Middleware.body capture;
       ResponseStatus := Middleware.statusCode capture;
       IdemCreatedAt := clock |} in
  repo_Store st record = (None, st') ->
  repo_Get st' (Key record) (RequestPath record) = Ok (Some record) ->
  let first := Middleware.Idempotency repo_Get repo_Store next clock r st w in
  Middleware.written first = fst (next r w)
  /\ Middleware.Idempotency repo_Get repo_Store next' clock' r
       (Middleware.store first) (Middleware.world first)
     = {| Middleware.written :=
            [ Middleware.HeaderSet "Content-Type" "application/json";
              Middleware.HeaderSet "X-Idempotent-Replayed" "true";
              Middleware.WriteHeader (Middleware.statusCode capture);
              Middleware.Write (Middleware.body capture) ];
          Middleware.store := Middleware.store first;
          Middleware.world := Middleware.world first;
          Middleware.errors_logged := [] |}.
Proof.
  intros Hpost Hpath Hkey Hget capture Hrange record Hstore Hread first.
  assert (Hcache : Middleware.shouldCacheResponse (Middleware.statusCode capture) = true).
  { unfold Middleware.shouldCacheResponse.
    apply andb_true_iff. rewrite Z.leb_le, Z.ltb_lt. exact Hrange. }
  assert (Hfirst : first = {| Middleware.written := fst (next r w);
                              Middleware.store := st';
                              Middleware.world := snd (next r w);
                              Middleware.errors_logged := [] |}).
  { subst first. now apply Idempotency_miss_stored with (clock := clock). }
  rewrite Hfirst. cbn [Middleware.written Middleware.store Middleware.world].
  split; [reflexivity|].
  now rewrite (Idempotency_hit repo_Get repo_Store next' clock' r st' (snd (next r w)) record).
Qed.

Lemma sample_request_key :
  Middleware.Header_Get (Middleware.Header Sample.request) "Idempotency-Key" = "K".
Proof.
  unfold Middleware.Header_Get, Sample.request. cbn [Middleware.Header].
  now rewrite lookup_singleton_eq.
Defined.

Lemma Mem_Store_fresh (st : Middleware.MemStore) (k : IdempotencyKey) :
  st !! (Key k, RequestPath k) = None ->
  Middleware.Mem_Store st k = (None, <[ (Key k, RequestPath k) := k ]> st).
Proof. unfold Middleware.Mem_Store. now intros ->. Defined.

Lemma Mem_Get_stored (st : Middleware.MemStore) (k : IdempotencyKey) :
  Middleware.Mem_Get (<[ (Key k, RequestPath k) := k ]> st) (Key k) (RequestPath k)
  = Ok (Some k).
Proof.
  unfold Middleware.Mem_Get, Middleware.MemStore in *.
  f_equal. apply lookup_insert_eq.
Defined.

Lemma idempotency_replay_round_trip_witness :
  let first :=
    Middleware.Idempotency Middleware.Mem_Get Middleware.Mem_Store
      (Sample.handler 200 "paid") 7 Sample.request ∅ 0%nat in
  Middleware.Idempotency Middleware.Mem_Get Middleware.Mem_Store
    (Sample.handler 500 "never") 8 Sample.request
    (Middleware.store first) (Middleware.world first)
  = {| Middleware.written :=
         [ Middleware.HeaderSet "Content-Type" "application/json";
           Middleware.HeaderSet "X-Idempotent-Replayed" "true";
           Middleware.WriteHeader 200;
           Middleware.Write "paid" ];
       Middleware.store := Middleware.store first;
       Middleware.world := Middleware.world first;
       Middleware.errors_logged := [] |}.
Proof.
  intros first.
  assert (Hkey : Middleware.Header_Get (Middleware.Header Sample.request) "Idempotency-Key"
                 <> "") by (rewrite sample_request_key; discriminate).
  assert (Hpath : In (Middleware.URL_Path Sample.request) Middleware.idempotentPaths)
    by (left; reflexivity).
  assert (Hget : Middleware.Mem_Get ∅
                   (Middleware.Header_Get (Middleware.Header Sample.request) "Idempotency-Key")
                   (Middleware.URL_Path Sample.request) = Ok None)
    by (unfold Middleware.Mem_Get; f_equal; apply lookup_empty).
  assert (Hrange : 200 <= Middleware.statusCode
                            (Middleware.captured
                               (fst (Sample.handler 200 "paid" Sample.request 0%nat))) < 300)
    by (cbn; lia).
  exact (proj2 (idempotency_replay_round_trip Middleware.Mem_Get Middleware.Mem_Store
                  (Sample.handler 200 "paid") (Sample.handler 500 "never") 7 8
                  Sample.request ∅ _ 0%nat eq_refl Hpath Hkey Hget Hrange
                  (Mem_Store_fresh ∅ _ (lookup_empty _))
                  (Mem_Get_stored ∅ _))).
Defined.

(** ** Chaos injection *)

Lemma idempotentPaths_not_excluded (p : string) :
  In p Middleware.idempotentPaths -> Chaos.isExcludedPath p = false.
Proof.
  unfold Middleware.idempotentPaths.
  intros [<- | [<- | [<- | [<- | []]]]]; reflexivity.
Qed.

(** An injected failure is never cached, and a replay is never subject
    to injection.  Through the router, for a keyed POST to a mutating
    path: when no record exists and a failure is injected, the client gets
    the 500 of the chaos middleware, the routes are not reached, and the
    store is left as it was, so that a retry with the same key performs
    the work; when a record exists it is replayed whether or not a failure
    would have been injected. *)
Theorem injected_failure_is_not_cached
    {S W : Type}
    (repo_Get : S -> string -> string -> result (option IdempotencyKey))
    (repo_Store : S -> IdempotencyKey -> option error * S)
    (json_Encode : string -> string -> string)
    (mux : Middleware.Request -> W -> list Middleware.WriterCall * W)
    (clock : Time) (r : Middleware.Request) (st : S) (w : W) :
  Middleware.Method r = "POST" ->
  In (Middleware.URL_Path r) Middleware.idempotentPaths ->
  Middleware.Header_Get (Middleware.Header r) "Idempotency-Key" <> "" ->
  (repo_Get st (Middleware.Header_Get (Middleware.Header r) "Idempotency-Key")
     (Middleware.URL_Path r) = Ok None ->
   Chaos.Router repo_Get repo_Store json_Encode true mux clock r st w
   = {| Middleware.written :=
          [ Middleware.HeaderSet "Content-Type" "application/json";
            Middleware.WriteHeader 500;
            Middleware.Write (json_Encode "internal_error" "Random failure injection") ];
        Middleware.store := st;
        Middleware.world := w;
        Middleware.errors_logged := [] |})
  /\ (forall cached inject,
        repo_Get st (Middleware.Header_Get (Middleware.Header r) "Idempotency-Key")
          (Middleware.URL_Path r) = Ok (Some cached) ->
        Chaos.Router repo_Get repo_Store json_Encode inject mux clock r st w
        = {| Middleware.written :=
               [ Middleware.HeaderSet "Content-Type" "application/json";
                 Middleware.HeaderSet "X-Idempotent-Replayed" "true";
                 Middleware.WriteHeader (ResponseStatus cached);
                 Middleware.Write (ResponseBody cached) ];
             Middleware.store := st;
             Middleware.world := w;
             Middleware.errors_logged := [] |}).
Proof.
  intros Hpost Hpath Hkey. split.
  - intros Hget. unfold Chaos.Router, Middleware.Idempotency, Middleware.idempotencyKeyHeader.
    rewrite (proj2 (requiresIdempotency_spec r) (conj Hpost Hpath)). cbn [negb].
    apply String.eqb_neq in Hkey. rewrite Hkey.
    rewrite (normalizeRequestPath_idempotentPaths _ Hpath), Hget.
    unfold Chaos.FailureInjection. rewrite (idempotentPaths_not_excluded _ Hpath).
    reflexivity.
  - intros cached inject Hget. unfold Chaos.Router. now apply Idempotency_hit.
Qed.

Lemma injected_failure_is_not_cached_witness :
  Chaos.Router Middleware.Mem_Get Middleware.Mem_Store
    (fun e m => e +:+ ": " +:+ m) true (Sample.handler 200 "paid") 7 Sample.request ∅ 0%nat
  = {| Middleware.written :=
         [ Middleware.HeaderSet "Content-Type" "application/json";
           Middleware.WriteHeader 500;
           Middleware.Write "internal_error: Random failure injection" ];
       Middleware.store := ∅;
       Middleware.world := 0%nat;
       Middleware.errors_logged := [] |}.
Proof.
  assert (Hkey : Middleware.Header_Get (Middleware.Header Sample.request) "Idempotency-Key"
                 <> "") by (rewrite sample_request_key; discriminate).
  assert (Hpath : In (Middleware.URL_Path Sample.request) Middleware.idempotentPaths)
    by (left; reflexivity).
  assert (Hget : Middleware.Mem_Get ∅
                   (Middleware.Header_Get (Middleware.Header Sample.request) "Idempotency-Key")
                   (Middleware.URL_Path Sample.request) = Ok None)
    by (unfold Middleware.Mem_Get; f_equal; apply lookup_empty).
  exact (proj1 (injected_failure_is_not_cached Middleware.Mem_Get Middleware.Mem_Store
                  (fun e m => e +:+ ": " +:+ m) (Sample.handler 200 "paid") 7
                  Sample.request ∅ 0%nat eq_refl Hpath Hkey) Hget).
Defined.

(** Outside [/health*] and [/docs*] an injected failure answers 500
    without invoking the wrapped handler; on those paths the handler is
    always invoked, injected failure or not. *)
Theorem FailureInjection_spec
    {W : Type} (json_Encode : string -> string -> string) (inject : bool)
    (next : Middleware.Request -> W -> list Middleware.WriterCall * W)
    (r : Middleware.Request) (w : W) :
  (String.prefix "/health" (Middleware.URL_Path r) = true
   \/ String.prefix "/docs" (Middleware.URL_Path r) = true ->
   Chaos.FailureInjection json_Encode inject next r w = next r w)
  /\ (String.prefix "/health" (Middleware.URL_Path r) = false ->
      String.prefix "/docs" (Middleware.URL_Path r) = false ->
      Chaos.FailureInjection json_Encode inject next r w
      = if inject then (Chaos.writeFailureResponse json_Encode, w) else next r w)
  /\ Middleware.statusCode (Middleware.captured (Chaos.writeFailureResponse json_Encode)) = 500
  /\ Middleware.shouldCacheResponse
       (Middleware.statusCode (Middleware.captured (Chaos.writeFailureResponse json_Encode)))
     = false.
Proof.
  unfold Chaos.FailureInjection, Chaos.isExcludedPath, Chaos.excludedPaths. cbn [existsb].
  repeat split.
  - intros [-> | ->]; [reflexivity|]. now rewrite orb_true_r.
  - intros -> ->. reflexivity.
Qed.

(** The injected latency stays within the configured bounds.  With
    [0 <= min <= max] and [max] milliseconds within a [time.Duration]
    ([max * 10^6 <= 2^63 - 1]), and a draw that returns a number of
    [[0, n)] when it succeeds: the sleep is a whole number of milliseconds
    between [min] and [max]; it is [min] plus the number drawn from
    [[0, max - min)] when [min < max] and the draw succeeds, hence below
    [max]; it is [min] itself when [min = max] or the draw fails; and
    there is no sleep exactly when both bounds are zero. *)
Theorem injectLatency_bounds (draw : Z -> option Z) (minMS maxMS : Z) :
  0 <= minMS <= maxMS ->
  maxMS * 1000000 <= Int64.max_signed ->
  (forall n offset, 0 < n -> draw n = Some offset -> 0 <= offset < n) ->
  (Chaos.injectLatency draw minMS maxMS = None <-> minMS = 0 /\ maxMS = 0)
  /\ match Chaos.injectLatency draw minMS maxMS with
     | None => minMS = 0 /\ maxMS = 0
     | Some d =>
         0 < maxMS
         /\ exists sleepMS,
              d = sleepMS * 1000000
              /\ minMS <= sleepMS <= maxMS
              /\ (minMS < maxMS -> draw (maxMS - minMS) <> None -> sleepMS < maxMS)
              /\ (forall offset,
                    minMS < maxMS -> draw (maxMS - minMS) = Some offset ->
                    sleepMS = minMS + offset)
              /\ (draw (maxMS - minMS) = None -> sleepMS = minMS)
              /\ (minMS = maxMS -> sleepMS = minMS)
     end.
Proof.
  intros Hbounds Hmax Hdraw. unfold Chaos.injectLatency, Int64.mul, Chaos.Millisecond.
  cbv zeta.
  assert (Hwrap : forall z, 0 <= z <= maxMS -> Int64.wrap z = z).
  { intros z Hz. apply wrap_in_range.
    unfold Int64.in_range, Int64.min_signed, Int64.max_signed in *. lia. }
  assert (Hwrap' : forall z, 0 <= z <= maxMS -> Int64.wrap (z * 1000000) = z * 1000000).
  { intros z Hz. apply wrap_in_range.
    unfold Int64.in_range, Int64.min_signed, Int64.max_signed in *. nia. }
  assert (Hdrawn : forall offset,
             0 <= offset < maxMS - minMS ->
             Int64.wrap (Int64.wrap (minMS + Int64.wrap offset) * 1000000)
             = (minMS + offset) * 1000000).
  { intros offset Ho. now rewrite (Hwrap offset), (Hwrap (minMS + offset)), Hwrap' by lia. }
  destruct ((minMS <=? 0) && (maxMS <=? 0)) eqn:Hzero.
  { apply andb_true_iff in Hzero as [H1 H2]. apply Z.leb_le in H1, H2.
    split; [split; [intros _; lia | reflexivity] | lia]. }
  assert (Hpos : 0 < maxMS).
  { apply andb_false_iff in Hzero as [H | H]; apply Z.leb_gt in H; lia. }
  rewrite Hwrap by lia.
  destruct (Z.leb_spec (maxMS - minMS) 0) as [Hrange | Hrange].
  { rewrite Hwrap' by lia.
    split; [split; [discriminate | lia]|].
    split; [exact Hpos|]. exists minMS.
    repeat split; try lia; intros; lia. }
  destruct (draw (maxMS - minMS)) as [offset|] eqn:Hd.
  - apply Hdraw in Hd; [|lia]. rewrite Hdrawn by lia.
    split; [split; [discriminate | lia]|].
    split; [exact Hpos|]. exists (minMS + offset).
    repeat split; try lia; intros; try lia; congruence.
  - rewrite Hwrap' by lia.
    split; [split; [discriminate | lia]|].
    split; [exact Hpos|]. exists minMS.
    repeat split; try lia; intros; try lia; congruence.
Qed.

Lemma injectLatency_bounds_witness :
  (exists sleepMS,
      Chaos.injectLatency (fun n => Some (n - 1)) 100 2000 = Some (sleepMS * 1000000)
      /\ sleepMS = 100 + 1899)
  /\ (exists sleepMS,
         Chaos.injectLatency (fun _ => None) 100 2000 = Some (sleepMS * 1000000)
         /\ sleepMS = 100).
Proof.
  split.
  - pose proof (injectLatency_bounds (fun n => Some (n - 1)) 100 2000
                  ltac:(lia) ltac:(unfold Int64.max_signed; lia)
                  ltac:(intros n offset Hn [= <-]; lia)) as [_ H].
    destruct (Chaos.injectLatency (fun n => Some (n - 1)) 100 2000) as [d|];
      [|destruct H as [H _]; discriminate H].
    destruct H as (_ & sleepMS & -> & _ & _ & Hdrawn & _).
    exists sleepMS. split; [reflexivity|]. apply Hdrawn; [lia | reflexivity].
  - pose proof (injectLatency_bounds (fun _ => None) 100 2000
                  ltac:(lia) ltac:(unfold Int64.max_signed; lia)
                  ltac:(intros n offset Hn Hd; discriminate Hd)) as [_ H].
    destruct (Chaos.injectLatency (fun _ => None) 100 2000) as [d|];
      [|destruct H as [H _]; discriminate H].
    destruct H as (_ & sleepMS & -> & _ & _ & _ & Hfailed & _).
    exists sleepMS. split; [reflexivity|]. apply Hfailed. reflexivity.
Defined.

Example injectLatency_largest_draw :
  Chaos.injectLatency (fun n => Some (n - 1)) 100 2000 = Some (1999 * 1000000).
Proof. reflexivity. Qed.

(** ** HTTP handlers *)

Lemma prefix_append (p s : string) : String.prefix p (p +:+ s) = true.
Proof.
  induction p as [|c p IH].
  - now destruct s.
  - change (String c p +:+ s) with (String c (p +:+ s)).
    cbn [String.prefix].
    destruct (ascii_dec c c) as [_|Hne]; [exact IH | contradiction].
Qed.

Lemma substring_whole (s : string) : String.substring 0 (String.length s) s = s.
Proof.
  induction s as [|c s IH]; [reflexivity|].
  cbn [String.length String.substring]. now rewrite IH.
Qed.

Lemma substring_drop_prefix (p s : string) :
  String.substring (String.length p) (String.length (p +:+ s) - String.length p) (p +:+ s)
  = s.
Proof.
  induction p as [|c p IH].
  - change ("" +:+ s) with s. cbn [String.length].
    rewrite Nat.sub_0_r. apply substring_whole.
  - change (String c p +:+ s) with (String c (p +:+ s)).
    cbn [String.length String.substring Nat.sub]. exact IH.
Qed.

(** Identifiers on the wire: an id formatted for a type parses back to the
    same UUID under that type's prefix, given that [uuid.Parse] reads what
    [UUID.String] prints; and an id that lacks the prefix is refused
    without the UUID being parsed at all. *)
Theorem id_prefix_round_trip
    (uuid_Parse : string -> option uuid) (uuid_String : uuid -> string) (id : uuid) :
  (forall u, uuid_Parse (uuid_String u) = Some u) ->
  Handlers.parseAuthorizationID uuid_Parse (Handlers.formatAuthorizationID uuid_String id)
  = Some id
  /\ Handlers.parseCaptureID uuid_Parse (Handlers.formatCaptureID uuid_String id) = Some id
  /\ Handlers.parseRefundID uuid_Parse (Handlers.formatRefundID uuid_String id) = Some id
  /\ (forall text prefix,
        String.prefix prefix text = false ->
        Handlers.parseIDWithPrefix uuid_Parse text prefix = None).
Proof.
  intros Hround.
  unfold Handlers.parseAuthorizationID, Handlers.parseCaptureID, Handlers.parseRefundID,
    Handlers.formatAuthorizationID, Handlers.formatCaptureID, Handlers.formatRefundID,
    Handlers.parseIDWithPrefix.
  repeat split.
  - rewrite prefix_append, substring_drop_prefix. cbn [negb]. apply Hround.
  - rewrite prefix_append, substring_drop_prefix. cbn [negb]. apply Hround.
  - rewrite prefix_append, substring_drop_prefix. cbn [negb]. apply Hround.
  - intros text prefix ->. reflexivity.
Qed.

Lemma id_prefix_round_trip_witness :
  Handlers.parseAuthorizationID (fun s => Some (N.of_nat (String.length s)))
    (Handlers.formatAuthorizationID (fun u => string_of_list_ascii (repeat "x"%char (N.to_nat u)))
       5%N)
  = Some 5%N.
Proof.
  refine (proj1 (id_prefix_round_trip (fun s => Some (N.of_nat (String.length s)))
                   (fun u => string_of_list_ascii (repeat "x"%char (N.to_nat u))) 5%N _)).
  intros u. f_equal.
  assert (H : forall n, String.length (string_of_list_ascii (repeat "x"%char n)) = n).
  { induction n as [|n IH]; cbn; [reflexivity|]. now rewrite IH. }
  rewrite H. apply N2Nat.id.
Defined.

Lemma Create_Err_no_service_error (db : DB) (t : Transaction) (e : error) :
  TransactionRepository.Create db t = Err e -> Handlers.extractServiceError e = None.
Proof.
  unfold TransactionRepository.Create. intros H.
  repeat (break_match_hyp H; try discriminate H); injection H as <-; reflexivity.
Qed.

Lemma inTx_Err_cases (env : Env) (db db' : DB) (body : DB -> result (Transaction * DB))
    (e : error) :
  Service.inTx env db body = (Err e, db') ->
  (exists msg, e = ServiceError Service.ErrCodeInternalError msg None)
  \/ (beginErr env = None /\ body db = Err e).
Proof.
  unfold Service.inTx. intros H.
  repeat (break_match_hyp H; try discriminate H); injection H as <- _; eauto.
Qed.

Ltac service_error_cases H :=
  repeat (break_match_hyp H; try discriminate H); injection H as <-; eauto 8.

Lemma performAuthorization_Err (s : Service.AuthorizationService) (env : Env) (db : DB)
    (cardNumber cvv : string) (amount : Z) (e : error) :
  Service.performAuthorization s env db cardNumber cvv amount = Err e ->
  exists code msg, e = ServiceError code msg None.
Proof. unfold Service.performAuthorization. intros H. service_error_cases H. Qed.

Lemma validateAuthorizationRequest_Some (cardNumber cvv : string) (amount : Z) (e : error) :
  Service.validateAuthorizationRequest cardNumber cvv amount = Some e ->
  exists code msg, e = ServiceError code msg None /\ code <> Service.ErrCodeInsufficientFunds.
Proof.
  unfold Service.validateAuthorizationRequest. intros H.
  repeat (break_match_hyp H; try discriminate H); injection H as <-;
    do 2 eexists; (split; [reflexivity | discriminate]).
Qed.

Lemma Authorize_Err (s : Service.AuthorizationService) (env : Env) (db db' : DB)
    (cardNumber cvv : string) (amount : Z) (e : error) :
  Service.Authorize s env db cardNumber cvv amount = (Err e, db') ->
  exists code msg, e = ServiceError code msg None.
Proof.
  unfold Service.Authorize. intros H.
  destruct (Service.validateAuthorizationRequest cardNumber cvv amount) as [err|] eqn:Hv.
  - injection H as <- _.
    destruct (validateAuthorizationRequest_Some _ _ _ _ Hv) as (code & msg & -> & _). eauto.
  - destruct (inTx_Err_cases _ _ _ _ _ H) as [(msg & ->) | (_ & Hbody)]; [eauto|].
    exact (performAuthorization_Err _ _ _ _ _ _ _ Hbody).
Qed.

(** POST /api/v1/authorizations always answers, with 200, 400 or 402 and
    never with 500: every error of the authorization service is a service
    error, and an approved hold always carries its expiry.  The answer is
    200 exactly when the service succeeded and 402 exactly when it refused
    for insufficient funds; the handler leaves the database as the service
    left it. *)
Theorem create_authorization_responses (uuid_String : uuid -> string)
    (s : Service.AuthorizationService) (env : Env) (db : DB)
    (cardNumber cvv : string) (amount : Z) :
  exists resp,
    fst (Handlers.CreateAuthorization uuid_String s env db cardNumber cvv amount) = Some resp
    /\ snd (Handlers.CreateAuthorization uuid_String s env db cardNumber cvv amount)
       = snd (Service.Authorize s env db cardNumber cvv amount)
    /\ (Handlers.StatusCode resp = 200 \/ Handlers.StatusCode resp = 400
        \/ Handlers.StatusCode resp = 402)
    /\ (Handlers.StatusCode resp = 200
        <-> exists txn, fst (Service.Authorize s env db cardNumber cvv amount) = Ok txn)
    /\ (Handlers.StatusCode resp = 402
        <-> code_of (fst (Service.Authorize s env db cardNumber cvv amount))
            = Some Service.ErrCodeInsufficientFunds).
Proof.
  unfold Handlers.CreateAuthorization.
  destruct (Service.Authorize s env db cardNumber cvv amount) as [[txn|e] db'] eqn:Hsvc.
  - destruct (Authorize_Ok _ _ _ _ _ _ _ _ Hsvc) as (_ & Hperform).
    destruct (performAuthorization_Ok _ _ _ _ _ _ _ _ Hperform)
      as (account & _ & _ & _ & Htx & _).
    rewrite Htx. cbn [ExpiresAt fst snd code_of].
    eexists. split; [reflexivity|]. cbn [Handlers.StatusCode].
    repeat split; eauto; try discriminate.
  - destruct (Authorize_Err _ _ _ _ _ _ _ _ Hsvc) as (code & msg & ->).
    cbn [fst snd code_of].
    unfold Handlers.handleAuthorizationError, Handlers.isPaymentRequiredError.
    cbn [Handlers.extractServiceError].
    eexists. split; [reflexivity|].
    destruct (String.eqb code Service.ErrCodeInsufficientFunds) eqn:Hcode;
      cbn [Handlers.StatusCode].
    + apply String.eqb_eq in Hcode. subst code.
      repeat split; eauto; try discriminate. intros [txn Hok]. discriminate Hok.
    + apply String.eqb_neq in Hcode.
      repeat split; eauto; try discriminate.
      * intros [txn Hok]. discriminate Hok.
      * intros Hc. injection Hc as Hc. contradiction.
Qed.

Lemma Capture_Ok_reference (env : Env) (db db' : DB) (id : uuid) (amount : Z)
    (txn : Transaction) :
  Service.Capture env db id amount = (Ok txn, db') -> ReferenceID txn = Some id.
Proof.
  unfold Service.Capture. intros H. apply inTx_Ok in H as (_ & _ & H).
  apply performCapture_Ok in H as (a & _ & _ & _ & _ & _ & -> & _). reflexivity.
Qed.

Lemma Void_Ok_reference (env : Env) (db db' : DB) (id : uuid) (txn : Transaction) :
  Service.Void env db id = (Ok txn, db') -> ReferenceID txn = Some id.
Proof.
  unfold Service.Void. intros H. apply inTx_Ok in H as (_ & _ & H).
  unfold Service.performVoid in H. invert_ok H. injection H as <- _. reflexivity.
Qed.

Lemma Refund_Ok_reference (env : Env) (db db' : DB) (id : uuid) (amount : Z)
    (txn : Transaction) :
  Service.Refund env db id amount = (Ok txn, db') -> ReferenceID txn = Some id.
Proof.
  unfold Service.Refund. intros H. apply inTx_Ok in H as (_ & _ & H).
  unfold Service.performRefund in H. invert_ok H. injection H as <- _. reflexivity.
Qed.

(** An error that carries no service error comes out of the shared
    transaction wrapper only from its body. *)
Lemma inTx_unclassified (env : Env) (db : DB) (body : DB -> result (Transaction * DB)) :
  (exists e, fst (Service.inTx env db body) = Err e /\ Handlers.extractServiceError e = None)
  <-> beginErr env = None
      /\ exists e, body db = Err e /\ Handlers.extractServiceError e = None.
Proof.
  unfold Service.inTx.
  destruct (beginErr env) as [err|].
  { split; [intros (e & [= <-] & H); discriminate H | intros [H _]; discriminate H]. }
  destruct (body db) as [[tx db']|e0].
  - destruct (commitErr env) as [cerr|]; cbn [fst]; split.
    + intros (e & [= <-] & H). cbn in H. discriminate H.
    + intros (_ & e & H & _). discriminate H.
    + intros (e & H & _). discriminate H.
    + intros (_ & e & H & _). discriminate H.
  - cbn [fst]. split.
    + intros (e & [= <-] & H). eauto.
    + intros (_ & e & [= <-] & H). eauto.
Qed.

Ltac service_error_branch H Hx :=
  first [ discriminate H
        | injection H as <-; cbn [Handlers.extractServiceError] in Hx; discriminate Hx ].

(** [performCapture] returns an error that is no service error exactly
    when every check passes and the insert of the capture row fails for
    another reason than the duplicate. *)
Lemma performCapture_unclassified (env : Env) (db : DB) (id : uuid) (amount : Z) :
  (exists e, Service.performCapture env db id amount = Err e
             /\ Handlers.extractServiceError e = None)
  <-> exists auth cause,
        TransactionRepository.FindByID db id = Ok auth
        /\ Type_ auth = AUTH_HOLD /\ Status auth = ACTIVE
        /\ Service.expired env auth = false /\ amount = AmountCents auth
        /\ TransactionRepository.Create db
             {| ID := newUUID env; AccountID := AccountID auth; Type_ := CAPTURE;
                AmountCents := amount; Currency := Currency auth;
                ReferenceID := Some id; Status := COMPLETED;
                ExpiresAt := None; CreatedAt := now env |} = Err cause
        /\ is_ErrDuplicateTransaction cause = false.
Proof.
  unfold Service.performCapture, TransactionRepository.FindByIDForUpdate. cbv zeta. split.
  - intros (e & H & Hx).
    destruct (TransactionRepository.FindByID db id) as [auth|e0] eqn:Hfind;
      [|service_error_branch H Hx].
    destruct (TransactionType_eqb (Type_ auth) AUTH_HOLD) eqn:Hty; cbn [negb] in H;
      [|service_error_branch H Hx].
    destruct (TransactionStatus_eqb (Status auth) ACTIVE) eqn:Hst; cbn [negb] in H;
      [|service_error_branch H Hx].
    destruct (Service.expired env auth) eqn:Hexp; [service_error_branch H Hx|].
    destruct (amount =? AmountCents auth) eqn:Hamt; cbn [negb] in H;
      [|service_error_branch H Hx].
    destruct (TransactionRepository.Create db _) as [db1|cause] eqn:Hcreate.
    + destruct (TransactionRepository.UpdateStatus db1 id COMPLETED) as [db2|e2];
        [|service_error_branch H Hx].
      destruct (AccountRepository.AdjustBalances _ db2 _ _ _); service_error_branch H Hx.
    + destruct (is_ErrDuplicateTransaction cause) eqn:Hdup; [service_error_branch H Hx|].
      apply TransactionType_eqb_eq in Hty. apply TransactionStatus_eqb_eq in Hst.
      apply Z.eqb_eq in Hamt. exists auth, cause. auto 10.
  - intros (auth & cause & Hfind & Hty & Hst & Hexp & Hamt & Hcreate & Hdup).
    apply TransactionType_eqb_eq in Hty. apply TransactionStatus_eqb_eq in Hst.
    apply Z.eqb_eq in Hamt.
    rewrite Hfind, Hty, Hst, Hexp, Hamt. cbn [negb]. rewrite Hcreate, Hdup.
    eexists. split; [reflexivity|]. cbn [Handlers.extractServiceError].
    exact (Create_Err_no_service_error _ _ _ Hcreate).
Qed.

Lemma performVoid_unclassified (env : Env) (db : DB) (id : uuid) :
  (exists e, Service.performVoid env db id = Err e
             /\ Handlers.extractServiceError e = None)
  <-> exists auth cause,
        TransactionRepository.FindByID db id = Ok auth
        /\ Type_ auth = AUTH_HOLD /\ Status auth = ACTIVE
        /\ TransactionRepository.FindByReferenceID db id CAPTURE = Ok None
        /\ TransactionRepository.Create db
             {| ID := newUUID env; AccountID := AccountID auth; Type_ := VOID;
                AmountCents := AmountCents auth; Currency := Currency auth;
                ReferenceID := Some id; Status := COMPLETED;
                ExpiresAt := None; CreatedAt := now env |} = Err cause
        /\ is_ErrDuplicateTransaction cause = false.
Proof.
  unfold Service.performVoid, TransactionRepository.FindByIDForUpdate. cbv zeta. split.
  - intros (e & H & Hx).
    destruct (TransactionRepository.FindByID db id) as [auth|e0] eqn:Hfind;
      [|service_error_branch H Hx].
    destruct (TransactionType_eqb (Type_ auth) AUTH_HOLD) eqn:Hty; cbn [negb] in H;
      [|service_error_branch H Hx].
    destruct (TransactionStatus_eqb (Status auth) ACTIVE) eqn:Hst; cbn [negb] in H;
      [|service_error_branch H Hx].
    destruct (TransactionRepository.FindByReferenceID db id CAPTURE) as [[t|]|e1] eqn:Href;
      [service_error_branch H Hx | | service_error_branch H Hx].
    destruct (TransactionRepository.Create db _) as [db1|cause] eqn:Hcreate.
    + destruct (TransactionRepository.UpdateStatus db1 id COMPLETED) as [db2|e2];
        [|service_error_branch H Hx].
      destruct (AccountRepository.AdjustBalances _ db2 _ _ _); service_error_branch H Hx.
    + destruct (is_ErrDuplicateTransaction cause) eqn:Hdup; [service_error_branch H Hx|].
      apply TransactionType_eqb_eq in Hty. apply TransactionStatus_eqb_eq in Hst.
      exists auth, cause. auto 10.
  - intros (auth & cause & Hfind & Hty & Hst & Href & Hcreate & Hdup).
    apply TransactionType_eqb_eq in Hty. apply TransactionStatus_eqb_eq in Hst.
    rewrite Hfind, Hty, Hst, Href. cbn [negb]. rewrite Hcreate, Hdup.
    eexists. split; [reflexivity|]. cbn [Handlers.extractServiceError].
    exact (Create_Err_no_service_error _ _ _ Hcreate).
Qed.

Lemma performRefund_unclassified (env : Env) (db : DB) (id : uuid) (amount : Z) :
  (exists e, Service.performRefund env db id amount = Err e
             /\ Handlers.extractServiceError e = None)
  <-> exists cap cause,
        TransactionRepository.FindByID db id = Ok cap
        /\ Type_ cap = CAPTURE /\ Status cap = COMPLETED
        /\ amount = AmountCents cap
        /\ TransactionRepository.Create db
             {| ID := newUUID env; AccountID := AccountID cap; Type_ := REFUND;
                AmountCents := amount; Currency := Currency cap;
                ReferenceID := Some id; Status := COMPLETED;
                ExpiresAt := None; CreatedAt := now env |} = Err cause
        /\ is_ErrDuplicateTransaction cause = false.
Proof.
  unfold Service.performRefund, TransactionRepository.FindByIDForUpdate. cbv zeta. split.
  - intros (e & H & Hx).
    destruct (TransactionRepository.FindByID db id) as [cap|e0] eqn:Hfind;
      [|service_error_branch H Hx].
    destruct (TransactionType_eqb (Type_ cap) CAPTURE) eqn:Hty; cbn [negb] in H;
      [|service_error_branch H Hx].
    destruct (TransactionStatus_eqb (Status cap) COMPLETED) eqn:Hst; cbn [negb] in H;
      [|service_error_branch H Hx].
    destruct (amount =? AmountCents cap) eqn:Hamt; cbn [negb] in H;
      [|service_error_branch H Hx].
    destruct (TransactionRepository.Create db _) as [db1|cause] eqn:Hcreate.
    + destruct (AccountRepository.AdjustBalances _ db1 _ _ _); service_error_branch H Hx.
    + destruct (is_ErrDuplicateTransaction cause) eqn:Hdup; [service_error_branch H Hx|].
      apply TransactionType_eqb_eq in Hty. apply TransactionStatus_eqb_eq in Hst.
      apply Z.eqb_eq in Hamt. exists cap, cause. auto 10.
  - intros (cap & cause & Hfind & Hty & Hst & Hamt & Hcreate & Hdup).
    apply TransactionType_eqb_eq in Hty. apply TransactionStatus_eqb_eq in Hst.
    apply Z.eqb_eq in Hamt.
    rewrite Hfind, Hty, Hst, Hamt. cbn [negb]. rewrite Hcreate, Hdup.
    eexists. split; [reflexivity|]. cbn [Handlers.extractServiceError].
    exact (Create_Err_no_service_error _ _ _ Hcreate).
Qed.

(** The answer of a settlement handler once the id has parsed: [Hiff]
    reduces success to the parsed id, [H500] the unclassified error. *)
Ltac settlement_answer Hsvc Hiff H500 Ok_reference handle :=
  match type of Hsvc with
  | _ = (Ok ?txn, _) =>
      unfold Handlers.child200; rewrite (Ok_reference _ Hsvc);
      eexists; split; [reflexivity|]; cbn [Handlers.StatusCode];
      split; [now left|];
      split; [split; [intros _; apply Hiff; eauto | reflexivity]|];
      split; [split; [discriminate|]|discriminate];
      let H := fresh in
      intros H; apply H500 in H; destruct H as (? & H & _); discriminate H
  | _ = (Err ?e, _) =>
      unfold handle;
      let Hx := fresh "Hx" in
      destruct (Handlers.extractServiceError e) as [[code msg]|] eqn:Hx;
      eexists; (split; [reflexivity|]); cbn [Handlers.StatusCode];
      [ split; [right; now left|];
        split; [split; [discriminate|];
                let H := fresh in
                intros H; apply Hiff in H; destruct H as [? H]; discriminate H|];
        split; [split; [discriminate|]|discriminate];
        let H := fresh in
        intros H; apply H500 in H; destruct H as (? & [= <-] & H); congruence
      | split; [right; now right|];
        split; [split; [discriminate|];
                let H := fresh in
                intros H; apply Hiff in H; destruct H as [? H]; discriminate H|];
        split; [split; [intros _; apply H500; eauto | reflexivity]|discriminate] ]
  end.

Ltac malformed_id_answer :=
  cbn [fst snd]; eexists; split; [reflexivity|]; cbn [Handlers.StatusCode];
  split; [right; now left|];
  split; [split; [discriminate|];
          let Hp := fresh in intros (? & ? & Hp & _); discriminate Hp|];
  split; [split; [discriminate|];
          let Hp := fresh in intros (? & ? & ? & Hp & _); discriminate Hp|];
  intros _; repeat split; reflexivity.

(** POST /api/v1/captures always answers, with 200, 400 or 500 and never
    with 402.  It answers 200 exactly when the id parses and the service
    succeeded.  It answers 500 exactly when the id parses, the
    transaction begins, every check of the capture passes and the insert
    of the capture row itself fails for another reason than the
    duplicate.  A malformed id is answered 400 [authorization_not_found],
    "invalid authorization ID format", without the service being called. *)
Theorem create_capture_responses (uuid_Parse : string -> option uuid)
    (uuid_String : uuid -> string) (env : Env) (db : DB) (text : string) (amount : Z) :
  exists resp,
    fst (Handlers.CreateCapture uuid_Parse uuid_String env db text amount) = Some resp
    /\ (Handlers.StatusCode resp = 200 \/ Handlers.StatusCode resp = 400
        \/ Handlers.StatusCode resp = 500)
    /\ (Handlers.StatusCode resp = 200
        <-> exists id txn,
              Handlers.parseAuthorizationID uuid_Parse text = Some id
              /\ fst (Service.Capture env db id amount) = Ok txn)
    /\ (Handlers.StatusCode resp = 500
        <-> exists id auth cause,
              Handlers.parseAuthorizationID uuid_Parse text = Some id
              /\ beginErr env = None
              /\ TransactionRepository.FindByID db id = Ok auth
              /\ Type_ auth = AUTH_HOLD /\ Status auth = ACTIVE
              /\ Service.expired env auth = false /\ amount = AmountCents auth
              /\ TransactionRepository.Create db
                   {| ID := newUUID env; AccountID := AccountID auth; Type_ := CAPTURE;
                      AmountCents := amount; Currency := Currency auth;
                      ReferenceID := Some id; Status := COMPLETED;
                      ExpiresAt := None; CreatedAt := now env |} = Err cause
              /\ is_ErrDuplicateTransaction cause = false)
    /\ (Handlers.parseAuthorizationID uuid_Parse text = None ->
        resp = Handlers.JSON400 Handlers.ErrorCodeAuthorizationNotFound
                 "invalid authorization ID format"
        /\ Handlers.StatusCode resp = 400
        /\ snd (Handlers.CreateCapture uuid_Parse uuid_String env db text amount) = db).
Proof.
  unfold Handlers.CreateCapture.
  destruct (Handlers.parseAuthorizationID uuid_Parse text) as [id|] eqn:Hparse;
    [|malformed_id_answer].
  assert (Hiff : (exists id0 txn0,
                     Some id = Some id0 /\ fst (Service.Capture env db id0 amount) = Ok txn0)
                 <-> exists txn0, fst (Service.Capture env db id amount) = Ok txn0).
  { split; [intros (i & t & [= <-] & H); eauto | intros (t & H); eauto]. }
  assert (H500 : (exists id0 auth cause,
                     Some id = Some id0
                     /\ beginErr env = None
                     /\ TransactionRepository.FindByID db id0 = Ok auth
                     /\ Type_ auth = AUTH_HOLD /\ Status auth = ACTIVE
                     /\ Service.expired env auth = false /\ amount = AmountCents auth
                     /\ TransactionRepository.Create db
                          {| ID := newUUID env; AccountID := AccountID auth;
                             Type_ := CAPTURE; AmountCents := amount;
                             Currency := Currency auth; ReferenceID := Some id0;
                             Status := COMPLETED; ExpiresAt := None;
                             CreatedAt := now env |} = Err cause
                     /\ is_ErrDuplicateTransaction cause = false)
                 <-> exists e, fst (Service.Capture env db id amount) = Err e
                               /\ Handlers.extractServiceError e = None).
  { unfold Service.Capture. rewrite inTx_unclassified, performCapture_unclassified. split.
    - intros (i & auth & cause & [= <-] & Hb & H). eauto 10.
    - intros (Hb & auth & cause & H). exists id, auth, cause. auto. }
  destruct (Service.Capture env db id amount) as [[txn|e] db'] eqn:Hsvc;
    cbn [fst snd] in *.
  - settlement_answer Hsvc Hiff H500
      (Capture_Ok_reference env db db' id amount) (@Handlers.handleCaptureError).
  - settlement_answer Hsvc Hiff H500
      (Capture_Ok_reference env db db' id amount) (@Handlers.handleCaptureError).
Qed.

(** The 500 of the capture endpoint is reached: the insert fails on the
    primary key when the drawn id is already in the ledger. *)
Example create_capture_insert_failure :
  fst (Handlers.CreateCapture (fun _ => Some 100%N) (fun _ => "x")
         (Sample.env 2000 100%N) Sample.db1 "auth_x" 10000)
  = Some (Handlers.JSON500 Handlers.ErrorCodeInternalError "internal error").
Proof. vm_compute. reflexivity. Qed.

(** POST /api/v1/voids always answers, with 200, 400 or 500 and never
    with 402.  It answers 200 exactly when the id parses and the service
    succeeded.  It answers 500 exactly when the id parses, the
    transaction begins, every check of the void passes and the insert of
    the void row itself fails for another reason than the duplicate.  A
    malformed id is answered 400 [authorization_not_found], "invalid
    authorization ID format", without the service being called. *)
Theorem create_void_responses (uuid_Parse : string -> option uuid)
    (uuid_String : uuid -> string) (env : Env) (db : DB) (text : string) :
  exists resp,
    fst (Handlers.CreateVoid uuid_Parse uuid_String env db text) = Some resp
    /\ (Handlers.StatusCode resp = 200 \/ Handlers.StatusCode resp = 400
        \/ Handlers.StatusCode resp = 500)
    /\ (Handlers.StatusCode resp = 200
        <-> exists id txn,
              Handlers.parseAuthorizationID uuid_Parse text = Some id
              /\ fst (Service.Void env db id) = Ok txn)
    /\ (Handlers.StatusCode resp = 500
        <-> exists id auth cause,
              Handlers.parseAuthorizationID uuid_Parse text = Some id
              /\ beginErr env = None
              /\ TransactionRepository.FindByID db id = Ok auth
              /\ Type_ auth = AUTH_HOLD /\ Status auth = ACTIVE
              /\ TransactionRepository.FindByReferenceID db id CAPTURE = Ok None
              /\ TransactionRepository.Create db
                   {| ID := newUUID env; AccountID := AccountID auth; Type_ := VOID;
                      AmountCents := AmountCents auth; Currency := Currency auth;
                      ReferenceID := Some id; Status := COMPLETED;
                      ExpiresAt := None; CreatedAt := now env |} = Err cause
              /\ is_ErrDuplicateTransaction cause = false)
    /\ (Handlers.parseAuthorizationID uuid_Parse text = None ->
        resp = Handlers.JSON400 Handlers.ErrorCodeAuthorizationNotFound
                 "invalid authorization ID format"
        /\ Handlers.StatusCode resp = 400
        /\ snd (Handlers.CreateVoid uuid_Parse uuid_String env db text) = db).
Proof.
  unfold Handlers.CreateVoid.
  destruct (Handlers.parseAuthorizationID uuid_Parse text) as [id|] eqn:Hparse;
    [|malformed_id_answer].
  assert (Hiff : (exists id0 txn0,
                     Some id = Some id0 /\ fst (Service.Void env db id0) = Ok txn0)
                 <-> exists txn0, fst (Service.Void env db id) = Ok txn0).
  { split; [intros (i & t & [= <-] & H); eauto | intros (t & H); eauto]. }
  assert (H500 : (exists id0 auth cause,
                     Some id = Some id0
                     /\ beginErr env = None
                     /\ TransactionRepository.FindByID db id0 = Ok auth
                     /\ Type_ auth = AUTH_HOLD /\ Status auth = ACTIVE
                     /\ TransactionRepository.FindByReferenceID db id0 CAPTURE = Ok None
                     /\ TransactionRepository.Create db
                          {| ID := newUUID env; AccountID := AccountID auth;
                             Type_ := VOID; AmountCents := AmountCents auth;
                             Currency := Currency auth; ReferenceID := Some id0;
                             Status := COMPLETED; ExpiresAt := None;
                             CreatedAt := now env |} = Err cause
                     /\ is_ErrDuplicateTransaction cause = false)
                 <-> exists e, fst (Service.Void env db id) = Err e
                               /\ Handlers.extractServiceError e = None).
  { unfold Service.Void. rewrite inTx_unclassified, performVoid_unclassified. split.
    - intros (i & auth & cause & [= <-] & Hb & H). eauto 10.
    - intros (Hb & auth & cause & H). exists id, auth, cause. auto. }
  destruct (Service.Void env db id) as [[txn|e] db'] eqn:Hsvc; cbn [fst snd] in *.
  - settlement_answer Hsvc Hiff H500
      (Void_Ok_reference env db db' id) (@Handlers.handleVoidError).
  - settlement_answer Hsvc Hiff H500
      (Void_Ok_reference env db db' id) (@Handlers.handleVoidError).
Qed.

(** POST /api/v1/refunds always answers, with 200, 400 or 500 and never
    with 402.  It answers 200 exactly when the id parses and the service
    succeeded.  It answers 500 exactly when the id parses, the
    transaction begins, every check of the refund passes and the insert
    of the refund row itself fails for another reason than the duplicate.
    A malformed capture id is answered 400 [capture_not_found], "invalid
    capture ID format", without the service being called. *)
Theorem create_refund_responses (uuid_Parse : string -> option uuid)
    (uuid_String : uuid -> string) (env : Env) (db : DB) (text : string) (amount : Z) :
  exists resp,
    fst (Handlers.CreateRefund uuid_Parse uuid_String env db text amount) = Some resp
    /\ (Handlers.StatusCode resp = 200 \/ Handlers.StatusCode resp = 400
        \/ Handlers.StatusCode resp = 500)
    /\ (Handlers.StatusCode resp = 200
        <-> exists id txn,
              Handlers.parseCaptureID uuid_Parse text = Some id
              /\ fst (Service.Refund env db id amount) = Ok txn)
    /\ (Handlers.StatusCode resp = 500
        <-> exists id cap cause,
              Handlers.parseCaptureID uuid_Parse text = Some id
              /\ beginErr env = None
              /\ TransactionRepository.FindByID db id = Ok cap
              /\ Type_ cap = CAPTURE /\ Status cap = COMPLETED
              /\ amount = AmountCents cap
              /\ TransactionRepository.Create db
                   {| ID := newUUID env; AccountID := AccountID cap; Type_ := REFUND;
                      AmountCents := amount; Currency := Currency cap;
                      ReferenceID := Some id; Status := COMPLETED;
                      ExpiresAt := None; CreatedAt := now env |} = Err cause
              /\ is_ErrDuplicateTransaction cause = false)
    /\ (Handlers.parseCaptureID uuid_Parse text = None ->
        resp = Handlers.JSON400 Handlers.ErrorCodeCaptureNotFound
                 "invalid capture ID format"
        /\ Handlers.StatusCode resp = 400
        /\ snd (Handlers.CreateRefund uuid_Parse uuid_String env db text amount) = db).
Proof.
  unfold Handlers.CreateRefund.
  destruct (Handlers.parseCaptureID uuid_Parse text) as [id|] eqn:Hparse;
    [|malformed_id_answer].
  assert (Hiff : (exists id0 txn0,
                     Some id = Some id0 /\ fst (Service.Refund env db id0 amount) = Ok txn0)
                 <-> exists txn0, fst (Service.Refund env db id amount) = Ok txn0).
  { split; [intros (i & t & [= <-] & H); eauto | intros (t & H); eauto]. }
  assert (H500 : (exists id0 cap cause,
                     Some id = Some id0
                     /\ beginErr env = None
                     /\ TransactionRepository.FindByID db id0 = Ok cap
                     /\ Type_ cap = CAPTURE /\ Status cap = COMPLETED
                     /\ amount = AmountCents cap
                     /\ TransactionRepository.Create db
                          {| ID := newUUID env; AccountID := AccountID cap;
                             Type_ := REFUND; AmountCents := amount;
                             Currency := Currency cap; ReferenceID := Some id0;
                             Status := COMPLETED; ExpiresAt := None;
                             CreatedAt := now env |} = Err cause
                     /\ is_ErrDuplicateTransaction cause = false)
                 <-> exists e, fst (Service.Refund env db id amount) = Err e
                               /\ Handlers.extractServiceError e = None).
  { unfold Service.Refund. rewrite inTx_unclassified, performRefund_unclassified. split.
    - intros (i & cap & cause & [= <-] & Hb & H). eauto 10.
    - intros (Hb & cap & cause & H). exists id, cap, cause. auto. }
  destruct (Service.Refund env db id amount) as [[txn|e] db'] eqn:Hsvc;
    cbn [fst snd] in *.
  - settlement_answer Hsvc Hiff H500
      (Refund_Ok_reference env db db' id amount) (@Handlers.handleRefundError).
  - settlement_answer Hsvc Hiff H500
      (Refund_Ok_reference env db db' id amount) (@Handlers.handleRefundError).
Qed.

(** ** The shape of the ledger over a history *)

Lemma ID_injective (rows : list Transaction) (a b : Transaction) :
  List.NoDup (map ID rows) -> In a rows -> In b rows -> ID a = ID b -> a = b.
Proof.
  induction rows as [|c rows IH]; cbn [map]; intros Hnd Ha Hb Hid; [contradiction|].
  apply List.NoDup_cons_iff in Hnd as [Hnotin Hnd].
  destruct Ha as [-> | Ha], Hb as [-> | Hb]; auto.
  - exfalso. apply Hnotin. rewrite Hid. now apply in_map.
  - exfalso. apply Hnotin. rewrite <- Hid. now apply in_map.
Qed.

Lemma map_ID_set_status (id : uuid) (st : TransactionStatus) (rows : list Transaction) :
  map ID (TransactionRepository.set_status id st rows) = map ID rows.
Proof.
  unfold TransactionRepository.set_status. rewrite map_map. apply map_ext.
  intros t. now destruct (N.eqb (ID t) id).
Qed.

(** The table after [UpdateStatus]: the updated row, and every other row
    as it was. *)
Lemma set_status_rows (rows : list Transaction) (auth : Transaction) (st : TransactionStatus) :
  List.NoDup (map ID rows) -> In auth rows ->
  forall t,
    In t (TransactionRepository.set_status (ID auth) st rows)
    <-> t = TransactionRepository.with_status st auth \/ (In t rows /\ ID t <> ID auth).
Proof.
  intros Hnd Hauth t. unfold TransactionRepository.set_status. rewrite in_map_iff. split.
  - intros (r & <- & Hin). destruct (N.eqb_spec (ID r) (ID auth)) as [Heq | Hne].
    + left. now rewrite (ID_injective rows r auth Hnd Hin Hauth Heq).
    + right. auto.
  - intros [-> | [Hin Hne]].
    + exists auth. now rewrite N.eqb_refl.
    + exists t. split; [|exact Hin]. now destruct (N.eqb_spec (ID t) (ID auth)).
Qed.

Lemma reference_resolves_mono (rows rows' : list Transaction) (t : Transaction) :
  (forall r, In r rows -> In r rows') ->
  reference_resolves rows t -> reference_resolves rows' t.
Proof.
  intros Hsub. unfold reference_resolves.
  destruct (Type_ t); auto.
  - intros (a & Hin & H). exists a. split; [auto | exact H].
  - intros (a & Hin & H). exists a. split; [auto | exact H].
  - intros (a & Hin & H). exists a. split; [auto | exact H].
Qed.

Lemma settles_not_hold (t : Transaction) : settles t -> Type_ t <> AUTH_HOLD.
Proof. intros [H | H]; rewrite H; discriminate. Qed.

Lemma settles_not_refund (t : Transaction) : settles t -> Type_ t <> REFUND.
Proof. intros [H | H]; rewrite H; discriminate. Qed.

Lemma settles_resolves (rows : list Transaction) (t : Transaction) :
  settles t -> reference_resolves rows t ->
  exists auth,
    In auth rows /\ ReferenceID t = Some (ID auth) /\ Type_ auth = AUTH_HOLD
    /\ Status auth = COMPLETED.
Proof.
  unfold reference_resolves.
  intros [H | H]; rewrite H; intros (a & Hin & Href & Hty & Hst & _); eauto.
Qed.

Lemma shape_hold (rows : list Transaction) (tx : Transaction) :
  ledger_shape rows ->
  (forall r, In r rows -> ID r <> ID tx) ->
  Type_ tx = AUTH_HOLD -> Status tx = ACTIVE ->
  ReferenceID tx = None -> ExpiresAt tx <> None ->
  ledger_shape (tx :: rows).
Proof.
  intros [Hnd Href Hsettle Hrefund Hdone] Hfresh Hty Hst Hnone Hexp.
  constructor.
  - cbn [map]. apply List.NoDup_cons; [|exact Hnd].
    intros Hin. apply in_map_iff in Hin as (r & Hid & Hin). exact (Hfresh r Hin Hid).
  - constructor.
    + unfold reference_resolves. rewrite Hty. auto.
    + eapply List.Forall_impl; [|exact Href].
      intros t. apply reference_resolves_mono. intros r; cbn; auto.
  - intros t r [<- | Ht] [<- | Hr] St Sr Heq; auto.
    + now apply settles_not_hold in St.
    + now apply settles_not_hold in Sr.
  - intros t r [<- | Ht] [<- | Hr] Tt Tr Heq; auto; congruence.
  - intros a [<- | Ha] Ta Sa; [congruence|].
    destruct (Hdone a Ha Ta Sa) as (t & Hin & Hs & Hr). exists t. cbn. auto.
Qed.

Lemma shape_settle (rows : list Transaction) (tx auth : Transaction) :
  ledger_shape rows ->
  (forall r, In r rows -> ID r <> ID tx) ->
  settles tx ->
  In auth rows -> Type_ auth = AUTH_HOLD -> Status auth = ACTIVE ->
  ReferenceID tx = Some (ID auth) ->
  AccountID tx = AccountID auth -> AmountCents tx = AmountCents auth ->
  ledger_shape (tx :: TransactionRepository.set_status (ID auth) COMPLETED rows).
Proof.
  intros [Hnd Href Hsettle Hrefund Hdone] Hfresh Stx Hauth Tauth Sauth Hreftx Hacc Hamt.
  pose proof (set_status_rows rows auth COMPLETED Hnd Hauth) as Hrows.
  rewrite List.Forall_forall in Href.
  set (auth' := TransactionRepository.with_status COMPLETED auth) in *.
  assert (Hauth' : In auth' (TransactionRepository.set_status (ID auth) COMPLETED rows))
    by (apply Hrows; now left).
  (* a row that is not the hold stays in the table *)
  assert (Hkeep : forall r, In r rows -> Type_ r <> AUTH_HOLD \/ Status r = COMPLETED ->
                            In r (TransactionRepository.set_status (ID auth) COMPLETED rows)).
  { intros r Hin Hr. apply Hrows. right. split; [exact Hin|]. intros Hid.
    rewrite (ID_injective rows r auth Hnd Hin Hauth Hid) in Hr.
    destruct Hr as [Hr | Hr]; congruence. }
  (* no row of the table settles the hold yet *)
  assert (Hfree : forall r, In r rows -> settles r -> ReferenceID r <> Some (ID auth)).
  { intros r Hin Sr Heq.
    destruct (settles_resolves rows r Sr (Href r Hin)) as (a & Ha & Hra & _ & Hsa).
    assert (ID a = ID auth) as Hid by congruence.
    rewrite (ID_injective rows a auth Hnd Ha Hauth Hid) in Hsa. congruence. }
  (* a row of the new table that is not a hold is a row of the old one *)
  assert (Hold : forall r, In r (TransactionRepository.set_status (ID auth) COMPLETED rows) ->
                           Type_ r <> AUTH_HOLD -> In r rows).
  { intros r Hin Hr. apply Hrows in Hin as [-> | [Hin _]]; [|exact Hin].
    now cbn in Hr. }
  constructor.
  - cbn [map]. rewrite map_ID_set_status. apply List.NoDup_cons; [|exact Hnd].
    intros Hin. apply in_map_iff in Hin as (r & Hid & Hin). exact (Hfresh r Hin Hid).
  - constructor.
    + unfold reference_resolves.
      destruct Stx as [Htx | Htx]; rewrite Htx;
        (exists auth'; cbn; repeat split; auto; now right).
    + apply List.Forall_forall. intros t Hin.
      apply Hrows in Hin as [-> | [Hin Hne]].
      * pose proof (Href auth Hauth) as Hr. unfold reference_resolves in *.
        cbn [Type_ TransactionRepository.with_status auth' ReferenceID ExpiresAt Status].
        rewrite Tauth in *. destruct Hr as (Hn & He & _). auto.
      * pose proof (Href t Hin) as Hr. unfold reference_resolves in *.
        destruct (Type_ t); auto.
        -- destruct Hr as (a & Ha & H & Hty & Hst & Hrest). exists a.
           split; [right; apply Hkeep; auto | auto].
        -- destruct Hr as (a & Ha & H & Hty & Hst & Hrest). exists a.
           split; [right; apply Hkeep; auto | auto].
        -- destruct Hr as (a & Ha & H & Hty & Hrest). exists a.
           split; [right; apply Hkeep; auto; left; congruence | auto].
  - intros t r [<- | Ht] [<- | Hr] St Sr Heq; auto.
    + exfalso. apply (Hfree r); auto using settles_not_hold. congruence.
    + exfalso. apply (Hfree t); auto using settles_not_hold. congruence.
    + apply Hsettle; auto using settles_not_hold.
  - intros t r [<- | Ht] [<- | Hr] Tt Tr Heq; auto.
    + now apply settles_not_refund in Stx.
    + now apply settles_not_refund in Stx.
    + apply Hrefund; auto; apply Hold; auto; congruence.
  - intros a [<- | Ha] Ta Sa.
    { now apply settles_not_hold in Stx. }
    apply Hrows in Ha as [-> | [Ha Hne]].
    + exists tx. cbn. auto.
    + destruct (Hdone a Ha Ta Sa) as (t & Hin & Hs & Hr). exists t.
      split; [right; apply Hkeep; auto; left; now apply settles_not_hold | auto].
Qed.

Lemma shape_refund (rows : list Transaction) (tx cap : Transaction) :
  ledger_shape rows ->
  (forall r, In r rows -> ID r <> ID tx) ->
  Type_ tx = REFUND ->
  In cap rows -> Type_ cap = CAPTURE ->
  ReferenceID tx = Some (ID cap) ->
  AccountID cap = AccountID tx -> AmountCents cap = AmountCents tx ->
  ~ (exists r, In r rows /\ ReferenceID r = ReferenceID tx /\ Type_ r = Type_ tx) ->
  ledger_shape (tx :: rows).
Proof.
  intros [Hnd Href Hsettle Hrefund Hdone] Hfresh Ttx Hcap Tcap Hreftx Hacc Hamt Hnone.
  constructor.
  - cbn [map]. apply List.NoDup_cons; [|exact Hnd].
    intros Hin. apply in_map_iff in Hin as (r & Hid & Hin). exact (Hfresh r Hin Hid).
  - constructor.
    + unfold reference_resolves. rewrite Ttx. exists cap. cbn. auto 7.
    + eapply List.Forall_impl; [|exact Href].
      intros t. apply reference_resolves_mono. intros r; cbn; auto.
  - intros t r [<- | Ht] [<- | Hr] St Sr Heq; auto.
    + apply settles_not_refund in St. contradiction.
    + apply settles_not_refund in Sr. contradiction.
  - intros t r [<- | Ht] [<- | Hr] Tt Tr Heq; auto.
    + exfalso. apply Hnone. exists r. repeat split; auto; congruence.
    + exfalso. apply Hnone. exists t. repeat split; auto; congruence.
  - intros a [<- | Ha] Ta Sa; [congruence|].
    destruct (Hdone a Ha Ta Sa) as (t & Hin & Hs & Hr). exists t. cbn. auto.
Qed.

Lemma Create_no_conflict (db db' : DB) (t : Transaction) :
  TransactionRepository.Create db t = Ok db' ->
  TransactionRepository.indexed t = true ->
  ~ (exists r, In r (transactions db) /\ ReferenceID r = ReferenceID t /\ Type_ r = Type_ t).
Proof.
  unfold TransactionRepository.Create. intros H Hidx Hex.
  apply (conflict_exists _ _ Hidx) in Hex. rewrite Hidx, Hex in H.
  destruct (existsb _ _); discriminate H.
Qed.

Lemma exec_Err (s : Service.AuthorizationService) (env : Env) (op : Op) (db db' : DB)
    (e : error) :
  exec s env op db = (Err e, db') -> db' = db.
Proof.
  destruct op; cbn [exec]; intros Hexec.
  - unfold Service.Authorize in Hexec.
    destruct (Service.validateAuthorizationRequest _ _ _).
    + now injection Hexec.
    + now apply inTx_Err in Hexec.
  - now apply inTx_Err in Hexec.
  - now apply inTx_Err in Hexec.
  - now apply inTx_Err in Hexec.
Qed.

Lemma exec_shape (s : Service.AuthorizationService) (env : Env) (op : Op) (db : DB) :
  ledger_shape (transactions db) -> ledger_shape (transactions (snd (exec s env op db))).
Proof.
  intros Hshape.
  destruct (exec s env op db) as [[tx|e] db'] eqn:Hexec; cbn [snd].
  2:{ now rewrite (exec_Err _ _ _ _ _ _ Hexec). }
  destruct op; cbn [exec] in Hexec.
  - apply Authorize_Ok in Hexec as [_ Hperf].
    destruct (performAuthorization_created _ _ _ _ _ _ _ _ Hperf) as [db1 Hcreate].
    pose proof (Create_fresh _ _ _ Hcreate) as Hfresh.
    apply performAuthorization_Ok in Hperf as (account & _ & _ & _ & Htx & -> & _).
    cbn [transactions]. apply shape_hold; auto; subst tx; cbn; auto; discriminate.
  - apply inTx_Ok in Hexec as (_ & _ & Hperf).
    destruct (performCapture_created _ _ _ _ _ _ Hperf) as [db1 Hcreate].
    pose proof (Create_fresh _ _ _ Hcreate) as Hfresh.
    apply performCapture_Ok in Hperf
      as (auth & Hfind & Htype & Hstatus & _ & Hamt & Htx & -> & _).
    apply Tx_FindByID_Ok in Hfind as [Hin <-].
    cbn [transactions]. apply shape_settle; auto; subst tx; cbn; auto.
    left; reflexivity.
  - apply inTx_Ok in Hexec as (_ & _ & Hperf).
    destruct (performVoid_created _ _ _ _ _ Hperf) as [db1 Hcreate].
    pose proof (Create_fresh _ _ _ Hcreate) as Hfresh.
    apply performVoid_Ok in Hperf as (auth & Hfind & Htype & Hstatus & Htx & -> & _).
    apply Tx_FindByID_Ok in Hfind as [Hin <-].
    cbn [transactions]. apply shape_settle; auto; subst tx; cbn; auto.
    right; reflexivity.
  - apply inTx_Ok in Hexec as (_ & _ & Hperf).
    destruct (performRefund_created _ _ _ _ _ _ Hperf) as [db1 Hcreate].
    pose proof (Create_fresh _ _ _ Hcreate) as Hfresh.
    pose proof (Create_no_conflict _ _ _ Hcreate) as Hnone.
    apply performRefund_Ok in Hperf as (cap & Hfind & Htype & Hstatus & Hamt & Htx & -> & _).
    apply Tx_FindByID_Ok in Hfind as [Hin <-].
    cbn [transactions]. apply (shape_refund _ _ cap); auto; subst tx; cbn; auto.
Qed.

(** From an empty ledger, after any history of requests, accepted or
    refused: the ids of the rows are distinct; every hold refers to
    nothing and carries an expiry; every capture and void refers to a
    COMPLETED hold of its own account and amount, and every refund to a
    capture of its own account and amount; no hold is settled twice
    (captured twice, voided twice, or captured and voided) and no capture
    refunded twice; and every COMPLETED hold has the capture or void that
    completed it. *)
Theorem ledger_keeps_its_shape (s : Service.AuthorizationService)
    (history : list (Env * Op)) (db0 : DB) :
  transactions db0 = [] ->
  ledger_shape (transactions (run s history db0)).
Proof.
  intros Hempty.
  assert (Hshape : ledger_shape (transactions db0)).
  { rewrite Hempty. constructor; cbn; try contradiction; constructor. }
  clear Hempty. revert db0 Hshape.
  induction history as [|[env op] rest IH]; intros db Hshape; cbn [run]; [exact Hshape|].
  apply IH. now apply exec_shape.
Qed.

Lemma ledger_keeps_its_shape_witness :
  transactions Sample.db0 = []
  /\ ledger_shape (transactions (run Sample.svc sample_history Sample.db0)).
Proof.
  split; [reflexivity|].
  apply (ledger_keeps_its_shape Sample.svc sample_history Sample.db0). reflexivity.
Defined.

(** The sample history commits five of its six requests. *)
Example sample_history_rows :
  map (fun t => (ID t, Type_ t, Status t))
      (transactions (run Sample.svc sample_history Sample.db0))
  = [ (104%N, VOID, COMPLETED); (103%N, AUTH_HOLD, COMPLETED);
      (102%N, REFUND, COMPLETED); (101%N, CAPTURE, COMPLETED);
      (100%N, AUTH_HOLD, COMPLETED) ].
Proof. vm_compute. reflexivity. Qed.

(** ** GET handlers *)

Lemma GetAuthorization_Ok_iff (db : DB) (id : uuid) :
  (exists txn, Service.GetAuthorization db id = Ok txn)
  <-> exists txn, TransactionRepository.FindByID db id = Ok txn /\ Type_ txn = AUTH_HOLD.
Proof.
  unfold Service.GetAuthorization.
  destruct (TransactionRepository.FindByID db id) as [txn|e].
  - destruct (TransactionType_eqb (Type_ txn) AUTH_HOLD) eqn:Hty; cbn [negb].
    + apply TransactionType_eqb_eq in Hty. split; eauto.
    + apply TransactionType_eqb_neq in Hty.
      split; [intros [t H]; discriminate H | intros (t & [= <-] & H); contradiction].
  - split; [intros [t H]; discriminate H | intros (t & H & _); discriminate H].
Qed.

Lemma GetCapture_Ok_iff (db : DB) (id : uuid) (txn : Transaction) :
  Service.GetCapture db id = Ok txn
  <-> TransactionRepository.FindByID db id = Ok txn /\ Type_ txn = CAPTURE.
Proof.
  unfold Service.GetCapture.
  destruct (TransactionRepository.FindByID db id) as [t|e].
  - destruct (TransactionType_eqb (Type_ t) CAPTURE) eqn:Hty; cbn [negb].
    + apply TransactionType_eqb_eq in Hty.
      split; [intros [= <-]; auto | intros ([= <-] & _); reflexivity].
    + apply TransactionType_eqb_neq in Hty.
      split; [discriminate | intros ([= <-] & H); contradiction].
  - split; [discriminate | intros (H & _); discriminate H].
Qed.

Lemma GetRefund_Ok_iff (db : DB) (id : uuid) (txn : Transaction) :
  Service.GetRefund db id = Ok txn
  <-> TransactionRepository.FindByID db id = Ok txn /\ Type_ txn = REFUND.
Proof.
  unfold Service.GetRefund.
  destruct (TransactionRepository.FindByID db id) as [t|e].
  - destruct (TransactionType_eqb (Type_ t) REFUND) eqn:Hty; cbn [negb].
    + apply TransactionType_eqb_eq in Hty.
      split; [intros [= <-]; auto | intros ([= <-] & _); reflexivity].
    + apply TransactionType_eqb_neq in Hty.
      split; [discriminate | intros ([= <-] & H); contradiction].
  - split; [discriminate | intros (H & _); discriminate H].
Qed.

(** GET /api/v1/authorizations/{id} answers 200 or 404 and nothing else:
    200 exactly when the id carries the [auth_] prefix, parses, and names
    a row of type AUTH_HOLD; every other case (malformed id, no such row,
    a row of another type) is the same 404 with the code [not_found], the
    service's own code being dropped. *)
Theorem get_authorization_responses (uuid_Parse : string -> option uuid)
    (uuid_String : uuid -> string) (db : DB) (text : string) :
  (Handlers.StatusCode (GetHandlers.GetAuthorization uuid_Parse uuid_String db text) = 200
   \/ GetHandlers.GetAuthorization uuid_Parse uuid_String db text
      = Handlers.JSON404 Handlers.ErrorCodeNotFound "authorization not found")
  /\ (Handlers.StatusCode (GetHandlers.GetAuthorization uuid_Parse uuid_String db text) = 200
      <-> exists id txn,
            Handlers.parseAuthorizationID uuid_Parse text = Some id
            /\ TransactionRepository.FindByID db id = Ok txn
            /\ Type_ txn = AUTH_HOLD).
Proof.
  unfold GetHandlers.GetAuthorization.
  destruct (Handlers.parseAuthorizationID uuid_Parse text) as [id|] eqn:Hparse.
  - pose proof (GetAuthorization_Ok_iff db id) as Hiff.
    destruct (Service.GetAuthorization db id) as [txn|e]; cbn [Handlers.StatusCode].
    + split; [now left|]. split; [intros _ | reflexivity].
      destruct (proj1 Hiff) as (t & Hf & Hty); eauto.
    + split; [now right|]. split; [discriminate|].
      intros (i & t & [= <-] & Hf & Hty).
      destruct (proj2 Hiff) as [t' H]; eauto. discriminate H.
  - cbn [Handlers.StatusCode]. split; [now right|]. split; [discriminate|].
    intros (i & t & H & _). discriminate H.
Qed.

Lemma shape_reference (rows : list Transaction) (t : Transaction) :
  ledger_shape rows -> In t rows -> Type_ t <> AUTH_HOLD ->
  exists ref, ReferenceID t = Some ref.
Proof.
  intros Hshape Hin Hty. pose proof (references rows Hshape) as Href.
  rewrite List.Forall_forall in Href. specialize (Href t Hin).
  unfold reference_resolves in Href. destruct (Type_ t); [contradiction| | |].
  - destruct Href as (a & _ & H & _). eauto.
  - destruct Href as (a & _ & H & _). eauto.
  - destruct Href as (a & _ & H & _). eauto.
Qed.

(** On the ledger of any history that starts from an empty one, GET
    /api/v1/captures/{id} and GET /api/v1/refunds/{id} always answer (the
    reference they dereference is never nil), with 200 or 404: 200
    exactly when the id carries its prefix, parses, and names a row of
    the endpoint's own type. *)
Theorem get_capture_and_refund_responses (uuid_Parse : string -> option uuid)
    (uuid_String : uuid -> string) (s : Service.AuthorizationService)
    (history : list (Env * Op)) (db0 : DB) (text : string) :
  transactions db0 = [] ->
  (exists resp,
      GetHandlers.GetCapture uuid_Parse uuid_String (run s history db0) text = Some resp
      /\ (Handlers.StatusCode resp = 200
          \/ resp = Handlers.JSON404 Handlers.ErrorCodeNotFound "capture not found")
      /\ (Handlers.StatusCode resp = 200
          <-> exists id txn,
                Handlers.parseCaptureID uuid_Parse text = Some id
                /\ TransactionRepository.FindByID (run s history db0) id = Ok txn
                /\ Type_ txn = CAPTURE))
  /\ (exists resp,
         GetHandlers.GetRefund uuid_Parse uuid_String (run s history db0) text = Some resp
         /\ (Handlers.StatusCode resp = 200
             \/ resp = Handlers.JSON404 Handlers.ErrorCodeNotFound "refund not found")
         /\ (Handlers.StatusCode resp = 200
             <-> exists id txn,
                   Handlers.parseRefundID uuid_Parse text = Some id
                   /\ TransactionRepository.FindByID (run s history db0) id = Ok txn
                   /\ Type_ txn = REFUND)).
Proof.
  intros Hempty.
  assert (Hshape : ledger_shape (transactions (run s history db0))).
  { clear text. assert (H0 : ledger_shape (transactions db0)).
    { rewrite Hempty. constructor; cbn; try contradiction; constructor. }
    clear Hempty. revert db0 H0.
    induction history as [|[env op] rest IH]; intros db H0; cbn [run]; [exact H0|].
    apply IH. now apply exec_shape. }
  clear Hempty. generalize dependent (run s history db0). intros db Hshape.
  split.
  - unfold GetHandlers.GetCapture.
    destruct (Handlers.parseCaptureID uuid_Parse text) as [id|] eqn:Hparse.
    + destruct (Service.GetCapture db id) as [txn|e] eqn:Hget.
      * apply GetCapture_Ok_iff in Hget as [Hfind Hty].
        pose proof (Tx_FindByID_Ok _ _ _ Hfind) as [Hin _].
        destruct (shape_reference _ txn Hshape Hin) as [ref Href]; [congruence|].
        unfold Handlers.child200. rewrite Href.
        eexists. split; [reflexivity|]. cbn [Handlers.StatusCode].
        split; [now left|]. split; eauto.
      * eexists. split; [reflexivity|]. cbn [Handlers.StatusCode].
        split; [now right|]. split; [discriminate|].
        intros (i & t & [= <-] & Hf & Hty).
        assert (H : Service.GetCapture db id = Ok t) by (apply GetCapture_Ok_iff; auto).
        congruence.
    + eexists. split; [reflexivity|]. cbn [Handlers.StatusCode].
      split; [now right|]. split; [discriminate|].
      intros (i & t & H & _). discriminate H.
  - unfold GetHandlers.GetRefund.
    destruct (Handlers.parseRefundID uuid_Parse text) as [id|] eqn:Hparse.
    + destruct (Service.GetRefund db id) as [txn|e] eqn:Hget.
      * apply GetRefund_Ok_iff in Hget as [Hfind Hty].
        pose proof (Tx_FindByID_Ok _ _ _ Hfind) as [Hin _].
        destruct (shape_reference _ txn Hshape Hin) as [ref Href]; [congruence|].
        unfold Handlers.child200. rewrite Href.
        eexists. split; [reflexivity|]. cbn [Handlers.StatusCode].
        split; [now left|]. split; eauto.
      * eexists. split; [reflexivity|]. cbn [Handlers.StatusCode].
        split; [now right|]. split; [discriminate|].
        intros (i & t & [= <-] & Hf & Hty).
        assert (H : Service.GetRefund db id = Ok t) by (apply GetRefund_Ok_iff; auto).
        congruence.
    + eexists. split; [reflexivity|]. cbn [Handlers.StatusCode].
      split; [now right|]. split; [discriminate|].
      intros (i & t & H & _). discriminate H.
Qed.

Lemma get_capture_and_refund_responses_witness :
  transactions Sample.db0 = []
  /\ exists resp,
       GetHandlers.GetCapture (fun _ => Some 101%N) (fun _ => "x")
         (run Sample.svc sample_history Sample.db0) "cap_x" = Some resp.
Proof.
  split; [reflexivity|].
  destruct (get_capture_and_refund_responses (fun _ => Some 101%N) (fun _ => "x")
              Sample.svc sample_history Sample.db0 "cap_x" eq_refl)
    as [(resp & Hresp & _) _].
  exists resp. exact Hresp.
Defined.

(** Outside such a ledger the dereference can fail: a CAPTURE row
    without a reference makes the handler panic. *)
Example GetCapture_nil_reference :
  GetHandlers.GetCapture (fun _ => Some 7%N) (fun _ => "x")
    {| accounts := [Sample.A];
       transactions :=
         [ {| ID := 7%N; AccountID := 1%N; Type_ := CAPTURE; AmountCents := 100;
              Currency := "USD"; ReferenceID := None; Status := COMPLETED;
              ExpiresAt := None; CreatedAt := 0 |} ] |}
    "cap_x"
  = None.
Proof. reflexivity. Qed.

(** ** No account is overdrawn *)

Lemma map_AccID_adjust_rows (at_ : Time) (id : uuid) (dB dA : Z) (rows : list Account) :
  map AccID (AccountRepository.adjust_rows at_ id dB dA rows) = map AccID rows.
Proof.
  unfold AccountRepository.adjust_rows. rewrite map_map. apply map_ext.
  intros a. now destruct (N.eqb (AccID a) id).
Qed.

Lemma adjust_rows_nonneg_one (at_ : Time) (acct : Account) (dB dA : Z) (rows : list Account) :
  List.NoDup (map AccID rows) -> In acct rows ->
  Forall (fun a => 0 <= AvailableBalanceCents a) rows ->
  0 <= AvailableBalanceCents acct + dA ->
  Forall (fun a => 0 <= AvailableBalanceCents a)
         (AccountRepository.adjust_rows at_ (AccID acct) dB dA rows).
Proof.
  intros Hnd Hacct Hnn Hsum. unfold AccountRepository.adjust_rows.
  apply List.Forall_forall. intros a' Hin.
  apply in_map_iff in Hin as (a & <- & Hin).
  rewrite List.Forall_forall in Hnn.
  destruct (N.eqb_spec (AccID a) (AccID acct)) as [Heq | _]; [|auto].
  rewrite (primary_key_unique rows a acct Hnd Hin Hacct Heq). exact Hsum.
Qed.

Lemma adjust_rows_nonneg_up (at_ : Time) (id : uuid) (dB dA : Z) (rows : list Account) :
  0 <= dA ->
  Forall (fun a => 0 <= AvailableBalanceCents a) rows ->
  Forall (fun a => 0 <= AvailableBalanceCents a)
         (AccountRepository.adjust_rows at_ id dB dA rows).
Proof.
  intros HdA Hnn. unfold AccountRepository.adjust_rows.
  apply List.Forall_forall. intros a' Hin.
  apply in_map_iff in Hin as (a & <- & Hin).
  rewrite List.Forall_forall in Hnn. specialize (Hnn a Hin).
  destruct (N.eqb (AccID a) id); cbn; lia.
Qed.

Lemma rows_positive_In (db : DB) (t : Transaction) :
  rows_positive db -> In t (transactions db) -> 0 < AmountCents t <= Int64.max_signed.
Proof. unfold rows_positive. rewrite List.Forall_forall. auto. Qed.

Lemma rows_positive_holds (db : DB) : rows_positive db -> holds_positive db.
Proof.
  unfold rows_positive, holds_positive. apply List.Forall_impl. auto.
Qed.

Lemma exec_solvent (s : Service.AuthorizationService) (env : Env) (op : Op) (db : DB) :
  accounts_typed db -> rows_positive db -> holds_covered db ->
  List.NoDup (map AccID (accounts db)) -> available_nonneg db ->
  accounts_typed (snd (exec s env op db))
  /\ rows_positive (snd (exec s env op db))
  /\ holds_covered (snd (exec s env op db))
  /\ List.NoDup (map AccID (accounts (snd (exec s env op db))))
  /\ available_nonneg (snd (exec s env op db)).
Proof.
  intros Htyped Hrows Hcov Hnd Hnn.
  pose proof (rows_positive_holds _ Hrows) as Hpos.
  assert (Hbase : accounts_typed (snd (exec s env op db))
                  /\ holds_covered (snd (exec s env op db))).
  { destruct (exec_effect s env op db Htyped Hpos) as [-> | Heff]; [auto|].
    split; eauto using effect_typed, effect_holds_covered. }
  destruct Hbase as [Htyped' Hcov'].
  enough (Hrest : rows_positive (snd (exec s env op db))
                  /\ List.NoDup (map AccID (accounts (snd (exec s env op db))))
                  /\ available_nonneg (snd (exec s env op db)))
    by (destruct Hrest as (? & ? & ?); auto).
  clear Htyped' Hcov' Hcov.
  destruct (exec s env op db) as [[tx|e] db'] eqn:Hexec; cbn [snd].
  2:{ rewrite (exec_Err _ _ _ _ _ _ Hexec). auto. }
  unfold rows_positive, available_nonneg in *.
  destruct op; cbn [exec] in Hexec.
  - apply Authorize_Ok in Hexec as [Hval Hperf].
    apply validateAuthorizationRequest_None in Hval as (_ & _ & Hamount).
    apply performAuthorization_Ok in Hperf
      as (account & Hfind & _ & Havail & Htx & -> & _).
    apply Acc_FindByAccountNumber_Ok in Hfind as [Hin _].
    destruct (accounts_typed_In _ _ Htyped Hin) as [_ Hr].
    assert (Hmax : amount <= Int64.max_signed) by (unfold Int64.in_range in Hr; lia).
    rewrite neg_exact by (unfold Int64.min_signed; lia).
    cbn [accounts transactions]. rewrite map_AccID_adjust_rows.
    split; [|split; [exact Hnd|]].
    + constructor; [subst tx; cbn; lia | exact Hrows].
    + apply adjust_rows_nonneg_one; auto. lia.
  - apply inTx_Ok in Hexec as (_ & _ & Hperf).
    apply performCapture_Ok in Hperf
      as (auth & Hfind & Htype & Hstatus & _ & Hamt & Htx & -> & _).
    apply Tx_FindByID_Ok in Hfind as [Hin _].
    pose proof (rows_positive_In _ _ Hrows Hin) as Hauth.
    cbn [accounts transactions]. rewrite map_AccID_adjust_rows.
    split; [|split; [exact Hnd|]].
    + constructor; [subst tx; cbn; lia|].
      apply set_status_Forall; [auto | exact Hrows].
    + apply adjust_rows_nonneg_up; [lia | exact Hnn].
  - apply inTx_Ok in Hexec as (_ & _ & Hperf).
    apply performVoid_Ok in Hperf as (auth & Hfind & Htype & Hstatus & Htx & -> & _).
    apply Tx_FindByID_Ok in Hfind as [Hin _].
    pose proof (rows_positive_In _ _ Hrows Hin) as Hauth.
    cbn [accounts transactions]. rewrite map_AccID_adjust_rows.
    split; [|split; [exact Hnd|]].
    + constructor; [subst tx; cbn; lia|].
      apply set_status_Forall; [auto | exact Hrows].
    + apply adjust_rows_nonneg_up; [lia | exact Hnn].
  - apply inTx_Ok in Hexec as (_ & _ & Hperf).
    apply performRefund_Ok in Hperf as (cap & Hfind & Htype & Hstatus & Hamt & Htx & -> & _).
    apply Tx_FindByID_Ok in Hfind as [Hin _].
    pose proof (rows_positive_In _ _ Hrows Hin) as Hcap.
    cbn [accounts transactions]. rewrite map_AccID_adjust_rows.
    split; [|split; [exact Hnd|]].
    + constructor; [subst tx; cbn; lia | exact Hrows].
    + apply adjust_rows_nonneg_up; [lia | exact Hnn].
Qed.

(** No overdraft.  From a seed state whose accounts have distinct ids and
    balances with [0 <= available <= posted], every history of Authorize,
    Capture, Void and Refund requests leaves every account with an
    available balance and a posted balance of at least zero, and every
    row of the ledger with a positive amount. *)
Theorem accounts_never_overdrawn
    (s : Service.AuthorizationService) (history : list (Env * Op)) (db0 : DB) :
  seed db0 ->
  List.NoDup (map AccID (accounts db0)) ->
  Forall (fun a => 0 <= AvailableBalanceCents a <= BalanceCents a) (accounts db0) ->
  solvent (run s history db0) /\ rows_positive (run s history db0).
Proof.
  intros [Hempty Htyped] Hnd Hstart.
  assert (Hrows : rows_positive db0) by (unfold rows_positive; rewrite Hempty; constructor).
  assert (Hcov : holds_covered db0).
  { unfold holds_covered. rewrite Hempty.
    eapply List.Forall_impl; [|exact Hstart]. cbn. intros a Ha. lia. }
  assert (Hnn : available_nonneg db0).
  { unfold available_nonneg. eapply List.Forall_impl; [|exact Hstart]. cbn. intros a Ha. lia. }
  clear Hempty Hstart.
  revert db0 Htyped Hrows Hcov Hnd Hnn.
  induction history as [|[env op] rest IH]; intros db Htyped Hrows Hcov Hnd Hnn; cbn [run].
  - split; [|exact Hrows].
    pose proof (rows_positive_holds _ Hrows) as Hpos.
    unfold solvent, holds_covered, available_nonneg, holds_positive in *.
    rewrite List.Forall_forall in *. intros a Hin.
    pose proof (ledger_sum_hold_nonneg (AccID a) (transactions db)) as Hsum.
    rewrite List.Forall_forall in Hsum. specialize (Hsum Hpos).
    specialize (Hcov a Hin). specialize (Hnn a Hin). lia.
  - destruct (exec_solvent s env op db Htyped Hrows Hcov Hnd Hnn)
      as (H1 & H2 & H3 & H4 & H5).
    now apply IH.
Qed.

Lemma accounts_never_overdrawn_witness :
  solvent (run Sample.svc sample_history Sample.db0)
  /\ rows_positive (run Sample.svc sample_history Sample.db0).
Proof.
  apply (accounts_never_overdrawn Sample.svc sample_history Sample.db0).
  - split; [reflexivity|]. exact sample_accounts_typed.
  - repeat constructor; cbn; intuition discriminate.
  - repeat constructor; cbn; lia.
Defined.

(** ** The error switch covers the services *)

Ltac pick_code :=
  cbn [In switch_codes]; repeat (first [left; reflexivity | right]).

Ltac classify_service_error H :=
  repeat (break_match_hyp H; try discriminate H);
  injection H as <- <- <-;
  first [ right; split; reflexivity | left; split; [pick_code | reflexivity] ].

Lemma inTx_body_error (env : Env) (db db' : DB) (body : DB -> result (Transaction * DB))
    (P : error -> Prop) (e : error) :
  (forall msg, P (ServiceError Service.ErrCodeInternalError msg None)) ->
  (forall e', body db = Err e' -> P e') ->
  Service.inTx env db body = (Err e, db') -> P e.
Proof.
  intros Hinternal Hbody H.
  destruct (inTx_Err_cases _ _ _ _ _ H) as [(msg & ->) | (_ & Hb)]; auto.
Qed.

(** Every service error of a POST endpoint carries either one of the
    thirteen codes that the handlers' switch names, or [internal_error]:
    the switch's fallback to the internal-error code is reached by that
    code alone, so no business code is lost on the way to the client.
    Service errors are never wrapped around a cause. *)
Theorem service_codes_are_switch_codes (s : Service.AuthorizationService) (env : Env)
    (op : Op) (db : DB) (code msg : string) (cause : option error) :
  fst (exec s env op db) = Err (ServiceError code msg cause) ->
  (In code switch_codes \/ code = Service.ErrCodeInternalError)
  /\ cause = None
  /\ (Handlers.mapServiceErrorToCode code = Handlers.ErrorCodeInternalError
      <-> code = Service.ErrCodeInternalError).
Proof.
  intros Hexec.
  assert (Hclass : (In code switch_codes /\ cause = None)
                   \/ (code = Service.ErrCodeInternalError /\ cause = None)).
  { destruct (exec s env op db) as [r db'] eqn:Hrun. cbn [fst] in Hexec. subst r.
    destruct op; cbn [exec] in Hrun.
    - unfold Service.Authorize in Hrun.
      destruct (Service.validateAuthorizationRequest cardNumber cvv amount) as [err|] eqn:Hv.
      + injection Hrun as -> _. unfold Service.validateAuthorizationRequest in Hv.
        classify_service_error Hv.
      + refine (inTx_body_error _ _ _ _
                  (fun e => forall c m k, e = ServiceError c m k ->
                     (In c switch_codes /\ k = None)
                     \/ (c = Service.ErrCodeInternalError /\ k = None))
                  _ _ _ Hrun code msg cause eq_refl).
        * intros m0 c m k [= <- _ <-]. right. split; reflexivity.
        * intros e' Hb c m k ->. unfold Service.performAuthorization in Hb.
          classify_service_error Hb.
    - refine (inTx_body_error _ _ _ _
                (fun e => forall c m k, e = ServiceError c m k ->
                   (In c switch_codes /\ k = None)
                   \/ (c = Service.ErrCodeInternalError /\ k = None))
                _ _ _ Hrun code msg cause eq_refl).
      + intros m0 c m k [= <- _ <-]. right. split; reflexivity.
      + intros e' Hb c m k ->. unfold Service.performCapture in Hb.
        classify_service_error Hb.
    - refine (inTx_body_error _ _ _ _
                (fun e => forall c m k, e = ServiceError c m k ->
                   (In c switch_codes /\ k = None)
                   \/ (c = Service.ErrCodeInternalError /\ k = None))
                _ _ _ Hrun code msg cause eq_refl).
      + intros m0 c m k [= <- _ <-]. right. split; reflexivity.
      + intros e' Hb c m k ->. unfold Service.performVoid in Hb.
        classify_service_error Hb.
    - refine (inTx_body_error _ _ _ _
                (fun e => forall c m k, e = ServiceError c m k ->
                   (In c switch_codes /\ k = None)
                   \/ (c = Service.ErrCodeInternalError /\ k = None))
                _ _ _ Hrun code msg cause eq_refl).
      + intros m0 c m k [= <- _ <-]. right. split; reflexivity.
      + intros e' Hb c m k ->. unfold Service.performRefund in Hb.
        classify_service_error Hb. }
  clear Hexec.
  destruct Hclass as [[Hin ->] | [-> ->]].
  - split; [now left|]. split; [reflexivity|].
    cbn [In switch_codes] in Hin.
    repeat (destruct Hin as [<- | Hin]; [split; intros H; discriminate H|]).
    contradiction.
  - split; [now right|]. split; [reflexivity|]. split; reflexivity.
Qed.

Lemma service_codes_are_switch_codes_witness :
  (In Service.ErrCodeAuthNotFound switch_codes
   \/ Service.ErrCodeAuthNotFound = Service.ErrCodeInternalError)
  /\ @None error = None
  /\ (Handlers.mapServiceErrorToCode Service.ErrCodeAuthNotFound
      = Handlers.ErrorCodeInternalError
      <-> Service.ErrCodeAuthNotFound = Service.ErrCodeInternalError).
Proof.
  apply (service_codes_are_switch_codes Sample.svc (Sample.env 1000 100%N)
           (OpCapture 999%N 100) Sample.db0 Service.ErrCodeAuthNotFound
           "authorization not found" None).
  reflexivity.
Defined.

(** ** The expiry of a hold *)


